(** * Facility booking system: booking lifecycle, validation and facility deletion

    A shallow embedding of the parts of the application that decide the
    booking lifecycle:

    - [forms.py]    : [BookingForm] and its inline validators;
    - [database.py] : the schema created by [init_database] (primary keys,
                      AUTO_INCREMENT, NOT NULL, foreign keys with
                      ON DELETE CASCADE);
    - [models.py]   : [execute_query] and the [User], [Facility] and
                      [Booking] accessors;
    - [app.py]      : the routes [create_booking], [cancel_booking],
                      [approve_booking], [reject_booking], [delete_facility].

    Tables are finite maps from the primary key to the remaining columns.
    One SQL statement is one function on the store; a statement the server
    refuses raises [mysql.connector.Error], which [models.execute_query] does
    not catch.  The connection itself is assumed to be available. *)

From Stdlib Require Import ZArith QArith Ascii String List Lia.
From stdpp Require Import gmap strings fin_maps pretty sorting.

Local Open Scope Z_scope.

(* ===================================================================== *)
(** * Dates and times of day                                              *)
(* ===================================================================== *)

(** [datetime.date]: compared as the tuple (year, month, day). *)
Record date := mk_date { year : Z; month : Z; day : Z }.

(** [datetime.time] as produced by [TimeField(format='%H:%M')]: hour and
    minute; seconds and microseconds are always zero for this format. *)
Record time := mk_time { hour : Z; minute : Z }.

#[global] Instance date_eq_dec : EqDecision date.
Proof. solve_decision. Defined.
#[global] Instance time_eq_dec : EqDecision time.
Proof. solve_decision. Defined.

(** [a < b] on dates. *)
Definition date_ltb (a b : date) : bool :=
  (year a <? year b)
  || ((year a =? year b)
      && ((month a <? month b)
          || ((month a =? month b) && (day a <? day b)))).

(** [a < b] and [a <= b] on times of day. *)
Definition time_ltb (a b : time) : bool :=
  (hour a <? hour b) || ((hour a =? hour b) && (minute a <? minute b)).

Definition time_leb (a b : time) : bool :=
  (hour a <? hour b) || ((hour a =? hour b) && (minute a <=? minute b)).

(** The range [datetime.time] enforces on its fields. *)
Definition time_valid (t : time) : Prop :=
  0 <= hour t < 24 /\ 0 <= minute t < 60.

Definition seconds_since_midnight (t : time) : Z :=
  3600 * hour t + 60 * minute t.

(** [(datetime.combine(d, e) - datetime.combine(d, s)).total_seconds()]:
    both operands are combined with the same date. *)
Definition total_seconds (e s : time) : Z :=
  seconds_since_midnight e - seconds_since_midnight s.

(** The server's clock: [date.today()] and the wall-clock time of day. *)
Record clock := { today : date; now : time }.

(** Boolean strict order on rationals, from [Qle_bool]. *)
Definition Qlt_bool (x y : Q) : bool := negb (Qle_bool y x).

(* ===================================================================== *)
(** * forms.py: BookingForm                                               *)
(* ===================================================================== *)

Module BookingForm.

(** The processed form: [field.data] for each field.  [None] is a field
    that was not submitted or whose text did not parse with the field's
    format.  [facility_id] is a [HiddenField], so its data is the raw
    text (the empty string also stands for a missing field: both fail
    [InputRequired] alike).  [csrf_token] records whether the token
    field that [FlaskForm] adds validated. *)
Record data := {
  csrf_token : bool;
  facility_id : string;
  booking_date : option date;
  start_time : option time;
  end_time : option time;
  purpose : string
}.

(** What a validator does: return, or raise [ValidationError]. *)
Inductive outcome :=
| Passed
| ValidationError (message : string).

Definition errors_of (o : outcome) : list string :=
  match o with
  | Passed => []
  | ValidationError m => [m]
  end.

(** [validate_booking_date]: runs after [DataRequired], so [field.data]
    is a date. *)
Definition validate_booking_date (clk : clock) (field_data : date) : outcome :=
  if date_ltb field_data (today clk)
  then ValidationError "Cannot book for past dates"
  else Passed.

(** [duration_hours = (end_datetime - start_datetime).total_seconds() / 3600].
    The quotient is taken in the rationals: the float quotient compares
    with 8 and 0.5 (both exact floats) as the exact one does, since the
    numerator is a whole number of seconds. *)
Definition duration_hours (e s : time) : Q :=
  (inject_Z (total_seconds e s) / inject_Z 3600)%Q.

(** [validate_end_time]: runs after [DataRequired] on [end_time], so
    [field.data] is a time; [self.start_time.data] may be [None].  A time
    object is always truthy (Python 3.5 and later), so the guard
    [if self.start_time.data and field.data] only asks for presence. *)
Definition validate_end_time (form : data) (field_data : time) : outcome :=
  match start_time form with
  | Some st =>
      if time_leb field_data st
      then ValidationError "End time must be after start time"
      else if Qlt_bool (inject_Z 8) (duration_hours field_data st)
      then ValidationError "Maximum booking duration is 8 hours"
      else if Qlt_bool (duration_hours field_data st) (1 # 2)
      then ValidationError "Minimum booking duration is 30 minutes"
      else Passed
  | None => Passed
  end.

(** A field's chain [DataRequired(), inline]: [DataRequired] raises
    [StopValidation] when the data is missing, so the inline validator
    only sees present data. *)
Definition required_then {A} (field_data : option A) (inline : A -> outcome)
  : list string :=
  match field_data with
  | None => ["This field is required."]
  | Some d => errors_of (inline d)
  end.

(** [form.errors], field by field.  One message stands for the several
    that the token check can give. *)
Definition csrf_token_errors (form : data) : list string :=
  if csrf_token form then [] else ["The CSRF token is invalid."].

(** [InputRequired]: the raw text must be non-empty. *)
Definition facility_id_errors (form : data) : list string :=
  if decide (facility_id form = "") then ["This field is required."] else [].

Definition booking_date_errors (clk : clock) (form : data) : list string :=
  required_then (booking_date form) (validate_booking_date clk).

Definition start_time_errors (form : data) : list string :=
  required_then (start_time form) (fun _ => Passed).

Definition end_time_errors (form : data) : list string :=
  required_then (end_time form) (validate_end_time form).

(** [Length(max=500)]. *)
Definition purpose_errors (form : data) : list string :=
  if (500 <? Z.of_nat (String.length (purpose form)))
  then ["Field cannot be longer than 500 characters."] else [].

Definition no_errors (l : list string) : bool :=
  match l with [] => true | _ => false end.

(** [Form.validate]: every field is validated; the form is valid when no
    field has an error. *)
Definition validate (clk : clock) (form : data) : bool :=
  no_errors (csrf_token_errors form)
  && no_errors (facility_id_errors form)
  && no_errors (booking_date_errors clk form)
  && no_errors (start_time_errors form)
  && no_errors (end_time_errors form)
  && no_errors (purpose_errors form).

(** [validate_on_submit]: the routes accept POST only, so the form is
    always submitted. *)
Definition validate_on_submit (clk : clock) (form : data) : bool :=
  validate clk form.

End BookingForm.

(* ===================================================================== *)
(** * database.py: the schema of init_database                            *)
(* ===================================================================== *)

(** [role ENUM('admin', 'staff')]. *)
Inductive role := admin | staff.

(** [status ENUM('pending', 'approved', 'rejected', 'cancelled')]. *)
Inductive booking_status := pending | approved | rejected | cancelled.

(** [status ENUM('active', 'inactive')]. *)
Inductive facility_status := active | inactive.

#[global] Instance role_eq_dec : EqDecision role.
Proof. solve_decision. Defined.
#[global] Instance booking_status_eq_dec : EqDecision booking_status.
Proof. solve_decision. Defined.
#[global] Instance facility_status_eq_dec : EqDecision facility_status.
Proof. solve_decision. Defined.

(** Rows: the columns other than the primary key, which is the key of the
    table's map. *)
Record user_row := {
  u_name : string;
  u_email : string;
  u_password : string;
  u_role : role
}.

Record facility_row := {
  f_name : string;
  f_capacity : Z;
  f_status : facility_status;
  f_description : option string;
  f_image : option string
}.

Record booking_row := {
  b_user_id : Z;
  b_facility_id : Z;
  b_booking_date : date;
  b_start_time : time;
  b_end_time : time;
  b_status : booking_status;
  b_purpose : string;
  b_created_at : date * time
}.

#[global] Instance user_row_eq_dec : EqDecision user_row.
Proof. solve_decision. Defined.
#[global] Instance facility_row_eq_dec : EqDecision facility_row.
Proof. solve_decision. Defined.
#[global] Instance booking_row_eq_dec : EqDecision booking_row.
Proof. solve_decision. Defined.

(** [SET status = s] on one row. *)
Definition with_status (s : booking_status) (b : booking_row) : booking_row :=
  {| b_user_id := b_user_id b;
     b_facility_id := b_facility_id b;
     b_booking_date := b_booking_date b;
     b_start_time := b_start_time b;
     b_end_time := b_end_time b;
     b_status := s;
     b_purpose := b_purpose b;
     b_created_at := b_created_at b |}.

(** The store: the three tables and the AUTO_INCREMENT counter of
    [bookings.booking_id]. *)
Record DB := {
  users : gmap Z user_row;
  facilities : gmap Z facility_row;
  bookings : gmap Z booking_row;
  next_booking_id : Z
}.

Definition set_bookings (t : gmap Z booking_row) (db : DB) : DB :=
  {| users := users db;
     facilities := facilities db;
     bookings := t;
     next_booking_id := next_booking_id db |}.

(** The store right after [init_database]. *)
Definition empty_db : DB :=
  {| users := ∅; facilities := ∅; bookings := ∅; next_booking_id := 1 |}.

(* ===================================================================== *)
(** * SQL statements over a table                                         *)
(* ===================================================================== *)

Section sql.
Context {R : Type} `{EqDecision R}.

(** [UPDATE t SET ... WHERE ...]: every selected row is rewritten. *)
Definition sql_update (where_ : Z → R → bool) (set : R → R)
    (t : gmap Z R) : gmap Z R :=
  map_imap (λ k r, Some (if where_ k r then set r else r)) t.

(** Its affected-row count: the selected rows whose value changes. *)
Definition sql_update_rowcount (where_ : Z → R → bool) (set : R → R)
    (t : gmap Z R) : Z :=
  Z.of_nat (size (filter (λ kr, where_ kr.1 kr.2 = true ∧ set kr.2 ≠ kr.2) t)).

(** [SELECT COUNT( * ) FROM t WHERE ...]. *)
Definition sql_count (where_ : Z → R → bool) (t : gmap Z R) : Z :=
  Z.of_nat (size (filter (λ kr, where_ kr.1 kr.2 = true) t)).

(** [DELETE FROM t WHERE ...]: the rows that stay. *)
Definition sql_delete (where_ : Z → R → bool) (t : gmap Z R) : gmap Z R :=
  filter (λ kr, where_ kr.1 kr.2 = false) t.
End sql.

(** MySQL's conversion of a quoted text parameter to an INT column;
    [None] when the server refuses the text.  Its rules depend on the
    server's sql_mode, so it is an interface. *)
Class SqlCoercion := sql_int : string → option Z.

(* ===================================================================== *)
(** * models.py                                                           *)
(* ===================================================================== *)

(** [mysql.connector.Error] raised by [cursor.execute]. *)
Inductive db_error :=
| DataError        (* a text that is no integer for an INT column *)
| IntegrityError.  (* NOT NULL, foreign key or duplicate key *)

(** What [execute_query] reads from the cursor after a write. *)
Record cursor := { rowcount : Z; lastrowid : Z }.

(** A write statement: it raises, or leaves a cursor and a new store. *)
Definition statement := DB → db_error + (cursor * DB).

(** [execute_query] with [fetch=False, fetch_one=False]: commit and return
    [cursor.rowcount].  An error raised by [cursor.execute] is not caught;
    nothing was committed. *)
Definition execute_query (query : statement) (db : DB) : db_error + (Z * DB) :=
  match query db with
  | inl e => inl e
  | inr (cur, db') => inr (rowcount cur, db')
  end.

Module User.

(** The [User] object: [user_id] and the row. *)
Record t := { user_id : Z; name : string; email : string;
              password : string; role_of : role }.

Definition of_row (k : Z) (r : user_row) : t :=
  {| user_id := k; name := u_name r; email := u_email r;
     password := u_password r; role_of := u_role r |}.

(** [SELECT * FROM users WHERE user_id = %s], one row fetched. *)
Definition get_by_id (k : Z) (db : DB) : option t :=
  of_row k <$> users db !! k.

Definition is_admin (u : t) : bool := bool_decide (role_of u = admin).
Definition is_staff (u : t) : bool := bool_decide (role_of u = staff).

End User.

Module Facility.

(** [SELECT * FROM facilities WHERE facility_id = %s], one row fetched. *)
Definition get_by_id (facility_id : Z) (db : DB) : option facility_row :=
  facilities db !! facility_id.

(** [WHERE facility_id = %s AND status IN ('pending', 'approved')]. *)
Definition active_for (facility_id : Z) (_ : Z) (b : booking_row) : bool :=
  bool_decide (b_facility_id b = facility_id)
  && (bool_decide (b_status b = pending) || bool_decide (b_status b = approved)).

(** [row["count"] > 0]; COUNT always yields a row. *)
Definition has_active_bookings (facility_id : Z) (db : DB) : bool :=
  0 <? sql_count (active_for facility_id) (bookings db).

(** [DELETE FROM facilities WHERE facility_id = %s].  The bookings table
    declares [FOREIGN KEY (facility_id) REFERENCES facilities
    (facility_id) ON DELETE CASCADE]: the bookings that reference a
    deleted facility row go with it. *)
Definition delete_statement (facility_id : Z) : statement := λ db,
  let gone := filter (λ kr, kr.1 = facility_id) (facilities db) in
  inr ({| rowcount := Z.of_nat (size gone); lastrowid := 0 |},
       {| users := users db;
          facilities :=
            sql_delete (λ k _, bool_decide (k = facility_id)) (facilities db);
          bookings :=
            sql_delete (λ _ b, bool_decide (is_Some (gone !! b_facility_id b)))
                       (bookings db);
          next_booking_id := next_booking_id db |}).

Definition delete (facility_id : Z) (db : DB) : db_error + (Z * DB) :=
  execute_query (delete_statement facility_id) db.

End Facility.

Module Booking.

(** The row of [VALUES (%s, %s, %s, %s, %s, %s, 'pending')]; [created_at]
    defaults to CURRENT_TIMESTAMP. *)
Definition inserted_row (clk : clock) (user_id fid : Z) (d : date)
    (st et : time) (purpose : string) : booking_row :=
  {| b_user_id := user_id;
     b_facility_id := fid;
     b_booking_date := d;
     b_start_time := st;
     b_end_time := et;
     b_status := pending;
     b_purpose := purpose;
     b_created_at := (today clk, now clk) |}.

Section create.
Context {coercion : SqlCoercion}.

(** [INSERT INTO bookings (user_id, facility_id, booking_date,
    start_time, end_time, purpose, status) VALUES (..., 'pending')].
    The server checks the INT text, the NOT NULL columns and both
    foreign keys, takes [booking_id] from the AUTO_INCREMENT counter
    and [created_at] from CURRENT_TIMESTAMP. *)
Definition create_statement (clk : clock) (user_id : Z) (facility_id : string)
    (booking_date : option date) (start_time end_time : option time)
    (purpose : string) : statement := λ db,
  match sql_int facility_id with
  | None => inl DataError
  | Some fid =>
      match booking_date, start_time, end_time with
      | Some d, Some st, Some et =>
          if decide (is_Some (users db !! user_id)
                     ∧ is_Some (facilities db !! fid)
                     ∧ bookings db !! next_booking_id db = None)
          then
            inr ({| rowcount := 1; lastrowid := next_booking_id db |},
                 {| users := users db;
                    facilities := facilities db;
                    bookings :=
                      <[ next_booking_id db :=
                           inserted_row clk user_id fid d st et purpose ]>
                        (bookings db);
                    next_booking_id := next_booking_id db + 1 |})
          else inl IntegrityError
      | _, _, _ => inl IntegrityError
      end
  end.

Definition create (clk : clock) (user_id : Z) (facility_id : string)
    (booking_date : option date) (start_time end_time : option time)
    (purpose : string) (db : DB) : db_error + (Z * DB) :=
  execute_query
    (create_statement clk user_id facility_id booking_date
                      start_time end_time purpose) db.
End create.

(** [UPDATE bookings SET status = %s WHERE booking_id = %s]. *)
Definition update_status_statement (booking_id : Z) (status : booking_status)
  : statement := λ db,
  let where_ := λ (k : Z) (_ : booking_row), bool_decide (k = booking_id) in
  inr ({| rowcount := sql_update_rowcount where_ (with_status status) (bookings db);
          lastrowid := 0 |},
       set_bookings (sql_update where_ (with_status status) (bookings db)) db).

Definition update_status (booking_id : Z) (status : booking_status) (db : DB)
  : db_error + (Z * DB) :=
  execute_query (update_status_statement booking_id status) db.

(** [UPDATE bookings SET status = 'cancelled'
     WHERE booking_id = %s AND user_id = %s AND status = 'pending']. *)
Definition cancel_where (booking_id user_id : Z) (k : Z) (b : booking_row) : bool :=
  bool_decide (k = booking_id)
  && bool_decide (b_user_id b = user_id)
  && bool_decide (b_status b = pending).

Definition cancel_statement (booking_id user_id : Z) : statement := λ db,
  let where_ := cancel_where booking_id user_id in
  inr ({| rowcount := sql_update_rowcount where_ (with_status cancelled) (bookings db);
          lastrowid := 0 |},
       set_bookings (sql_update where_ (with_status cancelled) (bookings db)) db).

Definition cancel (booking_id user_id : Z) (db : DB) : db_error + (Z * DB) :=
  execute_query (cancel_statement booking_id user_id) db.

End Booking.

(* ===================================================================== *)
(** * app.py: the routes                                                  *)
(* ===================================================================== *)

(** What a view does: [abort(code)], [flash(message, category)] followed by
    [redirect(url_for(endpoint))], or an uncaught database error (HTTP 500). *)
Inductive response :=
| Abort (code : Z)
| Redirect (flashed : string * string) (endpoint : string)
| ServerError (e : db_error).

Section routes.
Context {coercion : SqlCoercion}.

Definition create_booking (clk : clock) (current_user : User.t)
    (form : BookingForm.data) (db : DB) : response * DB :=
  if negb (User.is_staff current_user) then (Abort 403, db)
  else if negb (BookingForm.validate_on_submit clk form)
  then (Redirect ("Invalid booking data.", "dashboard-danger") "staff_dashboard", db)
  else
    match Booking.create clk (User.user_id current_user)
            (BookingForm.facility_id form) (BookingForm.booking_date form)
            (BookingForm.start_time form) (BookingForm.end_time form)
            (BookingForm.purpose form) db with
    | inl e => (ServerError e, db)
    | inr (_, db') =>
        (Redirect ("Booking request submitted.", "dashboard-success")
                  "staff_dashboard", db')
    end.
End routes.

Definition cancel_booking (current_user : User.t) (booking_id : Z) (db : DB)
  : response * DB :=
  if negb (User.is_staff current_user) then (Abort 403, db)
  else
    match Booking.cancel booking_id (User.user_id current_user) db with
    | inl e => (ServerError e, db)
    | inr (_, db') =>
        (Redirect ("Booking cancelled successfully.", "dashboard-success")
                  "my_bookings", db')
    end.

Definition approve_booking (current_user : User.t) (booking_id : Z) (db : DB)
  : response * DB :=
  if negb (User.is_admin current_user) then (Abort 403, db)
  else
    match Booking.update_status booking_id approved db with
    | inl e => (ServerError e, db)
    | inr (_, db') =>
        (Redirect ("Booking approved.", "dashboard-success") "pending_bookings", db')
    end.

Definition reject_booking (current_user : User.t) (booking_id : Z) (db : DB)
  : response * DB :=
  if negb (User.is_admin current_user) then (Abort 403, db)
  else
    match Booking.update_status booking_id rejected db with
    | inl e => (ServerError e, db)
    | inr (_, db') =>
        (Redirect ("Booking rejected.", "dashboard-success") "pending_bookings", db')
    end.

Definition delete_facility (current_user : User.t) (facility_id : Z) (db : DB)
  : response * DB :=
  if negb (User.is_admin current_user) then (Abort 403, db)
  else
    match Facility.get_by_id facility_id db with
    | None =>
        (Redirect ("Facility not found.", "dashboard-danger") "facilities_list", db)
    | Some _ =>
        if Facility.has_active_bookings facility_id db
        then (Redirect ("Cannot delete facility with active or pending bookings.",
                        "dashboard-danger") "facilities_list", db)
        else
          match Facility.delete facility_id db with
          | inl e => (ServerError e, db)
          | inr (_, db') =>
              (Redirect ("Facility deleted successfully.", "dashboard-success")
                        "facilities_list", db')
          end
    end.

(* ===================================================================== *)
(** * Invariants of the store                                             *)
(* ===================================================================== *)

(** AUTO_INCREMENT: every stored [booking_id] is below the counter. *)
Definition auto_increment_ok (db : DB) : Prop :=
  map_Forall (λ k _, k < next_booking_id db) (bookings db).

(** Both foreign keys of every booking resolve. *)
Definition foreign_keys_ok (db : DB) : Prop :=
  map_Forall (λ _ b, is_Some (users db !! b_user_id b)
                     ∧ is_Some (facilities db !! b_facility_id b))
             (bookings db).

Definition consistent (db : DB) : Prop :=
  auto_increment_ok db ∧ foreign_keys_ok db.

#[global] Instance consistent_dec db : Decision (consistent db).
Proof. unfold consistent, auto_increment_ok, foreign_keys_ok. apply _. Defined.

(** Bookings are created by staff members only, and roles never change:
    the owner of every booking is a staff member. *)
Definition owners_are_staff (db : DB) : Prop :=
  map_Forall (λ _ b, u_role <$> users db !! b_user_id b = Some staff) (bookings db).

(** The current user is a row of the users table (what [load_user] gives). *)
Definition logged_in (u : User.t) (db : DB) : Prop :=
  User.get_by_id (User.user_id u) db = Some u.

(** The store after a successful insert. *)
Definition after_insert (db : DB) (row : booking_row) : DB :=
  {| users := users db;
     facilities := facilities db;
     bookings := <[ next_booking_id db := row ]> (bookings db);
     next_booking_id := next_booking_id db + 1 |}.

(** The store after facility [fid] and the bookings that reference it are
    gone. *)
Definition after_delete (db : DB) (fid : Z) : DB :=
  {| users := users db;
     facilities := delete fid (facilities db);
     bookings := filter (λ kr, b_facility_id kr.2 ≠ fid) (bookings db);
     next_booking_id := next_booking_id db |}.

(** A booking that keeps its facility from being deleted. *)
Definition active_booking (fid : Z) (b : booking_row) : Prop :=
  b_facility_id b = fid ∧ (b_status b = pending ∨ b_status b = approved).

(** Two time windows [s1, e1) and [s2, e2) of one day share a moment. *)
Definition overlaps (s1 e1 s2 e2 : time) : bool :=
  time_ltb s1 e2 && time_ltb s2 e1.

(* ===================================================================== *)
(** * A concrete coercion and concrete stores, for the examples           *)
(* ===================================================================== *)

Definition digit_of (c : ascii) : option Z :=
  let n := Z.of_nat (nat_of_ascii c) in
  if (48 <=? n) && (n <=? 57) then Some (n - 48) else None.

Fixpoint decimal_from (s : string) (acc : Z) : option Z :=
  match s with
  | EmptyString => Some acc
  | String c rest =>
      match digit_of c with
      | Some d => decimal_from rest (10 * acc + d)
      | None => None
      end
  end.

(** The coercion of a server that accepts exactly the unsigned decimal
    numerals. *)
Definition digits_only : SqlCoercion := λ s,
  match s with
  | EmptyString => None
  | _ => decimal_from s 0
  end.

(** Today is 15 January 2026, and it is noon. *)
Definition noon_15_jan : clock :=
  {| today := mk_date 2026 1 15; now := mk_time 12 0 |}.

Definition staff_alice : User.t :=
  {| User.user_id := 1; User.name := "Alice"; User.email := "alice@example.com";
     User.password := "hash-a"; User.role_of := staff |}.

Definition staff_bob : User.t :=
  {| User.user_id := 2; User.name := "Bob"; User.email := "bob@example.com";
     User.password := "hash-b"; User.role_of := staff |}.

Definition admin_carol : User.t :=
  {| User.user_id := 3; User.name := "Carol"; User.email := "carol@example.com";
     User.password := "hash-c"; User.role_of := admin |}.

Definition row_of (u : User.t) : user_row :=
  {| u_name := User.name u; u_email := User.email u;
     u_password := User.password u; u_role := User.role_of u |}.

Definition room_a : facility_row :=
  {| f_name := "Conference Room A"; f_capacity := 12; f_status := active;
     f_description := None; f_image := None |}.

(** Three users, facility 1, no booking yet, and a counter that has
    already handed out six identifiers. *)
Definition store_7 : DB :=
  {| users := {[ 1 := row_of staff_alice; 2 := row_of staff_bob;
                 3 := row_of admin_carol ]};
     facilities := {[ 1 := room_a ]};
     bookings := ∅;
     next_booking_id := 7 |}.

Definition form_for (text : string) (d : date) (st et : time) : BookingForm.data :=
  {| BookingForm.csrf_token := true;
     BookingForm.facility_id := text;
     BookingForm.booking_date := Some d;
     BookingForm.start_time := Some st;
     BookingForm.end_time := Some et;
     BookingForm.purpose := "Planning" |}.

(** Facility 1, tomorrow, 09:00 to 10:30. *)
Definition form_morning : BookingForm.data :=
  form_for "1" (mk_date 2026 1 16) (mk_time 9 0) (mk_time 10 30).

(** Facility 1, tomorrow, 10:00 to 11:00: overlaps [form_morning]. *)
Definition form_clash : BookingForm.data :=
  form_for "1" (mk_date 2026 1 16) (mk_time 10 0) (mk_time 11 0).

(** Start 14:00, end 13:00. *)
Definition form_backwards : BookingForm.data :=
  form_for "1" (mk_date 2026 1 16) (mk_time 14 0) (mk_time 13 0).

(** Nine hours, 08:00 to 17:00. *)
Definition form_nine_hours : BookingForm.data :=
  form_for "1" (mk_date 2026 1 16) (mk_time 8 0) (mk_time 17 0).

(** Yesterday. *)
Definition form_yesterday : BookingForm.data :=
  form_for "1" (mk_date 2026 1 14) (mk_time 9 0) (mk_time 10 30).

(** Today, 08:00 to 09:00, submitted at noon. *)
Definition form_this_morning : BookingForm.data :=
  form_for "1" (mk_date 2026 1 15) (mk_time 8 0) (mk_time 9 0).

(** A facility that is not in the table. *)
Definition form_no_such_facility : BookingForm.data :=
  form_for "9" (mk_date 2026 1 16) (mk_time 9 0) (mk_time 10 30).

Definition booking_of (u : User.t) (fid : Z) (s : booking_status) : booking_row :=
  with_status s
    (Booking.inserted_row noon_15_jan (User.user_id u) fid (mk_date 2026 1 16)
                          (mk_time 9 0) (mk_time 10 30) "Planning").

(** Facility 1 with one cancelled booking of Alice (id 5) and one rejected
    booking of Bob (id 6); facility 2 with one approved booking of Bob
    (id 4). *)
Definition store_busy : DB :=
  {| users := {[ 1 := row_of staff_alice; 2 := row_of staff_bob;
                 3 := row_of admin_carol ]};
     facilities := {[ 1 := room_a; 2 := room_a ]};
     bookings := {[ 4 := booking_of staff_bob 2 approved;
                    5 := booking_of staff_alice 1 cancelled;
                    6 := booking_of staff_bob 1 rejected ]};
     next_booking_id := 7 |}.

(** [store_7] after Alice's morning request (booking 7, pending), and after
    its approval. *)
Definition store_pending : DB :=
  after_insert store_7 (booking_of staff_alice 1 pending).

Definition store_approved : DB :=
  set_bookings (<[ 7 := booking_of staff_alice 1 approved ]> (bookings store_pending))
               store_pending.

(* ===================================================================== *)
(** * models.py: counts and statistics                                    *)
(* ===================================================================== *)

(** [SELECT SUM(e) FROM t WHERE ...]: NULL ([None]) when no row is
    selected. *)
Definition sql_sum {R : Type} (where_ : Z → R → bool) (e : R → Z)
    (t : gmap Z R) : option Z :=
  let rows := filter (λ kr, where_ kr.1 kr.2 = true) t in
  if (size rows =? 0)%nat then None
  else Some (map_fold (λ _ r acc, e r + acc) 0 rows).

(** A comparison used as a number, as in [SUM(status='pending')]. *)
Definition sql_bool (b : bool) : Z := if b then 1 else 0.

(** Python's [x or 0] on a number that may be [None]. *)
Definition or_0 (v : option Z) : Z :=
  match v with
  | Some n => if n =? 0 then 0 else n
  | None => 0
  end.

Module BookingQuery.

Definition status_is (s : booking_status) (_ : Z) (b : booking_row) : bool :=
  bool_decide (b_status b = s).

Definition of_user (user_id : Z) (_ : Z) (b : booking_row) : bool :=
  bool_decide (b_user_id b = user_id).

(** [SELECT COUNT( * ) AS count FROM bookings]. *)
Definition get_total_count (db : DB) : Z :=
  sql_count (λ _ _, true) (bookings db).

(** [... WHERE status = 'pending'], and likewise for the other two. *)
Definition get_pending_count (db : DB) : Z :=
  sql_count (status_is pending) (bookings db).

Definition get_approved_count (db : DB) : Z :=
  sql_count (status_is approved) (bookings db).

Definition get_rejected_count (db : DB) : Z :=
  sql_count (status_is rejected) (bookings db).

(** [SELECT COUNT( * ) AS total, SUM(status='pending') AS pending,
    SUM(status='approved') AS approved FROM bookings WHERE user_id = %s],
    each column passed through [or 0]; the result is a dict. *)
Definition get_user_stats (user_id : Z) (db : DB) : gmap string Z :=
  let total := Some (sql_count (of_user user_id) (bookings db)) in
  let pending_sum :=
    sql_sum (of_user user_id)
            (λ b, sql_bool (bool_decide (b_status b = pending))) (bookings db) in
  let approved_sum :=
    sql_sum (of_user user_id)
            (λ b, sql_bool (bool_decide (b_status b = approved))) (bookings db) in
  {[ "total" := or_0 total;
     "pending" := or_0 pending_sum;
     "approved" := or_0 approved_sum ]}.

End BookingQuery.

(** The number of bookings of a user, and of those in a given status. *)
Definition user_total (uid : Z) (db : DB) : Z :=
  sql_count (BookingQuery.of_user uid) (bookings db).

Definition user_in_status (uid : Z) (s : booking_status) (db : DB) : Z :=
  sql_count (λ k b, BookingQuery.of_user uid k b && bool_decide (b_status b = s))
            (bookings db).

(** The number of bookings in a given status. *)
Definition in_status (s : booking_status) (db : DB) : Z :=
  sql_count (BookingQuery.status_is s) (bookings db).

(** [Facility.get_active_count]:
    [SELECT COUNT( * ) AS count FROM facilities WHERE status = 'active']. *)
Definition get_active_count (db : DB) : Z :=
  sql_count (λ _ f, bool_decide (f_status f = active)) (facilities db).

(** [api_stats]: the global counts for an administrator, the requester's
    own statistics otherwise. *)
Definition api_stats (current_user : User.t) (db : DB) : gmap string Z :=
  if User.is_admin current_user
  then {[ "total" := BookingQuery.get_total_count db;
          "pending" := BookingQuery.get_pending_count db;
          "approved" := BookingQuery.get_approved_count db ]}
  else BookingQuery.get_user_stats (User.user_id current_user) db.

(* ===================================================================== *)
(** * database.py: execute_query                                          *)
(* ===================================================================== *)

Module Database.

(** What the function returns for a write: [None], [True] or an integer. *)
Inductive result := PyNone | PyTrue | PyInt (n : Z).

(** [execute_query] with [fetch=False, fetch_one=False].  [connected] tells
    whether [get_db_connection] gave a connection.  An error raised by
    [cursor.execute] is caught: it is logged, the transaction is rolled
    back and [None] is returned.  Otherwise the statement is committed and
    the result is [cursor.lastrowid if cursor.lastrowid else True]. *)
Definition execute_query (connected : bool) (query : statement) (db : DB)
  : result * DB :=
  if negb connected then (PyNone, db)
  else
    match query db with
    | inl _ => (PyNone, db)
    | inr (cur, db') =>
        (if lastrowid cur =? 0 then PyTrue else PyInt (lastrowid cur), db')
    end.

End Database.

(* ===================================================================== *)
(** * models.py: the Booking object                                       *)
(* ===================================================================== *)

(** What the constructor receives for a TIME column: the connector's
    [timedelta] (its [seconds] attribute), or a [datetime.time]. *)
Inductive time_value :=
| Timedelta (seconds : Z)
| TimeOfDay (t : time).

(** The format specification [02d]: decimal digits, padded with a zero to
    two characters. *)
Definition format_02d (n : Z) : string :=
  let s := pretty n in
  if (String.length s <? 2)%nat then "0" +:+ s else s.

(** [Booking._format_time]: [f"{h:02d}:{m:02d}"] from the seconds of a
    [timedelta], [strftime("%H:%M")] otherwise. *)
Definition _format_time (value : time_value) : string :=
  match value with
  | Timedelta seconds =>
      let h := seconds / 3600 in
      let m := (seconds mod 3600) / 60 in
      format_02d h +:+ ":" +:+ format_02d m
  | TimeOfDay t => format_02d (hour t) +:+ ":" +:+ format_02d (minute t)
  end.

(** Reading a five-character text [HH:MM] back, for the examples and the
    proofs: the two digits before and after the colon. *)
Definition read_hhmm (s : string) : option time :=
  match s with
  | String h1 (String h0 (String ":" (String m1 (String m0 EmptyString)))) =>
      match digit_of h1, digit_of h0, digit_of m1, digit_of m0 with
      | Some a, Some b, Some c, Some d => Some (mk_time (10 * a + b) (10 * c + d))
      | _, _, _, _ => None
      end
  | _ => None
  end.

(** All the times of day a form can carry. *)
Definition all_times : list time :=
  h ← seqZ 0 24; m ← seqZ 0 60; [mk_time h m].

(* ===================================================================== *)
(** * models.py: the lists of bookings                                    *)
(* ===================================================================== *)

(** [a <= b] on [created_at] values and on (date, start time) pairs: the
    date first, then the time of day. *)
Definition timestamp_leb (a b : date * time) : bool :=
  date_ltb a.1 b.1 || (negb (date_ltb b.1 a.1) && time_leb a.2 b.2).

(** One row of [bookings b JOIN ...] with the name columns the query
    selects ([u.name AS user_name], [f.name AS facility_name]). *)
Record joined := {
  j_id : Z;
  j_row : booking_row;
  j_user_name : option string;
  j_facility_name : option string
}.

Module BookingView.

(** The [Booking] object.  The two times are kept as formatted text. *)
Record t := {
  booking_id : Z;
  user_id : Z;
  facility_id : Z;
  booking_date : date;
  start_time : string;
  end_time : string;
  status : booking_status;
  purpose : string;
  created_at : date * time;
  user_name : option string;
  facility_name : option string
}.

(** [Booking( **row)]: the connector hands each TIME column over as a
    [timedelta]. *)
Definition of_joined (j : joined) : t :=
  {| booking_id := j_id j;
     user_id := b_user_id (j_row j);
     facility_id := b_facility_id (j_row j);
     booking_date := b_booking_date (j_row j);
     start_time :=
       _format_time (Timedelta (seconds_since_midnight (b_start_time (j_row j))));
     end_time :=
       _format_time (Timedelta (seconds_since_midnight (b_end_time (j_row j))));
     status := b_status (j_row j);
     purpose := b_purpose (j_row j);
     created_at := b_created_at (j_row j);
     user_name := j_user_name j;
     facility_name := j_facility_name j |}.

End BookingView.

Module BookingList.

(** [FROM bookings b JOIN facilities f ON f.facility_id = b.facility_id]. *)
Definition join_facilities (db : DB) (kb : Z * booking_row) : option joined :=
  f ← facilities db !! b_facility_id kb.2;
  Some {| j_id := kb.1; j_row := kb.2;
          j_user_name := None; j_facility_name := Some (f_name f) |}.

(** [FROM bookings b JOIN users u ON u.user_id = b.user_id
     JOIN facilities f ON f.facility_id = b.facility_id]. *)
Definition join_users_facilities (db : DB) (kb : Z * booking_row) : option joined :=
  u ← users db !! b_user_id kb.2;
  f ← facilities db !! b_facility_id kb.2;
  Some {| j_id := kb.1; j_row := kb.2;
          j_user_name := Some (u_name u); j_facility_name := Some (f_name f) |}.

(** [ORDER BY b.created_at DESC]. *)
Definition newest_first : relation joined := λ x y,
  timestamp_leb (b_created_at (j_row y)) (b_created_at (j_row x)) = true.

(** [ORDER BY b.booking_date ASC, b.start_time ASC]. *)
Definition soonest_first : relation joined := λ x y,
  timestamp_leb (b_booking_date (j_row x), b_start_time (j_row x))
                (b_booking_date (j_row y), b_start_time (j_row y)) = true.

#[global] Instance newest_first_dec : RelDecision newest_first.
Proof. intros x y. unfold newest_first. apply _. Defined.
#[global] Instance soonest_first_dec : RelDecision soonest_first.
Proof. intros x y. unfold soonest_first. apply _. Defined.

(** The rows of [get_by_user]: [WHERE b.user_id = %s ORDER BY
    b.created_at DESC].  Among rows with equal sort keys the server's order
    is not specified; the sort used here is one such order. *)
Definition get_by_user_rows (user_id : Z) (db : DB) : list joined :=
  merge_sort newest_first
    (filter (λ j, b_user_id (j_row j) = user_id)
            (omap (join_facilities db) (map_to_list (bookings db)))).

Definition get_by_user (user_id : Z) (db : DB) : list BookingView.t :=
  BookingView.of_joined <$> get_by_user_rows user_id db.

(** The rows of [get_all]: [WHERE b.status = %s] is added when a status is
    given. *)
Definition get_all_rows (status : option booking_status) (db : DB) : list joined :=
  let from := omap (join_users_facilities db) (map_to_list (bookings db)) in
  merge_sort newest_first
    match status with
    | Some s => filter (λ j, b_status (j_row j) = s) from
    | None => from
    end.

Definition get_all (status : option booking_status) (db : DB) : list BookingView.t :=
  BookingView.of_joined <$> get_all_rows status db.



(** [WHERE b.user_id = %s AND b.booking_date >= CURDATE()
     AND b.status IN ('pending', 'approved')]. *)
Definition upcoming (clk : clock) (user_id : Z) (j : joined) : Prop :=
  b_user_id (j_row j) = user_id
  ∧ date_ltb (b_booking_date (j_row j)) (today clk) = false
  ∧ (b_status (j_row j) = pending ∨ b_status (j_row j) = approved).

#[global] Instance upcoming_dec clk user_id j : Decision (upcoming clk user_id j).
Proof. unfold upcoming. apply _. Defined.

(** The rows of [get_upcoming_by_user]:
    [ORDER BY b.booking_date ASC, b.start_time ASC LIMIT %s]. *)
Definition get_upcoming_by_user_rows (clk : clock) (user_id : Z) (limit : nat)
    (db : DB) : list joined :=
  take limit
    (merge_sort soonest_first
       (filter (upcoming clk user_id)
               (omap (join_facilities db) (map_to_list (bookings db))))).

Definition get_upcoming_by_user (clk : clock) (user_id : Z) (limit : nat)
    (db : DB) : list BookingView.t :=
  BookingView.of_joined <$> get_upcoming_by_user_rows clk user_id limit db.

End BookingList.

(* ===================================================================== *)
(** * app.py: the pages                                                   *)
(* ===================================================================== *)

(** What a page view does: [abort(403)], or [render_template] with the
    statistics (when the page has them), the bookings and the active page. *)
Inductive page :=
| Forbidden
| Rendered (template : string) (stats : option (gmap string Z))
           (shown : list BookingView.t) (active_page : string).

Definition staff_dashboard (clk : clock) (current_user : User.t) (db : DB) : page :=
  if negb (User.is_staff current_user) then Forbidden
  else
    Rendered "dashboard_staff.html"
      (Some (BookingQuery.get_user_stats (User.user_id current_user) db))
      (BookingList.get_upcoming_by_user clk (User.user_id current_user) 5 db)
      "dashboard".


Definition pending_bookings (current_user : User.t) (db : DB) : page :=
  if negb (User.is_admin current_user) then Forbidden
  else
    Rendered "pending_bookings.html" None
      (BookingList.get_all (Some pending) db) "bookings".

(* ===================================================================== *)
(** * Texts                                                               *)
(* ===================================================================== *)

(** A text of a form is held as its UTF-8 encoding, one [ascii] per byte:
    what the browser sends and what the connection to the server carries.
    Python counts and tests the characters of the decoded text, and the
    server counts characters for the width of a VARCHAR column. *)
Definition byte (c : ascii) : Z := Z.of_N (N_of_ascii c).

Definition continuation (b : Z) : bool := (128 <=? b) && (b <? 192).

(** The characters (code points) that the bytes encode; [None] when the
    bytes are not well-formed UTF-8: a stray or missing continuation byte,
    an overlong form, a surrogate, or a value above U+10FFFF. *)
Fixpoint code_points (s : string) : option (list Z) :=
  match s with
  | EmptyString => Some []
  | String c0 s1 =>
      let b0 := byte c0 in
      if b0 <? 128 then cons b0 <$> code_points s1
      else if b0 <? 194 then None
      else if b0 <? 224 then
        match s1 with
        | String c1 s2 =>
            if continuation (byte c1)
            then cons ((b0 - 192) * 64 + (byte c1 - 128)) <$> code_points s2
            else None
        | EmptyString => None
        end
      else if b0 <? 240 then
        match s1 with
        | String c1 (String c2 s3) =>
            let cp := (b0 - 224) * 4096 + (byte c1 - 128) * 64 + (byte c2 - 128) in
            if continuation (byte c1) && continuation (byte c2)
               && (2048 <=? cp) && negb ((55296 <=? cp) && (cp <=? 57343))
            then cons cp <$> code_points s3
            else None
        | _ => None
        end
      else if b0 <? 245 then
        match s1 with
        | String c1 (String c2 (String c3 s4)) =>
            let cp := (b0 - 240) * 262144 + (byte c1 - 128) * 4096
                      + (byte c2 - 128) * 64 + (byte c3 - 128) in
            if continuation (byte c1) && continuation (byte c2)
               && continuation (byte c3) && (65536 <=? cp) && (cp <=? 1114111)
            then cons cp <$> code_points s4
            else None
        | _ => None
        end
      else None
  end.

(** Every text that a form holds is well formed: werkzeug decoded it. *)
Definition well_formed (s : string) : Prop := is_Some (code_points s).

#[global] Instance well_formed_dec s : Decision (well_formed s).
Proof. unfold well_formed. apply _. Defined.

(** The characters of a text; bytes that encode no text have none. *)
Definition characters (s : string) : list Z := default [] (code_points s).

(** Python's [len(s)]. *)
Definition len (s : string) : Z := Z.of_nat (length (characters s)).

(** Python's [c.isspace()], the characters that [strip()] removes: the
    ASCII controls and the space, and the Unicode spaces and separators. *)
Definition isspace (c : Z) : bool :=
  ((9 <=? c) && (c <=? 13)) || ((28 <=? c) && (c <=? 32))
  || (c =? 133) || (c =? 160) || (c =? 5760)
  || ((8192 <=? c) && (c <=? 8202))
  || (c =? 8232) || (c =? 8233) || (c =? 8239) || (c =? 8287) || (c =? 12288).

(** [s.strip()] is empty. *)
Definition blank (s : string) : bool := forallb isspace (characters s).

(** The text without the spaces (U+0020) at its end, and a run of
    spaces. *)
Fixpoint rstrip_spaces (s : string) : string :=
  match s with
  | EmptyString => EmptyString
  | String c rest =>
      match rstrip_spaces rest with
      | EmptyString => if Ascii.eqb c " " then EmptyString else String c EmptyString
      | kept => String c kept
      end
  end.

Fixpoint spaces (n : nat) : string :=
  match n with
  | O => EmptyString
  | S k => String " " (spaces k)
  end.

(** A text assigned to a VARCHAR([n]) column, whose width counts
    characters (the tables being in utf8mb4, the server's default, which
    holds every character).  A text of at most [n] characters is stored as
    it is.  Of a longer one the server cuts off spaces at the end without
    complaint; when other characters would be lost it refuses the value
    with error 1406 (the server being in strict mode, its default). *)
Definition varchar (n : Z) (s : string) : option string :=
  if len s <=? n then Some s
  else
    let kept := rstrip_spaces s in
    if len kept <=? n then Some (kept +:+ spaces (Z.to_nat (n - len kept)))
    else None.

(* ===================================================================== *)
(** * forms.py: FacilityForm                                              *)
(* ===================================================================== *)

Module FacilityForm.

(** The processed form.  [capacity] is [None] when the text is no
    integer; an empty text also stands for a missing field. *)
Record data := {
  csrf_token : bool;
  facility_id : string;
  name : string;
  capacity : option Z;
  description : string;
  status : string
}.

Definition csrf_token_errors (form : data) : list string :=
  if csrf_token form then [] else ["The CSRF token is invalid."].

(** [DataRequired(), Length(min=3, max=100)]: [DataRequired] stops the
    chain on a text that is empty once stripped. *)
Definition name_errors (form : data) : list string :=
  if blank (name form) then ["This field is required."]
  else
    let length := len (name form) in
    if (3 <=? length) && (length <=? 100) then []
    else ["Field must be between 3 and 100 characters long."].

(** [DataRequired(), NumberRange(min=1, max=1000)]: zero is falsy, so
    [DataRequired] refuses it. *)
Definition capacity_errors (form : data) : list string :=
  match capacity form with
  | None => ["This field is required."]
  | Some n =>
      if n =? 0 then ["This field is required."]
      else if (1 <=? n) && (n <=? 1000) then []
      else ["Number must be between 1 and 1000."]
  end.

(** [Length(max=500)]. *)
Definition description_errors (form : data) : list string :=
  if 500 <? len (description form)
  then ["Field cannot be longer than 500 characters."] else [].

(** [SelectField] with the choices active and inactive, and
    [DataRequired()], which replaces the error of the choice check when
    the text is empty once stripped. *)
Definition status_errors (form : data) : list string :=
  if decide (status form = "active" ∨ status form = "inactive") then []
  else if blank (status form) then ["This field is required."]
  else ["Not a valid choice."].

Definition validate (form : data) : bool :=
  BookingForm.no_errors (csrf_token_errors form)
  && BookingForm.no_errors (name_errors form)
  && BookingForm.no_errors (capacity_errors form)
  && BookingForm.no_errors (description_errors form)
  && BookingForm.no_errors (status_errors form).

Definition validate_on_submit (form : data) : bool := validate form.

End FacilityForm.

(* ===================================================================== *)
(** * models.py: Facility.create and Facility.update                      *)
(* ===================================================================== *)

Definition set_facilities (t : gmap Z facility_row) (db : DB) : DB :=
  {| users := users db;
     facilities := t;
     bookings := bookings db;
     next_booking_id := next_booking_id db |}.

(** The text of a status as an ENUM value.  The views only pass the two
    listed values; any other text is taken to be refused by the server. *)
Definition enum_status (text : string) : option facility_status :=
  if decide (text = "active") then Some active
  else if decide (text = "inactive") then Some inactive
  else None.

(** The columns that [init_database] declares for the facilities table. *)
Definition facilities_columns : list string :=
  ["facility_id"; "name"; "capacity"; "status"; "description"; "created_at"].

(** The first column a statement names that its table does not declare.
    The server resolves the names of a statement before it reads a
    parameter or a row; a name the table lacks ends the statement with
    error 1054 (unknown column). *)
Definition unknown_column (table named : list string) : option string :=
  head (filter (λ c, c ∉ table) named).

(** What [cursor.execute] raises: a refusal of the data (a [db_error]), or
    [ProgrammingError] for a statement with an unknown column. *)
Inductive connector_error :=
| Refused (e : db_error)
| ProgrammingError (column : string).

Module FacilityWrite.

(** The columns each statement names, in the order of its text. *)
Definition insert_columns : list string :=
  ["name"; "capacity"; "description"; "status"; "image"].

Definition update_columns : list string :=
  ["name"; "capacity"; "description"; "status"; "image"; "facility_id"].

(** The row that the parameters describe. *)
Definition row_of (name : string) (capacity : Z) (description : option string)
    (status : facility_status) (image : option string) : facility_row :=
  {| f_name := name; f_capacity := capacity; f_status := status;
     f_description := description; f_image := image |}.

(** [UPDATE facilities SET name = %s, capacity = %s, description = %s,
    status = %s, image = %s WHERE facility_id = %s].  The names are
    resolved first; only a statement whose columns all exist goes on to
    check the values ([capacity] is NOT NULL) and to rewrite the row. *)
Definition update_statement (facility_id : Z) (name : string) (capacity : option Z)
    (description : option string) (status : string) (image : option string)
    (db : DB) : connector_error + (cursor * DB) :=
  match unknown_column facilities_columns update_columns with
  | Some column => inl (ProgrammingError column)
  | None =>
      match enum_status status, capacity with
      | None, _ => inl (Refused DataError)
      | Some _, None => inl (Refused IntegrityError)
      | Some st, Some c =>
          let where_ := λ (k : Z) (_ : facility_row), bool_decide (k = facility_id) in
          let set := λ _ : facility_row, row_of name c description st image in
          inr ({| rowcount := sql_update_rowcount where_ set (facilities db);
                  lastrowid := 0 |},
               set_facilities (sql_update where_ set (facilities db)) db)
      end
  end.

(** [Facility.update]: [execute_query] returns the row count, and does not
    catch what [cursor.execute] raises.  (The [print] of the parameters
    that comes first is taken to succeed.) *)
Definition update (facility_id : Z) (name : string) (capacity : option Z)
    (description : option string) (status : string) (image : option string)
    (db : DB) : connector_error + (Z * DB) :=
  match update_statement facility_id name capacity description status image db with
  | inl e => inl e
  | inr (cur, db') => inr (rowcount cur, db')
  end.

(** [INSERT INTO facilities (name, capacity, description, status, image)
    VALUES (...)].  [new_id] is the identifier AUTO_INCREMENT would hand
    out. *)
Definition create_statement (new_id : Z) (name : string) (capacity : option Z)
    (description : option string) (status : string) (image : option string)
    (db : DB) : connector_error + (cursor * DB) :=
  match unknown_column facilities_columns insert_columns with
  | Some column => inl (ProgrammingError column)
  | None =>
      match enum_status status, capacity with
      | None, _ => inl (Refused DataError)
      | Some _, None => inl (Refused IntegrityError)
      | Some st, Some c =>
          if decide (facilities db !! new_id = None)
          then inr ({| rowcount := 1; lastrowid := new_id |},
                    set_facilities
                      (<[ new_id := row_of name c description st image ]> (facilities db))
                      db)
          else inl (Refused IntegrityError)
      end
  end.

(** [Facility.create]. *)
Definition create (new_id : Z) (name : string) (capacity : option Z)
    (description : option string) (status : string) (image : option string)
    (db : DB) : connector_error + (Z * DB) :=
  match create_statement new_id name capacity description status image db with
  | inl e => inl e
  | inr (cur, db') => inr (rowcount cur, db')
  end.

End FacilityWrite.

(* ===================================================================== *)
(** * app.py: the facility views                                          *)
(* ===================================================================== *)

(** Python's [int(text)]; [None] when it raises [ValueError]. *)
Class IntOfText := py_int : string → option Z.

(** Whether [image.save(path)] manages to write the file of that name into
    the upload folder, which depends on the file system. *)
Class FileSystem := save_ok : string → bool.

(** The file part [request.files.get("image")]: its filename when the part
    is there. *)
Definition upload := option string.

(** [if image and image.filename]: the upload is saved under
    [f"{int(time())}_{image.filename}"], with [epoch] the seconds [time()]
    gives; [None] when there is nothing to save. *)
Definition upload_name (epoch : Z) (image : upload) : option string :=
  match image with
  | Some filename =>
      if decide (filename = "") then None
      else Some (pretty epoch +:+ "_" +:+ filename)
  | None => None
  end.

(** The exceptions a facility view does not catch (each an HTTP 500). *)
Inductive exception :=
| ValueError                            (* int() of a text that is no integer *)
| OSError                               (* the upload could not be written *)
| DatabaseError (e : connector_error).  (* raised by cursor.execute *)

(** A view ends with a response or with an uncaught exception. *)
Inductive ended :=
| Responded (r : response)
| Raised (e : exception).

(** What a facility view leaves behind: how it ended, the store, and the
    file it wrote into the upload folder, if any. *)
Record outcome := { ending : ended; store : DB; written : option string }.

Definition respond (r : response) (db : DB) : outcome :=
  {| ending := Responded r; store := db; written := None |}.

Section facility_views.
Context {int_of_text : IntOfText} {file_system : FileSystem}.

(** [image.save(os.path.join(UPLOAD_FOLDER, image_name))] when there is an
    upload: the name the file was written under, or the exception. *)
Definition save_upload (epoch : Z) (image : upload) : exception + option string :=
  match upload_name epoch image with
  | Some file => if save_ok file then inr (Some file) else inl OSError
  | None => inr None
  end.

(** [update_facility].  The upload is saved before [Facility.update] is
    called; without an upload the image of the stored facility is passed
    on. *)
Definition update_facility (epoch : Z) (current_user : User.t)
    (form : FacilityForm.data) (image : upload) (db : DB) : outcome :=
  if negb (User.is_admin current_user) then respond (Abort 403) db
  else if negb (FacilityForm.validate_on_submit form)
  then respond (Redirect ("Invalid inputs. Please check the form.",
                          "dashboard-danger") "facilities_list") db
  else if decide (FacilityForm.facility_id form = "")
  then respond (Redirect ("Missing facility ID.", "dashboard-danger")
                         "facilities_list") db
  else
    match py_int (FacilityForm.facility_id form) with
    | None => {| ending := Raised ValueError; store := db; written := None |}
    | Some fid =>
        match Facility.get_by_id fid db with
        | None =>
            respond (Redirect ("Facility not found.", "dashboard-danger")
                              "facilities_list") db
        | Some facility =>
            match save_upload epoch image with
            | inl e => {| ending := Raised e; store := db; written := None |}
            | inr saved =>
                let image_name :=
                  match saved with
                  | Some file => Some file
                  | None => f_image facility
                  end in
                match FacilityWrite.update fid (FacilityForm.name form)
                        (FacilityForm.capacity form) None
                        (FacilityForm.status form) image_name db with
                | inl e =>
                    {| ending := Raised (DatabaseError e); store := db;
                       written := saved |}
                | inr (_, db') =>
                    {| ending :=
                         Responded (Redirect ("Facility updated successfully.",
                                              "dashboard-success") "facilities_list");
                       store := db'; written := saved |}
                end
            end
        end
    end.

(** [create_facility]; [new_id] is the identifier AUTO_INCREMENT would
    hand out. *)
Definition create_facility (epoch new_id : Z) (current_user : User.t)
    (form : FacilityForm.data) (image : upload) (db : DB) : outcome :=
  if negb (User.is_admin current_user) then respond (Abort 403) db
  else if negb (FacilityForm.validate_on_submit form)
  then respond (Redirect ("Invalid inputs.", "dashboard-danger") "facilities_list") db
  else
    match save_upload epoch image with
    | inl e => {| ending := Raised e; store := db; written := None |}
    | inr saved =>
        match FacilityWrite.create new_id (FacilityForm.name form)
                (FacilityForm.capacity form) None
                (FacilityForm.status form) saved db with
        | inl e =>
            {| ending := Raised (DatabaseError e); store := db; written := saved |}
        | inr (_, db') =>
            {| ending :=
                 Responded (Redirect ("Facility added successfully.",
                                      "dashboard-success") "facilities_list");
               store := db'; written := saved |}
        end
    end.
End facility_views.

(** An [int()] that reads the unsigned decimal numerals, and a file system
    that takes every file, for the examples. *)
Definition decimal_int : IntOfText := λ s, digits_only s.

Definition writable : FileSystem := λ _, true.

(** [store_busy] with a second facility named otherwise. *)
Definition room_b : facility_row :=
  {| f_name := "Lab"; f_capacity := 8; f_status := active;
     f_description := Some "Ground floor"; f_image := None |}.

Definition store_rooms : DB :=
  set_facilities {[ 1 := room_b; 2 := room_a ]} store_busy.

(** A form for facility 1: a new name, capacity and status, and a
    description. *)
Definition form_room : FacilityForm.data :=
  {| FacilityForm.csrf_token := true;
     FacilityForm.facility_id := "1";
     FacilityForm.name := "Board Room";
     FacilityForm.capacity := Some 20;
     FacilityForm.description := "Has a projector";
     FacilityForm.status := "inactive" |}.

(** U+3000, the ideographic space: the bytes E3 80 80. *)
Definition ideographic_space : string :=
  String (ascii_of_nat 227) (String (ascii_of_nat 128) (String (ascii_of_nat 128) "")).

(** The same form under another name. *)
Definition form_named (text : string) : FacilityForm.data :=
  {| FacilityForm.csrf_token := true;
     FacilityForm.facility_id := "1";
     FacilityForm.name := text;
     FacilityForm.capacity := Some 20;
     FacilityForm.description := "Has a projector";
     FacilityForm.status := "inactive" |}.

(** A storeroom that was taken out of service, and a store that holds it as
    facility 3. *)
Definition room_closed : facility_row :=
  {| f_name := "Storeroom"; f_capacity := 4; f_status := inactive;
     f_description := None; f_image := None |}.

Definition store_closed : DB :=
  set_facilities {[ 1 := room_a; 3 := room_closed ]} store_7.

(** Facility 3, ten years from now, 09:00 to 10:30. *)
Definition form_far_ahead : BookingForm.data :=
  form_for "3" (mk_date 2036 1 15) (mk_time 9 0) (mk_time 10 30).

(* ===================================================================== *)
(** * Accounts: models.py (User), forms.py and the auth views             *)
(* ===================================================================== *)

(** [werkzeug.security]: [generate_password_hash] draws a salt, which is
    an argument here; a hash it made checks against its password. *)
Class PasswordHasher := {
  generate_password_hash : string → string → string;
  check_password_hash : string → string → bool;
  check_generated salt password :
    check_password_hash (generate_password_hash salt password) password = true
}.

(** The server's comparison of two texts ([WHERE email = %s], and the
    UNIQUE index on [email]), which depends on the collation. *)
Class Collation := {
  same_text : string → string → bool;
  same_text_refl a : same_text a a = true;
  same_text_sym a b : same_text a b = true → same_text b a = true;
  same_text_trans a b c :
    same_text a b = true → same_text b c = true → same_text a c = true
}.

(** The [Email()] validator of WTForms. *)
Class EmailValidator := email_ok : string → bool.

Definition set_users (t : gmap Z user_row) (db : DB) : DB :=
  {| users := t;
     facilities := facilities db;
     bookings := bookings db;
     next_booking_id := next_booking_id db |}.

(** The text of a role as an ENUM value. *)
Definition enum_role (text : string) : option role :=
  if decide (text = "staff") then Some staff
  else if decide (text = "admin") then Some admin
  else None.

Module Account.

Section account.
Context {hasher : PasswordHasher} {collation : Collation}.

(** [SELECT * FROM users WHERE email = %s], one row fetched. *)
Definition get_by_email (email : string) (db : DB) : option User.t :=
  (λ found : nat * (Z * user_row), User.of_row found.2.1 found.2.2)
    <$> list_find (λ kr : Z * user_row, same_text (u_email kr.2) email = true)
                  (map_to_list (users db)).

(** [INSERT INTO users (name, email, password, role) VALUES (...)].  The
    columns are VARCHAR(100), VARCHAR(100) UNIQUE and VARCHAR(255); a text
    that does not fit its column, or a role outside the ENUM, is refused.
    The UNIQUE index compares the address as it is stored.  [new_id] is
    the identifier AUTO_INCREMENT hands out. *)
Definition insert_statement (new_id : Z) (name email password_hash role_text : string)
  : statement := λ db,
  match enum_role role_text with
  | None => inl DataError
  | Some r =>
      match varchar 100 name, varchar 100 email, varchar 255 password_hash with
      | Some stored_name, Some stored_email, Some stored_hash =>
          if decide (users db !! new_id = None
                     ∧ get_by_email stored_email db = None)
          then inr ({| rowcount := 1; lastrowid := new_id |},
                    set_users
                      (<[ new_id := {| u_name := stored_name;
                                       u_email := stored_email;
                                       u_password := stored_hash;
                                       u_role := r |} ]>
                         (users db)) db)
          else inl IntegrityError
      | _, _, _ => inl DataError
      end
  end.

(** [User.create]: the password is hashed, then the row is inserted. *)
Definition create (salt : string) (new_id : Z) (name email password role_text : string)
    (db : DB) : db_error + (Z * DB) :=
  let password_hash := generate_password_hash salt password in
  execute_query (insert_statement new_id name email password_hash role_text) db.

(** [User.verify_password]. *)
Definition verify_password (u : User.t) (password : string) : bool :=
  check_password_hash (User.password u) password.

End account.
End Account.

Module RegisterForm.

Record data := {
  csrf_token : bool;
  name : string;
  email : string;
  password : string;
  confirm_password : string;
  role_text : string
}.

Section validate.
Context {emails : EmailValidator}.

(** [DataRequired(), Length(min=2, max=100)]. *)
Definition name_errors (form : data) : list string :=
  if blank (name form) then ["This field is required."]
  else
    let length := len (name form) in
    if (2 <=? length) && (length <=? 100) then []
    else ["Field must be between 2 and 100 characters long."].

(** [DataRequired(), Email()]. *)
Definition email_errors (form : data) : list string :=
  if blank (email form) then ["This field is required."]
  else if email_ok (email form) then []
  else ["Invalid email address."].

(** [DataRequired(), Length(min=6)]. *)
Definition password_errors (form : data) : list string :=
  if blank (password form) then ["This field is required."]
  else if 6 <=? len (password form) then []
  else ["Field must be at least 6 characters long."].

(** [DataRequired(), EqualTo("password", message="Passwords must match")]. *)
Definition confirm_password_errors (form : data) : list string :=
  if blank (confirm_password form) then ["This field is required."]
  else if decide (confirm_password form = password form) then []
  else ["Passwords must match"].

(** [SelectField] with the choices staff and admin, and [DataRequired()]. *)
Definition role_errors (form : data) : list string :=
  if decide (role_text form = "staff" ∨ role_text form = "admin") then []
  else if blank (role_text form) then ["This field is required."]
  else ["Not a valid choice."].

Definition validate (form : data) : bool :=
  BookingForm.no_errors (if csrf_token form then [] else ["The CSRF token is invalid."])
  && BookingForm.no_errors (name_errors form)
  && BookingForm.no_errors (email_errors form)
  && BookingForm.no_errors (password_errors form)
  && BookingForm.no_errors (confirm_password_errors form)
  && BookingForm.no_errors (role_errors form).

Definition validate_on_submit (form : data) : bool := validate form.

End validate.
End RegisterForm.

Module LoginForm.

Record data := { csrf_token : bool; email : string; password : string }.

Section validate.
Context {emails : EmailValidator}.

(** [email]: [DataRequired(), Email()]; [password]: [DataRequired()]. *)
Definition validate (form : data) : bool :=
  csrf_token form
  && negb (blank (email form)) && email_ok (email form)
  && negb (blank (password form)).

Definition validate_on_submit (form : data) : bool := validate form.

End validate.
End LoginForm.

(** What the auth views do: render [auth.html] after an optional flash,
    log the user in and redirect, or die of an uncaught database error. *)
Inductive auth_response :=
| AuthPage (flashed : option (string * string))
| LoggedIn (user : User.t) (endpoint : string)
| AuthError (e : db_error).

Section auth_views.
Context {hasher : PasswordHasher} {collation : Collation} {emails : EmailValidator}.

(** [register]; [salt] and [new_id] are what the hash function and
    AUTO_INCREMENT draw. *)
Definition register (salt : string) (new_id : Z) (form : RegisterForm.data) (db : DB)
  : auth_response * DB :=
  if RegisterForm.validate_on_submit form then
    match Account.get_by_email (RegisterForm.email form) db with
    | Some _ => (AuthPage (Some ("Email already registered", "auth-danger")), db)
    | None =>
        match Account.create salt new_id (RegisterForm.name form)
                (RegisterForm.email form) (RegisterForm.password form)
                (RegisterForm.role_text form) db with
        | inl e => (AuthError e, db)
        | inr (_, db') =>
            (AuthPage (Some ("Account created. Please login.", "auth-success")), db')
        end
    end
  else (AuthPage None, db).

(** [login]. *)
Definition login (form : LoginForm.data) (db : DB) : auth_response :=
  if LoginForm.validate_on_submit form then
    match Account.get_by_email (LoginForm.email form) db with
    | Some user =>
        if Account.verify_password user (LoginForm.password form)
        then LoggedIn user (if User.is_admin user then "admin_dashboard"
                            else "staff_dashboard")
        else AuthPage (Some ("Invalid email or password", "auth-danger"))
    | None => AuthPage (Some ("Invalid email or password", "auth-danger"))
    end
  else AuthPage None.

End auth_views.

(** No two accounts have the same e-mail address (the UNIQUE index). *)
Definition emails_unique {collation : Collation} (db : DB) : Prop :=
  ∀ k1 k2 r1 r2,
    users db !! k1 = Some r1 → users db !! k2 = Some r2 →
    same_text (u_email r1) (u_email r2) = true → k1 = k2.

(** A hash function for the examples: the password itself. *)
#[refine] Definition plain_hasher : PasswordHasher :=
  {| generate_password_hash := λ _ password, password;
     check_password_hash := λ hash password, String.eqb hash password |}.
Proof. intros _ password. apply String.eqb_refl. Defined.

(** Exact comparison, for the examples. *)
#[refine] Definition exact_collation : Collation :=
  {| same_text := String.eqb |}.
Proof.
  - apply String.eqb_refl.
  - intros a b Hab. apply String.eqb_eq in Hab. subst. apply String.eqb_refl.
  - intros a b c Hab Hbc. apply String.eqb_eq in Hab. by subst.
Defined.

(** An e-mail check for the examples: the text has an at sign. *)
Fixpoint has_at (s : string) : bool :=
  match s with
  | EmptyString => false
  | String c rest => Ascii.eqb c "@" || has_at rest
  end.

Definition at_sign_check : EmailValidator := has_at.

Definition form_dave (role_text : string) : RegisterForm.data :=
  {| RegisterForm.csrf_token := true;
     RegisterForm.name := "Dave";
     RegisterForm.email := "dave@example.com";
     RegisterForm.password := "secret1";
     RegisterForm.confirm_password := "secret1";
     RegisterForm.role_text := role_text |}.

(** Dave's form with an address of 113 characters. *)
Definition form_long_address : RegisterForm.data :=
  {| RegisterForm.csrf_token := true;
     RegisterForm.name := "Dave";
     RegisterForm.email :=
       "aaaaaaaaaaaaaaaaaaaaaaaaaaaaaaaaaaaaaaaaaaaaaaaaaaaaaaaaaaaa"
       +:+ "aaaaaaaaaaaaaaaaaaaaaaaaaaaaaaaaaaaaaaaaa@example.com";
     RegisterForm.password := "secret1";
     RegisterForm.confirm_password := "secret1";
     RegisterForm.role_text := "staff" |}.

(** The empty store after Dave registered as an administrator (account 1). *)
Definition store_dave : DB :=
  set_users {[ 1 := {| u_name := "Dave"; u_email := "dave@example.com";
                       u_password := "secret1"; u_role := admin |} ]} empty_db.

(* ===================================================================== *)
(** * Facts about the SQL statements                                      *)
(* ===================================================================== *)

Section sql_facts.
Context {R : Type} `{EqDecision R}.
Implicit Types (t : gmap Z R) (w : Z → R → bool) (s : R → R).

Lemma lookup_sql_update w s t k :
  sql_update w s t !! k = (λ r, if w k r then s r else r) <$> t !! k.
Proof.
  unfold sql_update. rewrite map_lookup_imap. by destruct (t !! k).
Qed.

Lemma sql_update_unchanged w s t :
  (∀ k r, t !! k = Some r → w k r = true → s r = r) → sql_update w s t = t.
Proof.
  intros Hid. apply map_eq. intros k. rewrite lookup_sql_update.
  destruct (t !! k) as [r|] eqn:Hk; simpl; [|done].
  destruct (w k r) eqn:Hw; [|done]. by rewrite (Hid k r).
Qed.

Lemma size_filter_zero (P : Z * R → Prop) `{∀ x, Decision (P x)} t :
  size (filter P t) = 0%nat ↔ ∀ k r, t !! k = Some r → ¬ P (k, r).
Proof.
  rewrite map_size_empty_iff, map_empty. split.
  - intros Hnone k r Hk HP. specialize (Hnone k).
    apply map_lookup_filter_None in Hnone as [Hn|Hn]; [congruence|].
    by apply (Hn r).
  - intros Hno k. apply map_lookup_filter_None. right. intros r Hk. by apply Hno.
Qed.

Lemma sql_update_rowcount_zero w s t :
  sql_update_rowcount w s t = 0 → sql_update w s t = t.
Proof.
  unfold sql_update_rowcount. intros Hz.
  assert (Hsz : size (filter (λ kr : Z * R, w kr.1 kr.2 = true ∧ s kr.2 ≠ kr.2) t) = 0%nat)
    by lia.
  rewrite size_filter_zero in Hsz.
  apply sql_update_unchanged. intros k r Hk Hw.
  destruct (decide (s r = r)) as [|Hne]; [done|].
  exfalso. by apply (Hsz k r Hk).
Qed.

(** A WHERE clause that fixes the primary key selects at most that row. *)
Lemma filter_by_key (P : Z * R → Prop) `{∀ x, Decision (P x)} t k0 :
  (∀ k r, P (k, r) → k = k0) →
  filter P t =
    match t !! k0 with
    | Some r => if decide (P (k0, r)) then {[ k0 := r ]} else ∅
    | None => ∅
    end.
Proof.
  intros Hkey. apply map_eq. intros k.
  destruct (filter P t !! k) as [r|] eqn:Hf.
  - apply map_lookup_filter_Some in Hf as [Hk HP].
    pose proof (Hkey _ _ HP) as ->. rewrite Hk.
    rewrite decide_True by done. by rewrite lookup_singleton_eq.
  - symmetry. apply map_lookup_filter_None in Hf.
    destruct (t !! k0) as [r0|] eqn:Hk0; [|apply lookup_empty].
    destruct (decide (P (k0, r0))) as [HP|]; [|apply lookup_empty].
    destruct (decide (k = k0)) as [->|Hne].
    + exfalso. destruct Hf as [Hf|Hf]; [congruence|]. by apply (Hf r0).
    + by apply lookup_singleton_ne.
Qed.

Lemma size_filter_by_key (P : Z * R → Prop) `{∀ x, Decision (P x)} t k0 :
  (∀ k r, P (k, r) → k = k0) →
  size (filter P t) =
    match t !! k0 with
    | Some r => if decide (P (k0, r)) then 1%nat else 0%nat
    | None => 0%nat
    end.
Proof.
  intros Hkey. rewrite (filter_by_key P t k0 Hkey).
  destruct (t !! k0) as [r|]; [|apply map_size_empty].
  destruct (decide (P (k0, r))); [apply map_size_singleton|apply map_size_empty].
Qed.

Lemma sql_count_pos w t :
  0 < sql_count w t ↔ ∃ k r, t !! k = Some r ∧ w k r = true.
Proof.
  unfold sql_count. split.
  - intros Hpos.
    assert (Hne : filter (λ kr : Z * R, w kr.1 kr.2 = true) t ≠ ∅).
    { apply map_size_non_empty_iff. lia. }
    apply map_choose in Hne as (k & r & Hf).
    apply map_lookup_filter_Some in Hf as [Hk Hw]. by exists k, r.
  - intros (k & r & Hk & Hw).
    assert (Hsz : size (filter (λ kr : Z * R, w kr.1 kr.2 = true) t) ≠ 0%nat).
    { apply map_size_non_empty_iff. intros Hemp.
      assert (Hf : filter (λ kr : Z * R, w kr.1 kr.2 = true) t !! k = Some r)
        by (by apply map_lookup_filter_Some).
      rewrite Hemp in Hf. by rewrite lookup_empty in Hf. }
    lia.
Qed.

Lemma lookup_sql_delete_Some w t k r :
  sql_delete w t !! k = Some r ↔ t !! k = Some r ∧ w k r = false.
Proof. unfold sql_delete. by rewrite map_lookup_filter_Some. Qed.

Lemma lookup_sql_delete_None w t k :
  sql_delete w t !! k = None ↔ t !! k = None ∨ ∃ r, t !! k = Some r ∧ w k r = true.
Proof.
  unfold sql_delete. rewrite map_lookup_filter_None. split.
  - intros [Hn|Hn]; [by left|].
    destruct (t !! k) as [r|] eqn:Hk; [|by left].
    right. exists r. split; [done|]. simpl in Hn.
    destruct (w k r) eqn:Hw; [done|]. exfalso. by apply (Hn r).
  - intros [Hn|(r & Hk & Hw)]; [by left|].
    right. intros r' Hk'. simpl. congruence.
Qed.
End sql_facts.

Section sql_by_key.
Context {R : Type} `{EqDecision R}.
Implicit Types (t : gmap Z R) (w : Z → R → bool) (s : R → R).

Lemma sql_update_by_key w s t k0 :
  (∀ k r, w k r = true → k = k0) →
  sql_update w s t =
    match t !! k0 with
    | Some r => if w k0 r then <[ k0 := s r ]> t else t
    | None => t
    end.
Proof.
  intros Hkey. apply map_eq. intros k. rewrite lookup_sql_update.
  destruct (decide (k = k0)) as [->|Hne].
  - destruct (t !! k0) as [r|] eqn:Hk; simpl; [|by rewrite Hk].
    destruct (w k0 r); [by rewrite lookup_insert_eq|by rewrite Hk].
  - assert (Hother : (λ r, if w k r then s r else r) <$> t !! k = t !! k).
    { destruct (t !! k) as [r|]; simpl; [|done].
      destruct (w k r) eqn:Hw; [|done]. by apply Hkey in Hw. }
    rewrite Hother.
    destruct (t !! k0) as [r0|]; [|done].
    destruct (w k0 r0); [by rewrite lookup_insert_ne|done].
Qed.

Lemma sql_update_rowcount_by_key w s t k0 :
  (∀ k r, w k r = true → k = k0) →
  sql_update_rowcount w s t =
    match t !! k0 with
    | Some r => if decide (w k0 r = true ∧ s r ≠ r) then 1 else 0
    | None => 0
    end.
Proof.
  intros Hkey. unfold sql_update_rowcount.
  rewrite (size_filter_by_key _ t k0).
  - destruct (t !! k0) as [r|]; [|done]. simpl. by case_decide.
  - intros k r [Hw _]. by apply (Hkey k r).
Qed.
End sql_by_key.

(* ===================================================================== *)
(** * Facts about the model accessors                                     *)
(* ===================================================================== *)

Lemma set_bookings_same db : set_bookings (bookings db) db = db.
Proof. by destruct db. Qed.

Lemma with_status_fixed s b : with_status s b = b ↔ b_status b = s.
Proof.
  destruct b as [u f d st et s0 p c]. unfold with_status. simpl.
  split; [by inversion 1|by intros ->].
Qed.

Lemma cancel_where_key bid uid k b :
  Booking.cancel_where bid uid k b = true → k = bid.
Proof.
  unfold Booking.cancel_where. rewrite !andb_true_iff, !bool_decide_eq_true.
  tauto.
Qed.

Lemma cancel_where_spec bid uid b :
  Booking.cancel_where bid uid bid b = true ↔ b_user_id b = uid ∧ b_status b = pending.
Proof.
  unfold Booking.cancel_where. rewrite !andb_true_iff, !bool_decide_eq_true.
  tauto.
Qed.

(** A pending booking of the requester is selected and rewritten. *)
Lemma cancel_hit bid uid db b :
  bookings db !! bid = Some b → b_user_id b = uid → b_status b = pending →
  Booking.cancel bid uid db
  = inr (1, set_bookings (<[ bid := with_status cancelled b ]> (bookings db)) db).
Proof.
  intros Hb Hu Hs. unfold Booking.cancel, execute_query, Booking.cancel_statement.
  cbv zeta. simpl rowcount.
  rewrite (sql_update_rowcount_by_key _ _ _ bid) by apply cancel_where_key.
  rewrite (sql_update_by_key _ _ _ bid) by apply cancel_where_key.
  rewrite Hb.
  assert (Hw : Booking.cancel_where bid uid bid b = true) by (by apply cancel_where_spec).
  rewrite Hw. rewrite decide_True; [done|].
  split; [done|]. rewrite with_status_fixed. congruence.
Qed.

(** No selected row: nothing is written and the row count is zero. *)
Lemma cancel_miss bid uid db :
  (∀ b, bookings db !! bid = Some b → ¬ (b_user_id b = uid ∧ b_status b = pending)) →
  Booking.cancel bid uid db = inr (0, db).
Proof.
  intros Hno. unfold Booking.cancel, execute_query, Booking.cancel_statement.
  cbv zeta. simpl rowcount.
  rewrite (sql_update_rowcount_by_key _ _ _ bid) by apply cancel_where_key.
  rewrite (sql_update_by_key _ _ _ bid) by apply cancel_where_key.
  destruct (bookings db !! bid) as [b|] eqn:Hb.
  - assert (Hw : Booking.cancel_where bid uid bid b = false).
    { apply not_true_is_false. rewrite cancel_where_spec. by apply Hno. }
    rewrite Hw. rewrite decide_False by (intros [? _]; congruence).
    by rewrite set_bookings_same.
  - by rewrite set_bookings_same.
Qed.

(** The two shapes of the store after a cancel. *)
Lemma cancel_two_shapes bid uid db :
  Booking.cancel bid uid db = inr (0, db)
  ∨ ∃ b, bookings db !! bid = Some b
         ∧ Booking.cancel bid uid db
           = inr (1, set_bookings (<[ bid := with_status cancelled b ]> (bookings db)) db).
Proof.
  destruct (bookings db !! bid) as [b|] eqn:Hb.
  - destruct (decide (b_user_id b = uid ∧ b_status b = pending)) as [[Hu Hs]|Hno].
    + right. exists b. split; [done|]. by apply cancel_hit.
    + left. apply cancel_miss. intros b' Hb'. congruence.
  - left. apply cancel_miss. intros b' Hb'. congruence.
Qed.

Lemma update_status_hit bid s db b :
  bookings db !! bid = Some b →
  Booking.update_status bid s db
  = inr (if decide (b_status b = s) then 0 else 1,
         set_bookings (<[ bid := with_status s b ]> (bookings db)) db).
Proof.
  intros Hb. unfold Booking.update_status, execute_query, Booking.update_status_statement.
  cbv zeta. simpl rowcount.
  assert (Hkey : ∀ (k : Z) (r : booking_row), bool_decide (k = bid) = true → k = bid)
    by (intros k r; by rewrite bool_decide_eq_true).
  rewrite (sql_update_rowcount_by_key _ _ _ bid Hkey).
  rewrite (sql_update_by_key _ _ _ bid Hkey).
  rewrite Hb. rewrite bool_decide_eq_true_2 by done.
  destruct (decide (b_status b = s)) as [Hs|Hs].
  - rewrite decide_False; [done|]. intros [_ Hne]. by apply Hne, with_status_fixed.
  - rewrite decide_True; [done|]. split; [done|]. by rewrite with_status_fixed.
Qed.

Lemma update_status_miss bid s db :
  bookings db !! bid = None → Booking.update_status bid s db = inr (0, db).
Proof.
  intros Hb. unfold Booking.update_status, execute_query, Booking.update_status_statement.
  cbv zeta. simpl rowcount.
  assert (Hkey : ∀ (k : Z) (r : booking_row), bool_decide (k = bid) = true → k = bid)
    by (intros k r; by rewrite bool_decide_eq_true).
  rewrite (sql_update_rowcount_by_key _ _ _ bid Hkey).
  rewrite (sql_update_by_key _ _ _ bid Hkey).
  rewrite Hb. by rewrite set_bookings_same.
Qed.

(* ===================================================================== *)
(** * Facts about times and the form validators                           *)
(* ===================================================================== *)

Lemma time_leb_ltb a b : time_leb a b = negb (time_ltb b a).
Proof. unfold time_leb, time_ltb. lia. Qed.

(** On times of day, the order is the order of the seconds since midnight. *)
Lemma time_ltb_seconds a b :
  time_valid a → time_valid b →
  time_ltb a b = true ↔ seconds_since_midnight a < seconds_since_midnight b.
Proof. unfold time_valid, time_ltb, seconds_since_midnight. lia. Qed.

Lemma date_ltb_irrefl d : date_ltb d d = false.
Proof. unfold date_ltb. lia. Qed.

Lemma over_8_hours e s :
  Qlt_bool (inject_Z 8) (BookingForm.duration_hours e s) = true
  ↔ 28800 < total_seconds e s.
Proof.
  unfold Qlt_bool. rewrite negb_true_iff, <- not_true_iff_false, Qle_bool_iff.
  unfold BookingForm.duration_hours, Qle, Qdiv, Qmult, Qinv, inject_Z. simpl. lia.
Qed.

Lemma under_half_hour e s :
  Qlt_bool (BookingForm.duration_hours e s) (1 # 2) = true
  ↔ total_seconds e s < 1800.
Proof.
  unfold Qlt_bool. rewrite negb_true_iff, <- not_true_iff_false, Qle_bool_iff.
  unfold BookingForm.duration_hours, Qle, Qdiv, Qmult, Qinv, inject_Z. simpl. lia.
Qed.

Lemma validate_end_time_cases form st et :
  BookingForm.start_time form = Some st →
  BookingForm.validate_end_time form et
  = if time_leb et st
    then BookingForm.ValidationError "End time must be after start time"
    else if 28800 <? total_seconds et st
    then BookingForm.ValidationError "Maximum booking duration is 8 hours"
    else if total_seconds et st <? 1800
    then BookingForm.ValidationError "Minimum booking duration is 30 minutes"
    else BookingForm.Passed.
Proof.
  intros Hst. unfold BookingForm.validate_end_time. rewrite Hst.
  destruct (time_leb et st); [done|].
  destruct (Z.ltb_spec 28800 (total_seconds et st)) as [Hmax|Hmax].
  - apply over_8_hours in Hmax. by rewrite Hmax.
  - assert (Hq : Qlt_bool (inject_Z 8) (BookingForm.duration_hours et st) = false).
    { apply not_true_is_false. rewrite over_8_hours. lia. }
    rewrite Hq.
    destruct (Z.ltb_spec (total_seconds et st) 1800) as [Hmin|Hmin].
    + apply under_half_hour in Hmin. by rewrite Hmin.
    + assert (Hq' : Qlt_bool (BookingForm.duration_hours et st) (1 # 2) = false).
      { apply not_true_is_false. rewrite under_half_hour. lia. }
      by rewrite Hq'.
Qed.

(** The end time passes exactly inside the bounds. *)
Lemma end_time_errors_nil form :
  BookingForm.end_time_errors form = []
  ↔ ∃ et, BookingForm.end_time form = Some et
          ∧ ∀ st, BookingForm.start_time form = Some st →
                  time_ltb st et = true ∧ 1800 <= total_seconds et st <= 28800.
Proof.
  unfold BookingForm.end_time_errors, BookingForm.required_then.
  destruct (BookingForm.end_time form) as [et|]; [|split; [done|by intros (? & ? & _)]].
  split.
  - intros Herr. exists et. split; [done|]. intros st Hst.
    rewrite (validate_end_time_cases form st et Hst) in Herr.
    rewrite time_leb_ltb in Herr.
    destruct (time_ltb st et); simpl in Herr; [|done].
    destruct (Z.ltb_spec 28800 (total_seconds et st)); [done|].
    destruct (Z.ltb_spec (total_seconds et st) 1800); [done|]. split; [done|lia].
  - intros (et' & [= <-] & Hb).
    destruct (BookingForm.start_time form) as [st|] eqn:Hst.
    + rewrite (validate_end_time_cases form st et Hst), time_leb_ltb.
      destruct (Hb st eq_refl) as [-> [Hlo Hhi]]. simpl.
      destruct (Z.ltb_spec 28800 (total_seconds et st)); [lia|].
      destruct (Z.ltb_spec (total_seconds et st) 1800); [lia|done].
    + unfold BookingForm.validate_end_time. by rewrite Hst.
Qed.

(** What a valid form is. *)
Lemma validate_true clk form :
  BookingForm.validate clk form = true
  ↔ BookingForm.csrf_token form = true
    ∧ BookingForm.facility_id form ≠ ""
    ∧ (∃ d, BookingForm.booking_date form = Some d ∧ date_ltb d (today clk) = false)
    ∧ (∃ st et, BookingForm.start_time form = Some st
                ∧ BookingForm.end_time form = Some et
                ∧ time_ltb st et = true
                ∧ 1800 <= total_seconds et st <= 28800)
    ∧ (String.length (BookingForm.purpose form) <= 500)%nat.
Proof.
  unfold BookingForm.validate. rewrite !andb_true_iff.
  assert (Hnil : ∀ l, BookingForm.no_errors l = true ↔ l = [])
    by (intros [|? ?]; simpl; split; congruence).
  rewrite !Hnil, end_time_errors_nil.
  unfold BookingForm.csrf_token_errors, BookingForm.facility_id_errors,
    BookingForm.booking_date_errors, BookingForm.start_time_errors,
    BookingForm.purpose_errors, BookingForm.required_then,
    BookingForm.validate_booking_date.
  split.
  - intros (((((Hc & Hf) & Hd) & Hs) & (et & Het & Hb)) & Hp).
    destruct (BookingForm.csrf_token form); [|done].
    destruct (decide (BookingForm.facility_id form = "")); [done|].
    destruct (BookingForm.booking_date form) as [d|]; [|done].
    destruct (date_ltb d (today clk)) eqn:Hlt; [done|].
    destruct (BookingForm.start_time form) as [st|]; [|done].
    destruct (Z.ltb_spec 500 (Z.of_nat (String.length (BookingForm.purpose form))));
      [done|].
    repeat split; try done.
    + by exists d.
    + exists st, et. destruct (Hb st eq_refl) as (? & ? & ?). done.
    + lia.
  - intros (Hc & Hf & (d & Hd & Hlt) & (st & et & Hst & Het & Hord & Hdur) & Hp).
    rewrite Hc, Hd, Hlt, Hst. rewrite decide_False by done. simpl.
    destruct (Z.ltb_spec 500 (Z.of_nat (String.length (BookingForm.purpose form))));
      [lia|].
    repeat split; try done.
    exists et. split; [done|]. by intros st' [= <-].
Qed.

(* ===================================================================== *)
(** * Facts about booking creation                                        *)
(* ===================================================================== *)

Lemma auto_increment_fresh db :
  auto_increment_ok db → bookings db !! next_booking_id db = None.
Proof.
  intros Hai. destruct (bookings db !! next_booking_id db) as [b|] eqn:Hb; [|done].
  apply Hai in Hb. simpl in Hb. lia.
Qed.

Section create_facts.
Context {coercion : SqlCoercion}.

Lemma create_inserts clk uid text fid d st et purpose db :
  sql_int text = Some fid →
  is_Some (users db !! uid) →
  is_Some (facilities db !! fid) →
  bookings db !! next_booking_id db = None →
  Booking.create clk uid text (Some d) (Some st) (Some et) purpose db
  = inr (1, after_insert db (Booking.inserted_row clk uid fid d st et purpose)).
Proof.
  intros Hfid Hu Hf Hfresh.
  unfold Booking.create, execute_query, Booking.create_statement.
  rewrite Hfid. by rewrite decide_True.
Qed.

(** A foreign key that does not resolve makes the server refuse the row. *)
Lemma create_refused clk uid text fid d st et purpose db :
  sql_int text = Some fid →
  facilities db !! fid = None →
  Booking.create clk uid text d st et purpose db = inl IntegrityError.
Proof.
  intros Hfid Hf.
  unfold Booking.create, execute_query, Booking.create_statement.
  rewrite Hfid. destruct d, st, et; try done.
  rewrite decide_False; [done|]. intros (_ & [f Hsome] & _). congruence.
Qed.

(** The route on a valid form of a staff member for an existing facility. *)
Lemma create_booking_valid clk u form db fid :
  User.is_staff u = true →
  BookingForm.validate clk form = true →
  sql_int (BookingForm.facility_id form) = Some fid →
  is_Some (users db !! User.user_id u) →
  is_Some (facilities db !! fid) →
  auto_increment_ok db →
  ∃ d st et,
    BookingForm.booking_date form = Some d
    ∧ BookingForm.start_time form = Some st
    ∧ BookingForm.end_time form = Some et
    ∧ create_booking clk u form db
      = (Redirect ("Booking request submitted.", "dashboard-success") "staff_dashboard",
         after_insert db
           (Booking.inserted_row clk (User.user_id u) fid d st et
                                 (BookingForm.purpose form))).
Proof.
  intros Hstaff Hval Hfid Hu Hf Hai.
  pose proof Hval as Hv. apply validate_true in Hv.
  destruct Hv as (_ & _ & (d & Hd & _) & (st & et & Hst & Het & _) & _).
  exists d, st, et. repeat split; try done.
  unfold create_booking, BookingForm.validate_on_submit.
  rewrite Hstaff, Hval, Hd, Hst, Het. simpl.
  rewrite (create_inserts clk _ _ fid d st et _ db Hfid Hu Hf
             (auto_increment_fresh db Hai)).
  done.
Qed.

(** An invalid form, or a requester who is not staff, leaves the store
    as it is. *)
Lemma create_booking_invalid clk u form db :
  BookingForm.validate clk form = false →
  create_booking clk u form db
  = (if User.is_staff u
     then Redirect ("Invalid booking data.", "dashboard-danger") "staff_dashboard"
     else Abort 403, db).
Proof.
  intros Hval. unfold create_booking, BookingForm.validate_on_submit.
  rewrite Hval. by destruct (User.is_staff u).
Qed.
End create_facts.

(* ===================================================================== *)
(** * Facts about facility deletion                                       *)
(* ===================================================================== *)

Lemma has_active_bookings_true fid db :
  Facility.has_active_bookings fid db = true
  ↔ ∃ k b, bookings db !! k = Some b ∧ active_booking fid b.
Proof.
  unfold Facility.has_active_bookings. rewrite Z.ltb_lt, sql_count_pos.
  unfold Facility.active_for, active_booking.
  split; intros (k & b & Hb & Hact); exists k, b; split; try done;
    rewrite andb_true_iff, orb_true_iff, !bool_decide_eq_true in *; done.
Qed.

Lemma has_active_bookings_false fid db :
  Facility.has_active_bookings fid db = false
  ↔ ∀ k b, bookings db !! k = Some b → ¬ active_booking fid b.
Proof.
  rewrite <- not_true_iff_false, has_active_bookings_true. split.
  - intros Hno k b Hb Hact. apply Hno. by exists k, b.
  - intros Hall (k & b & Hb & Hact). by apply (Hall k b).
Qed.

(** A booking that is neither pending nor approved is rejected or
    cancelled. *)
Lemma not_active_status fid b :
  b_facility_id b = fid → ¬ active_booking fid b →
  b_status b = rejected ∨ b_status b = cancelled.
Proof.
  unfold active_booking. intros Hf Hno.
  destruct (b_status b); [exfalso; apply Hno; auto|exfalso; apply Hno; auto|auto|auto].
Qed.

Lemma facility_rows_selected fid (t : gmap Z facility_row) :
  filter (λ kr : Z * facility_row, kr.1 = fid) t
  = match t !! fid with Some f => {[ fid := f ]} | None => ∅ end.
Proof.
  rewrite (filter_by_key _ t fid) by (by intros k r).
  destruct (t !! fid); [|done]. by rewrite decide_True.
Qed.

Lemma delete_existing fid db f :
  facilities db !! fid = Some f →
  Facility.delete fid db = inr (1, after_delete db fid).
Proof.
  intros Hf. unfold Facility.delete, execute_query, Facility.delete_statement.
  cbv zeta. simpl rowcount.
  rewrite facility_rows_selected, Hf, map_size_singleton.
  unfold after_delete. do 3 f_equal.
  f_equal.
  - apply map_eq. intros k. destruct (decide (k = fid)) as [->|Hne].
    + rewrite lookup_delete_eq. apply lookup_sql_delete_None.
      right. exists f. split; [done|]. by apply bool_decide_eq_true.
    + rewrite lookup_delete_ne by done.
      destruct (facilities db !! k) as [g|] eqn:Hk.
      * apply lookup_sql_delete_Some. split; [done|]. by apply bool_decide_eq_false.
      * apply lookup_sql_delete_None. by left.
  - unfold sql_delete. apply map_filter_ext. intros k b Hb. simpl.
    rewrite bool_decide_eq_false.
    destruct (decide (b_facility_id b = fid)) as [->|Hne].
    + rewrite lookup_singleton_eq. split; [intros Hn; by destruct Hn|done].
    + rewrite lookup_singleton_ne by done. split; [done|]. intros _ [? ?]. done.
Qed.

Lemma delete_missing fid db :
  facilities db !! fid = None → Facility.delete fid db = inr (0, db).
Proof.
  intros Hf. unfold Facility.delete, execute_query, Facility.delete_statement.
  cbv zeta. simpl rowcount.
  rewrite facility_rows_selected, Hf, map_size_empty.
  destruct db as [us fs bs n]. simpl in *. do 3 f_equal.
  f_equal.
  - apply map_eq. intros k. destruct (fs !! k) as [g|] eqn:Hk.
    + apply lookup_sql_delete_Some. split; [done|].
      apply bool_decide_eq_false. congruence.
    + apply lookup_sql_delete_None. by left.
  - apply map_eq. intros k. destruct (bs !! k) as [b|] eqn:Hk.
    + apply lookup_sql_delete_Some. split; [done|].
      apply bool_decide_eq_false. rewrite lookup_empty. by intros [? ?].
    + apply lookup_sql_delete_None. by left.
Qed.

Lemma has_active_bookings_true_not fid db :
  Facility.has_active_bookings fid db = false →
  ¬ ∃ k b, bookings db !! k = Some b ∧ active_booking fid b.
Proof. intros Hf Hex. apply has_active_bookings_true in Hex. congruence. Qed.

(* ===================================================================== *)
(** * The invariants are kept                                             *)
(* ===================================================================== *)

Lemma consistent_empty : consistent empty_db.
Proof. split; apply map_Forall_empty. Qed.

Lemma after_insert_auto_increment db row :
  auto_increment_ok db → auto_increment_ok (after_insert db row).
Proof.
  unfold auto_increment_ok, after_insert. simpl. intros Hai.
  apply map_Forall_insert_2; [lia|].
  eapply map_Forall_impl; [exact Hai|]. simpl. intros; lia.
Qed.

Lemma after_insert_foreign_keys db row :
  is_Some (users db !! b_user_id row) →
  is_Some (facilities db !! b_facility_id row) →
  foreign_keys_ok db → foreign_keys_ok (after_insert db row).
Proof.
  unfold foreign_keys_ok, after_insert. simpl. intros Hu Hf Hfk.
  by apply map_Forall_insert_2.
Qed.

Lemma logged_in_user u db : logged_in u db → is_Some (users db !! User.user_id u).
Proof.
  unfold logged_in, User.get_by_id. intros Hu.
  destruct (users db !! User.user_id u); [by eexists|done].
Qed.

Lemma store_7_auto_increment : auto_increment_ok store_7.
Proof. unfold auto_increment_ok, store_7. simpl. apply map_Forall_empty. Qed.

(** An update always returns; a zero row count means an untouched store,
    and an identifier that is not stored gives a zero row count. *)
Lemma update_status_returns bid s db :
  ∃ n db',
    Booking.update_status bid s db = inr (n, db')
    ∧ (n = 0 → db' = db)
    ∧ (bookings db !! bid = None → n = 0).
Proof.
  destruct (bookings db !! bid) as [b|] eqn:Hb.
  - eexists. eexists. split; [by apply update_status_hit|].
    split; [|done]. destruct (decide (b_status b = s)) as [Hs|Hs]; [|done].
    intros _. apply with_status_fixed in Hs. rewrite Hs.
    rewrite insert_id by done. apply set_bookings_same.
  - exists 0, db. split; [by apply update_status_miss|done].
Qed.

Lemma cancel_returns bid uid db :
  ∃ n db',
    Booking.cancel bid uid db = inr (n, db')
    ∧ (n = 0 → db' = db)
    ∧ ((∀ b, bookings db !! bid = Some b →
             ¬ (b_status b = pending ∧ b_user_id b = uid)) → n = 0).
Proof.
  destruct (bookings db !! bid) as [b|] eqn:Hb.
  - destruct (decide (b_user_id b = uid ∧ b_status b = pending)) as [[Hu Hs]|Hno].
    + eexists. eexists. split; [by apply (cancel_hit bid uid db b)|].
      split; [done|]. intros Hall. exfalso. by apply (Hall b).
    + exists 0, db. split; [|done].
      apply cancel_miss. intros b' Hb'. congruence.
  - exists 0, db. split; [|done].
    apply cancel_miss. intros b' Hb'. congruence.
Qed.

Lemma set_status_consistent db bid b s :
  bookings db !! bid = Some b →
  consistent db →
  consistent (set_bookings (<[ bid := with_status s b ]> (bookings db)) db).
Proof.
  intros Hb [Hai Hfk]. split.
  - unfold auto_increment_ok. simpl. apply map_Forall_insert_2; [|done].
    by apply (Hai bid b).
  - unfold foreign_keys_ok. simpl. apply map_Forall_insert_2; [|done].
    by apply (Hfk bid b).
Qed.

Lemma update_status_consistent bid s db n db' :
  consistent db → Booking.update_status bid s db = inr (n, db') → consistent db'.
Proof.
  intros Hc. destruct (bookings db !! bid) as [b|] eqn:Hb.
  - rewrite (update_status_hit bid s db b Hb). intros [= _ <-].
    by apply set_status_consistent.
  - rewrite (update_status_miss bid s db Hb). by intros [= _ <-].
Qed.

Lemma cancel_consistent bid uid db n db' :
  consistent db → Booking.cancel bid uid db = inr (n, db') → consistent db'.
Proof.
  intros Hc. destruct (bookings db !! bid) as [b|] eqn:Hb.
  - destruct (decide (b_user_id b = uid ∧ b_status b = pending)) as [[Hu Hs]|Hno].
    + rewrite (cancel_hit bid uid db b Hb Hu Hs). intros [= _ <-].
      by apply set_status_consistent.
    + rewrite cancel_miss; [by intros [= _ <-]|]. intros b' Hb'. congruence.
  - rewrite cancel_miss; [by intros [= _ <-]|]. intros b' Hb'. congruence.
Qed.

(** The cascade is what keeps the foreign keys resolved after a deletion. *)
Lemma after_delete_consistent db fid : consistent db → consistent (after_delete db fid).
Proof.
  intros [Hai Hfk]. split.
  - unfold auto_increment_ok, after_delete. simpl.
    intros k b Hb. apply map_lookup_filter_Some in Hb as [Hb _]. by apply (Hai k b).
  - unfold foreign_keys_ok, after_delete. simpl.
    intros k b Hb. apply map_lookup_filter_Some in Hb as [Hb Hne]. simpl in Hne.
    destruct (Hfk k b Hb) as [Hu Hf]. split; [done|].
    by rewrite lookup_delete_ne.
Qed.

(** Every route keeps the store consistent. *)
Lemma transitions_consistent u bid db :
  consistent db →
  consistent (cancel_booking u bid db).2
  ∧ consistent (approve_booking u bid db).2
  ∧ consistent (reject_booking u bid db).2.
Proof.
  intros Hc. unfold cancel_booking, approve_booking, reject_booking.
  split; [|split].
  - destruct (User.is_staff u); cbn [negb]; [|done].
    destruct (Booking.cancel bid (User.user_id u) db) as [e|[n db']] eqn:Hq; [done|].
    by apply (cancel_consistent _ _ _ _ _ Hc Hq).
  - destruct (User.is_admin u); cbn [negb]; [|done].
    destruct (Booking.update_status bid approved db) as [e|[n db']] eqn:Hq; [done|].
    by apply (update_status_consistent _ _ _ _ _ Hc Hq).
  - destruct (User.is_admin u); cbn [negb]; [|done].
    destruct (Booking.update_status bid rejected db) as [e|[n db']] eqn:Hq; [done|].
    by apply (update_status_consistent _ _ _ _ _ Hc Hq).
Qed.

Lemma delete_facility_consistent u fid db :
  consistent db → consistent (delete_facility u fid db).2.
Proof.
  intros Hc. unfold delete_facility, Facility.get_by_id.
  destruct (User.is_admin u); cbn [negb]; [|done].
  destruct (facilities db !! fid) as [f|] eqn:Hf; [|done].
  destruct (Facility.has_active_bookings fid db); [done|].
  rewrite (delete_existing fid db f Hf). by apply after_delete_consistent.
Qed.

Lemma create_booking_consistent {coercion : SqlCoercion} clk u form db :
  consistent db → consistent (create_booking clk u form db).2.
Proof.
  intros [Hai Hfk]. unfold create_booking.
  destruct (User.is_staff u); cbn [negb]; [|done].
  destruct (BookingForm.validate_on_submit clk form); cbn [negb]; [|done].
  unfold Booking.create, execute_query, Booking.create_statement.
  destruct (sql_int (BookingForm.facility_id form)) as [fid|]; [|done].
  destruct (BookingForm.booking_date form) as [d|]; [|done].
  destruct (BookingForm.start_time form) as [st|]; [|done].
  destruct (BookingForm.end_time form) as [et|]; [|done].
  case_decide as Hok; [|done]. destruct Hok as (Hu & Hf & Hfresh). simpl.
  split.
  - by apply (after_insert_auto_increment db).
  - by apply (after_insert_foreign_keys db).
Qed.

(* ===================================================================== *)
(** * Owners are staff members                                            *)
(* ===================================================================== *)

Lemma logged_in_role u db :
  logged_in u db → u_role <$> users db !! User.user_id u = Some (User.role_of u).
Proof.
  unfold logged_in, User.get_by_id. intros Hu.
  destruct (users db !! User.user_id u) as [r|]; [|done].
  simpl in *. injection Hu as <-. done.
Qed.

(** In a store where owners are staff, the owner of a booking passes the
    staff gate of [cancel_booking]. *)
Lemma owner_passes_staff_gate u db bid b :
  owners_are_staff db → logged_in u db →
  bookings db !! bid = Some b → b_user_id b = User.user_id u →
  User.is_staff u = true.
Proof.
  intros Hown Hlog Hb Hu. apply logged_in_role in Hlog.
  pose proof (Hown bid b Hb) as Hrole. simpl in Hrole.
  rewrite Hu, Hlog in Hrole. injection Hrole as Hrole.
  unfold User.is_staff. by apply bool_decide_eq_true.
Qed.

(** The route cancels a pending booking for its owner. *)
Lemma cancel_booking_by_owner u db bid b :
  owners_are_staff db → logged_in u db →
  bookings db !! bid = Some b → b_user_id b = User.user_id u → b_status b = pending →
  cancel_booking u bid db
  = (Redirect ("Booking cancelled successfully.", "dashboard-success") "my_bookings",
     set_bookings (<[ bid := with_status cancelled b ]> (bookings db)) db).
Proof.
  intros Hown Hlog Hb Hu Hs. unfold cancel_booking.
  rewrite (owner_passes_staff_gate u db bid b Hown Hlog Hb Hu). cbn [negb].
  by rewrite (cancel_hit bid (User.user_id u) db b Hb Hu Hs).
Qed.

Lemma set_status_owners db bid b s :
  bookings db !! bid = Some b →
  owners_are_staff db →
  owners_are_staff (set_bookings (<[ bid := with_status s b ]> (bookings db)) db).
Proof.
  intros Hb Hown. unfold owners_are_staff. simpl.
  apply map_Forall_insert_2; [|done]. by apply (Hown bid b).
Qed.

Lemma transitions_owners u bid db :
  owners_are_staff db →
  owners_are_staff (cancel_booking u bid db).2
  ∧ owners_are_staff (approve_booking u bid db).2
  ∧ owners_are_staff (reject_booking u bid db).2.
Proof.
  intros Hown. unfold cancel_booking, approve_booking, reject_booking.
  assert (Hupd : ∀ s n db',
            Booking.update_status bid s db = inr (n, db') → owners_are_staff db').
  { intros s n db'. destruct (bookings db !! bid) as [b|] eqn:Hb.
    - rewrite (update_status_hit bid s db b Hb). intros [= _ <-].
      by apply set_status_owners.
    - rewrite (update_status_miss bid s db Hb). by intros [= _ <-]. }
  split; [|split].
  - destruct (User.is_staff u); cbn [negb]; [|done].
    destruct (cancel_two_shapes bid (User.user_id u) db) as [Hc|(b & Hb & Hc)];
      rewrite Hc; [done|]. by apply set_status_owners.
  - destruct (User.is_admin u); cbn [negb]; [|done].
    destruct (Booking.update_status bid approved db) as [e|[n db']] eqn:Hq; [done|].
    by apply (Hupd approved n db').
  - destruct (User.is_admin u); cbn [negb]; [|done].
    destruct (Booking.update_status bid rejected db) as [e|[n db']] eqn:Hq; [done|].
    by apply (Hupd rejected n db').
Qed.

Lemma delete_facility_owners u fid db :
  owners_are_staff db → owners_are_staff (delete_facility u fid db).2.
Proof.
  intros Hown. unfold delete_facility, Facility.get_by_id.
  destruct (User.is_admin u); cbn [negb]; [|done].
  destruct (facilities db !! fid) as [f|] eqn:Hf; [|done].
  destruct (Facility.has_active_bookings fid db); [done|].
  rewrite (delete_existing fid db f Hf). unfold owners_are_staff, after_delete. simpl.
  intros k b Hb. apply map_lookup_filter_Some in Hb as [Hb _]. by apply (Hown k b).
Qed.

Lemma create_booking_owners {coercion : SqlCoercion} clk u form db :
  logged_in u db → owners_are_staff db →
  owners_are_staff (create_booking clk u form db).2.
Proof.
  intros Hlog Hown. unfold create_booking.
  destruct (User.is_staff u) eqn:Hstaff; cbn [negb]; [|done].
  destruct (BookingForm.validate_on_submit clk form); cbn [negb]; [|done].
  unfold Booking.create, execute_query, Booking.create_statement.
  destruct (sql_int (BookingForm.facility_id form)) as [fid|]; [|done].
  destruct (BookingForm.booking_date form) as [d|]; [|done].
  destruct (BookingForm.start_time form) as [st|]; [|done].
  destruct (BookingForm.end_time form) as [et|]; [|done].
  case_decide as Hok; [|done]. simpl.
  unfold owners_are_staff. simpl. apply map_Forall_insert_2; [|done]. simpl.
  rewrite (logged_in_role u db Hlog). f_equal.
  unfold User.is_staff in Hstaff. by apply bool_decide_eq_true in Hstaff.
Qed.

(* ===================================================================== *)
(** * The booking lifecycle                                               *)
(* ===================================================================== *)

(** The route adds the staff gate in front of [Booking.cancel] and ignores
    what it returns. *)
Lemma cancel_booking_route u bid db :
  cancel_booking u bid db
  = if User.is_staff u
    then match Booking.cancel bid (User.user_id u) db with
         | inl e => (ServerError e, db)
         | inr (_, db') =>
             (Redirect ("Booking cancelled successfully.", "dashboard-success")
                       "my_bookings", db')
         end
    else (Abort 403, db).
Proof. unfold cancel_booking. by destruct (User.is_staff u). Qed.

(** C1: for every booking id, requester and store, [Booking.cancel] returns
    without raising, and it sets the booking's status to [cancelled] exactly
    when the booking exists, is [pending] and belongs to the requester: in
    that case the row becomes the same row with status [cancelled]; in every
    other case (another owner, a status other than pending, no such
    booking) the whole store is returned unchanged.  No other row and no
    other table is ever touched.  The route [cancel_booking] ends in that
    same store when the requester is a staff member, and aborts with 403 on
    an unchanged store otherwise. *)
Theorem cancel_iff_pending_owner (bid uid : Z) (db : DB) :
  ∃ n db',
    Booking.cancel bid uid db = inr (n, db')
    ∧ users db' = users db
    ∧ facilities db' = facilities db
    ∧ next_booking_id db' = next_booking_id db
    ∧ (∀ k, k ≠ bid → bookings db' !! k = bookings db !! k)
    ∧ (∀ b, bookings db !! bid = Some b →
            b_status b = pending ∧ b_user_id b = uid →
            bookings db' !! bid = Some (with_status cancelled b))
    ∧ ((∀ b, bookings db !! bid = Some b →
             ¬ (b_status b = pending ∧ b_user_id b = uid)) →
       db' = db)
    ∧ (db' ≠ db ↔
       ∃ b, bookings db !! bid = Some b ∧ b_status b = pending ∧ b_user_id b = uid)
    ∧ ((n = 1 ∧ db' ≠ db) ∨ (n = 0 ∧ db' = db))
    ∧ (∀ u, User.user_id u = uid →
            cancel_booking u bid db
            = if User.is_staff u
              then (Redirect ("Booking cancelled successfully.", "dashboard-success")
                             "my_bookings", db')
              else (Abort 403, db)).
Proof.
  destruct (bookings db !! bid) as [b|] eqn:Hb.
  - destruct (decide (b_user_id b = uid ∧ b_status b = pending)) as [[Hu Hs]|Hno].
    + exists 1, (set_bookings (<[ bid := with_status cancelled b ]> (bookings db)) db).
      pose proof (cancel_hit bid uid db b Hb Hu Hs) as Hc.
      assert (Hchg : set_bookings (<[ bid := with_status cancelled b ]> (bookings db)) db ≠ db).
      { intros Heq. apply (f_equal (λ d, bookings d !! bid)) in Heq.
        simpl in Heq. rewrite lookup_insert_eq, Hb in Heq.
        injection Heq as Heq. apply with_status_fixed in Heq. congruence. }
      split; [exact Hc|].
      do 3 (split; [done|]).
      split; [intros k Hk; simpl; by rewrite lookup_insert_ne|].
      split; [intros b' Hb' _; simpl; rewrite lookup_insert_eq; congruence|].
      split; [intros Hall; exfalso; by apply (Hall b)|].
      split; [split; [intros _; by exists b|done]|].
      split; [by left|].
      intros u <-. by rewrite cancel_booking_route, Hc.
    + exists 0, db.
      assert (Hc : Booking.cancel bid uid db = inr (0, db))
        by (apply cancel_miss; intros b' Hb'; congruence).
      split; [exact Hc|].
      do 4 (split; [done|]).
      split; [intros b' Hb' [Hs Hu]; exfalso; apply Hno; split; congruence|].
      split; [done|].
      split; [split; [done|]; intros (b' & Hb' & Hs & Hu); exfalso; apply Hno;
              split; congruence|].
      split; [by right|].
      intros u <-. by rewrite cancel_booking_route, Hc.
  - exists 0, db.
    assert (Hc : Booking.cancel bid uid db = inr (0, db))
      by (apply cancel_miss; intros b' Hb'; congruence).
    split; [exact Hc|].
    do 4 (split; [done|]).
    split; [intros b' Hb'; congruence|].
    split; [done|].
    split; [split; [done|]; intros (b' & Hb' & _); congruence|].
    split; [by right|].
    intros u <-. by rewrite cancel_booking_route, Hc.
Qed.

(** The scenario of the specification: a booking is created (pending), an
    administrator approves it, and the owner's cancellation then changes
    nothing; cancelling it while it was still pending would have worked. *)
Lemma cancel_iff_pending_owner_witness :
  create_booking (coercion := digits_only) noon_15_jan staff_alice form_morning store_7
  = (Redirect ("Booking request submitted.", "dashboard-success")
              "staff_dashboard", store_pending)
  ∧ b_status <$> bookings store_pending !! 7 = Some pending
  ∧ approve_booking admin_carol 7 store_pending
    = (Redirect ("Booking approved.", "dashboard-success") "pending_bookings",
       store_approved)
  ∧ b_status <$> bookings store_approved !! 7 = Some approved
  ∧ Booking.cancel 7 (User.user_id staff_alice) store_approved = inr (0, store_approved)
  ∧ ∃ db3, Booking.cancel 7 (User.user_id staff_alice) store_pending = inr (1, db3)
           ∧ b_status <$> bookings db3 !! 7 = Some cancelled.
Proof.
  split; [vm_compute; reflexivity|]. split; [reflexivity|].
  split; [vm_compute; reflexivity|]. split; [reflexivity|].
  split.
  - destruct (cancel_iff_pending_owner 7 (User.user_id staff_alice) store_approved)
      as (n & db' & Hc & _ & _ & _ & _ & _ & Hmiss & _ & Hn & _).
    assert (Hsame : db' = store_approved).
    { apply Hmiss. intros b Hb [Hs _].
      change (Some (booking_of staff_alice 1 approved) = Some b) in Hb.
      injection Hb as <-. discriminate Hs. }
    rewrite Hc, Hsame. destruct Hn as [[_ Hne]|[-> _]]; [done|reflexivity].
  - destruct (cancel_iff_pending_owner 7 (User.user_id staff_alice) store_pending)
      as (n & db' & Hc & _ & _ & _ & _ & Hhit & _ & Hchg & Hn & _).
    exists db'.
    assert (Hnew : bookings db' !! 7
                   = Some (with_status cancelled (booking_of staff_alice 1 pending))).
    { apply Hhit; [reflexivity|split; reflexivity]. }
    split; [|by rewrite Hnew].
    rewrite Hc. destruct Hn as [[-> _]|[_ Hsame]]; [reflexivity|].
    exfalso. apply (proj2 Hchg); [|exact Hsame].
    exists (booking_of staff_alice 1 pending).
    split; [reflexivity|split; reflexivity].
Defined.

(* ===================================================================== *)
(** * Validation of a booking request                                     *)
(* ===================================================================== *)

(** C2: a booking form validates only when its end time is strictly after
    its start time and the duration is at least 30 minutes (1800 s) and at
    most 8 hours (28800 s).  A request outside these bounds gets exactly one
    error on the [end_time] field, naming the rule it breaks (end before
    start, maximum duration, minimum duration); the form is invalid, and
    the route returns the store unchanged: no booking row is created. *)
Theorem duration_bounds_enforced {coercion : SqlCoercion}
    (clk : clock) (u : User.t) (form : BookingForm.data) (db : DB) :
  (BookingForm.validate clk form = true →
   ∃ st et,
     BookingForm.start_time form = Some st
     ∧ BookingForm.end_time form = Some et
     ∧ time_ltb st et = true
     ∧ 1800 <= total_seconds et st <= 28800)
  ∧ (∀ st et,
       BookingForm.start_time form = Some st →
       BookingForm.end_time form = Some et →
       (time_ltb st et = false →
        BookingForm.end_time_errors form = ["End time must be after start time"])
       ∧ (time_ltb st et = true → 28800 < total_seconds et st →
          BookingForm.end_time_errors form = ["Maximum booking duration is 8 hours"])
       ∧ (time_ltb st et = true → total_seconds et st < 1800 →
          BookingForm.end_time_errors form = ["Minimum booking duration is 30 minutes"])
       ∧ (¬ (time_ltb st et = true ∧ 1800 <= total_seconds et st <= 28800) →
          BookingForm.validate clk form = false
          ∧ create_booking clk u form db
            = (if User.is_staff u
               then Redirect ("Invalid booking data.", "dashboard-danger")
                             "staff_dashboard"
               else Abort 403, db))).
Proof.
  split.
  - intros Hval. apply validate_true in Hval.
    by destruct Hval as (_ & _ & _ & Htimes & _).
  - intros st et Hst Het.
    assert (Herr : BookingForm.end_time_errors form
                   = BookingForm.errors_of (BookingForm.validate_end_time form et)).
    { unfold BookingForm.end_time_errors, BookingForm.required_then. by rewrite Het. }
    rewrite Herr, (validate_end_time_cases form st et Hst), time_leb_ltb.
    split; [by intros ->|].
    split; [|split].
    + intros -> Hmax. simpl.
      by destruct (Z.ltb_spec 28800 (total_seconds et st)); [|lia].
    + intros -> Hmin. simpl.
      destruct (Z.ltb_spec 28800 (total_seconds et st)); [lia|].
      by destruct (Z.ltb_spec (total_seconds et st) 1800); [|lia].
    + intros Hout.
      assert (Hinv : BookingForm.validate clk form = false).
      { apply not_true_is_false. intros Hval. apply validate_true in Hval.
        destruct Hval as (_ & _ & _ & (st' & et' & Hst' & Het' & Hord & Hdur) & _).
        apply Hout. rewrite Hst in Hst'. rewrite Het in Het'.
        injection Hst' as <-. injection Het' as <-. done. }
      split; [done|by apply create_booking_invalid].
Qed.

(** The scenarios of the specification: 14:00 to 13:00, and nine hours. *)
Lemma duration_bounds_enforced_witness :
  BookingForm.end_time_errors form_backwards = ["End time must be after start time"]
  ∧ BookingForm.end_time_errors form_nine_hours = ["Maximum booking duration is 8 hours"]
  ∧ create_booking (coercion := digits_only) noon_15_jan staff_alice form_backwards store_7
    = (Redirect ("Invalid booking data.", "dashboard-danger") "staff_dashboard", store_7)
  ∧ create_booking (coercion := digits_only) noon_15_jan staff_alice form_nine_hours store_7
    = (Redirect ("Invalid booking data.", "dashboard-danger") "staff_dashboard", store_7).
Proof.
  destruct (duration_bounds_enforced (coercion := digits_only)
              noon_15_jan staff_alice form_backwards store_7) as [_ Hback].
  destruct (Hback (mk_time 14 0) (mk_time 13 0) eq_refl eq_refl)
    as (Horder & _ & _ & Hrej).
  destruct (duration_bounds_enforced (coercion := digits_only)
              noon_15_jan staff_alice form_nine_hours store_7) as [_ Hlong].
  destruct (Hlong (mk_time 8 0) (mk_time 17 0) eq_refl eq_refl)
    as (_ & Hmax & _ & Hrej').
  split; [apply Horder; reflexivity|].
  split; [apply Hmax; reflexivity|].
  split.
  - apply Hrej. intros [Hord _]. discriminate Hord.
  - apply Hrej'. intros [_ [_ Hdur]]. vm_compute in Hdur. by apply Hdur.
Defined.

(** C4: when the submitted booking date is strictly before today, the
    [booking_date] field carries the past-date error, the form is invalid,
    and the route returns the store exactly as it was. *)
Theorem past_date_rejected {coercion : SqlCoercion}
    (clk : clock) (u : User.t) (form : BookingForm.data) (db : DB) (d : date) :
  BookingForm.booking_date form = Some d →
  date_ltb d (today clk) = true →
  BookingForm.booking_date_errors clk form = ["Cannot book for past dates"]
  ∧ BookingForm.validate clk form = false
  ∧ create_booking clk u form db
    = (if User.is_staff u
       then Redirect ("Invalid booking data.", "dashboard-danger") "staff_dashboard"
       else Abort 403, db).
Proof.
  intros Hd Hpast.
  assert (Hinv : BookingForm.validate clk form = false).
  { apply not_true_is_false. intros Hval. apply validate_true in Hval.
    destruct Hval as (_ & _ & (d' & Hd' & Hok) & _). congruence. }
  repeat split; [|done|by apply create_booking_invalid].
  unfold BookingForm.booking_date_errors, BookingForm.required_then,
    BookingForm.validate_booking_date.
  by rewrite Hd, Hpast.
Qed.

Lemma past_date_rejected_witness :
  BookingForm.booking_date form_yesterday = Some (mk_date 2026 1 14)
  ∧ date_ltb (mk_date 2026 1 14) (today noon_15_jan) = true
  ∧ BookingForm.booking_date_errors noon_15_jan form_yesterday
    = ["Cannot book for past dates"]
  ∧ BookingForm.validate noon_15_jan form_yesterday = false
  ∧ create_booking (coercion := digits_only) noon_15_jan staff_alice form_yesterday store_7
    = (Redirect ("Invalid booking data.", "dashboard-danger") "staff_dashboard", store_7).
Proof.
  split; [reflexivity|]. split; [reflexivity|].
  apply (past_date_rejected (coercion := digits_only) noon_15_jan staff_alice
           form_yesterday store_7 (mk_date 2026 1 14)); reflexivity.
Defined.

(** C9: a booking dated today passes the past-date validator whatever its
    start time: the validator compares dates only.  A same-day request whose
    whole window is already over by the clock ([end_time] before [now]) is a
    valid form as soon as its other fields are. *)
Theorem same_day_past_time_accepted
    (clk : clock) (form : BookingForm.data) (st et : time) :
  BookingForm.booking_date form = Some (today clk) →
  BookingForm.start_time form = Some st →
  BookingForm.end_time form = Some et →
  time_ltb st (now clk) = true →
  time_ltb et (now clk) = true →
  BookingForm.booking_date_errors clk form = []
  ∧ (BookingForm.csrf_token form = true →
     BookingForm.facility_id form ≠ "" →
     time_ltb st et = true →
     1800 <= total_seconds et st <= 28800 →
     (String.length (BookingForm.purpose form) <= 500)%nat →
     BookingForm.validate clk form = true).
Proof.
  intros Hd Hst Het _ _. split.
  - unfold BookingForm.booking_date_errors, BookingForm.required_then,
      BookingForm.validate_booking_date.
    by rewrite Hd, date_ltb_irrefl.
  - intros Hc Hf Hord Hdur Hp. apply validate_true.
    repeat split; try done.
    + exists (today clk). split; [done|apply date_ltb_irrefl].
    + by exists st, et.
Qed.

Lemma same_day_past_time_accepted_witness :
  BookingForm.booking_date_errors noon_15_jan form_this_morning = []
  ∧ BookingForm.validate noon_15_jan form_this_morning = true.
Proof.
  destruct (same_day_past_time_accepted noon_15_jan form_this_morning
              (mk_time 8 0) (mk_time 9 0)) as [Hdate Hform];
    [reflexivity|reflexivity|reflexivity|reflexivity|reflexivity|].
  split; [exact Hdate|].
  apply Hform; [reflexivity|discriminate|reflexivity|vm_compute; split; discriminate|].
  vm_compute. lia.
Defined.

(* ===================================================================== *)
(** * Administrator transitions                                           *)
(* ===================================================================== *)

(** C3: for an administrator and a stored booking in any status, approve
    and reject overwrite the status with [approved] (respectively
    [rejected]) without looking at the current one, so a booking in a
    terminal state is overwritten as well; cancellation of a booking that is
    not pending changes nothing. *)
Theorem admin_overwrites_any_status
    (u : User.t) (bid : Z) (db : DB) (b : booking_row) :
  User.is_admin u = true →
  bookings db !! bid = Some b →
  (∃ n, Booking.update_status bid approved db
        = inr (n, set_bookings (<[ bid := with_status approved b ]> (bookings db)) db))
  ∧ approve_booking u bid db
    = (Redirect ("Booking approved.", "dashboard-success") "pending_bookings",
       set_bookings (<[ bid := with_status approved b ]> (bookings db)) db)
  ∧ (∃ n, Booking.update_status bid rejected db
          = inr (n, set_bookings (<[ bid := with_status rejected b ]> (bookings db)) db))
  ∧ reject_booking u bid db
    = (Redirect ("Booking rejected.", "dashboard-success") "pending_bookings",
       set_bookings (<[ bid := with_status rejected b ]> (bookings db)) db)
  ∧ (b_status b ≠ pending → ∀ uid, Booking.cancel bid uid db = inr (0, db)).
Proof.
  intros Hadmin Hb.
  split; [eexists; by apply update_status_hit|].
  split; [unfold approve_booking; by rewrite Hadmin, (update_status_hit _ _ _ b Hb)|].
  split; [eexists; by apply update_status_hit|].
  split; [unfold reject_booking; by rewrite Hadmin, (update_status_hit _ _ _ b Hb)|].
  intros Hterminal uid. apply cancel_miss. intros b' Hb' [_ Hs]. congruence.
Qed.

Lemma admin_overwrites_any_status_witness :
  User.is_admin admin_carol = true
  ∧ bookings store_busy !! 5 = Some (booking_of staff_alice 1 cancelled)
  ∧ (∃ db', approve_booking admin_carol 5 store_busy
            = (Redirect ("Booking approved.", "dashboard-success") "pending_bookings", db')
            ∧ b_status <$> bookings db' !! 5 = Some approved)
  ∧ Booking.cancel 5 1 store_busy = inr (0, store_busy).
Proof.
  split; [reflexivity|]. split; [reflexivity|].
  destruct (admin_overwrites_any_status admin_carol 5 store_busy
              (booking_of staff_alice 1 cancelled))
    as (_ & Happrove & _ & _ & Hcancel); [reflexivity|reflexivity|].
  split.
  - eexists. split; [exact Happrove|]. simpl. by rewrite lookup_insert_eq.
  - apply Hcancel. discriminate.
Defined.

(* ===================================================================== *)
(** * Facility deletion                                                   *)
(* ===================================================================== *)

(** C6: for an administrator and a stored facility, deletion is refused
    with the business-rule message (a flash and a redirect, not a database
    error) and the store is left as it is whenever some booking of that
    facility is pending or approved; when there is none, deletion succeeds
    and the facility row is gone. *)
Theorem delete_facility_guarded
    (u : User.t) (fid : Z) (db : DB) (f : facility_row) :
  User.is_admin u = true →
  facilities db !! fid = Some f →
  ((∃ k b, bookings db !! k = Some b ∧ active_booking fid b) →
   delete_facility u fid db
   = (Redirect ("Cannot delete facility with active or pending bookings.",
                "dashboard-danger") "facilities_list", db))
  ∧ ((¬ ∃ k b, bookings db !! k = Some b ∧ active_booking fid b) →
     ∃ db', delete_facility u fid db
            = (Redirect ("Facility deleted successfully.", "dashboard-success")
                        "facilities_list", db')
            ∧ facilities db' !! fid = None).
Proof.
  intros Hadmin Hf. unfold delete_facility, Facility.get_by_id.
  rewrite Hadmin, Hf. cbn [negb]. split.
  - intros Hact. apply has_active_bookings_true in Hact. by rewrite Hact.
  - intros Hnone.
    assert (Hfalse : Facility.has_active_bookings fid db = false).
    { apply not_true_is_false. by rewrite has_active_bookings_true. }
    rewrite Hfalse, (delete_existing fid db f Hf).
    eexists. split; [done|]. simpl. apply lookup_delete_eq.
Qed.

Lemma delete_facility_guarded_witness :
  delete_facility admin_carol 2 store_busy
  = (Redirect ("Cannot delete facility with active or pending bookings.",
               "dashboard-danger") "facilities_list", store_busy)
  ∧ ∃ db', delete_facility admin_carol 1 store_busy
           = (Redirect ("Facility deleted successfully.", "dashboard-success")
                       "facilities_list", db')
           ∧ facilities db' !! 1 = None.
Proof.
  split.
  - apply (delete_facility_guarded admin_carol 2 store_busy room_a);
      [reflexivity|reflexivity|].
    exists 4, (booking_of staff_bob 2 approved).
    split; [reflexivity|]. split; [reflexivity|by right].
  - apply (delete_facility_guarded admin_carol 1 store_busy room_a);
      [reflexivity|reflexivity|].
    apply has_active_bookings_true_not. reflexivity.
Defined.

(* ===================================================================== *)
(** * Creation of a booking                                               *)
(* ===================================================================== *)

(** C5, as the code has it: for every valid form submitted by a logged-in
    staff member whose [facility_id] text denotes a stored facility, on a
    store that respects AUTO_INCREMENT, creation inserts exactly one new
    row.  The row sits under the identifier the counter held (which was
    free), has status [pending] and the submitted columns; every other row
    and table is as before.  [Booking.create] returns the affected-row
    count 1, and the route answers with the success flash and discards
    that count. *)
Theorem create_inserts_one_pending_row {coercion : SqlCoercion}
    (clk : clock) (u : User.t) (form : BookingForm.data) (db : DB) (fid : Z) :
  User.is_staff u = true →
  logged_in u db →
  BookingForm.validate clk form = true →
  sql_int (BookingForm.facility_id form) = Some fid →
  is_Some (facilities db !! fid) →
  auto_increment_ok db →
  ∃ row db',
    Booking.create clk (User.user_id u) (BookingForm.facility_id form)
      (BookingForm.booking_date form) (BookingForm.start_time form)
      (BookingForm.end_time form) (BookingForm.purpose form) db
    = inr (1, db')
    ∧ create_booking clk u form db
      = (Redirect ("Booking request submitted.", "dashboard-success")
                  "staff_dashboard", db')
    ∧ bookings db !! next_booking_id db = None
    ∧ bookings db' !! next_booking_id db = Some row
    ∧ (∀ k, k ≠ next_booking_id db → bookings db' !! k = bookings db !! k)
    ∧ size (bookings db') = S (size (bookings db))
    ∧ b_status row = pending
    ∧ b_user_id row = User.user_id u
    ∧ b_facility_id row = fid
    ∧ BookingForm.booking_date form = Some (b_booking_date row)
    ∧ BookingForm.start_time form = Some (b_start_time row)
    ∧ BookingForm.end_time form = Some (b_end_time row)
    ∧ b_purpose row = BookingForm.purpose form
    ∧ users db' = users db
    ∧ facilities db' = facilities db
    ∧ next_booking_id db' = next_booking_id db + 1.
Proof.
  intros Hstaff Hlog Hval Hfid Hf Hai.
  pose proof (logged_in_user u db Hlog) as Hu.
  pose proof (auto_increment_fresh db Hai) as Hfresh.
  destruct (create_booking_valid clk u form db fid Hstaff Hval Hfid Hu Hf Hai)
    as (d & st & et & Hd & Hst & Het & Hroute).
  exists (Booking.inserted_row clk (User.user_id u) fid d st et (BookingForm.purpose form)).
  eexists. split.
  { rewrite Hd, Hst, Het. by apply create_inserts. }
  split; [exact Hroute|].
  split; [exact Hfresh|]. simpl.
  split; [apply lookup_insert_eq|].
  split; [intros k Hk; by rewrite lookup_insert_ne|].
  split; [by apply map_size_insert_None|].
  done.
Qed.

Lemma create_inserts_one_pending_row_witness :
  ∃ db',
    create_booking (coercion := digits_only) noon_15_jan staff_alice form_morning store_7
    = (Redirect ("Booking request submitted.", "dashboard-success")
                "staff_dashboard", db')
    ∧ b_status <$> bookings db' !! 7 = Some pending
    ∧ size (bookings db') = 1%nat.
Proof.
  destruct (create_inserts_one_pending_row (coercion := digits_only)
              noon_15_jan staff_alice form_morning store_7 1)
    as (row & db' & _ & Hroute & _ & Hrow & _ & Hsize & Hpending & _);
    [reflexivity|reflexivity|reflexivity|reflexivity|by eexists| |].
  - exact store_7_auto_increment.
  - exists db'. split; [exact Hroute|].
    split; [simpl in Hrow; by rewrite Hrow, <- Hpending|exact Hsize].
Defined.

(** C5, as the specification words it, fails on two counts.  On a store
    whose counter stands at 7, a valid request creates booking 7, yet
    [Booking.create] returns 1, the row count held by the cursor, while the
    cursor's [lastrowid] (7) is dropped; and 1 is not the identifier of any
    booking.  And a valid form that names facility 9, which is not stored,
    inserts nothing: the server refuses the row and the route fails. *)
Lemma create_returns_row_count_not_identifier :
  (∃ cur db',
     Booking.create_statement (coercion := digits_only) noon_15_jan 1 "1"
       (Some (mk_date 2026 1 16)) (Some (mk_time 9 0)) (Some (mk_time 10 30))
       "Planning" store_7
     = inr (cur, db')
     ∧ lastrowid cur = 7
     ∧ Booking.create (coercion := digits_only) noon_15_jan 1 "1"
         (Some (mk_date 2026 1 16)) (Some (mk_time 9 0)) (Some (mk_time 10 30))
         "Planning" store_7
       = inr (1, db')
     ∧ is_Some (bookings db' !! 7)
     ∧ bookings db' !! 1 = None)
  ∧ BookingForm.validate noon_15_jan form_no_such_facility = true
  ∧ create_booking (coercion := digits_only) noon_15_jan staff_alice
      form_no_such_facility store_7
    = (ServerError IntegrityError, store_7).
Proof.
  split; [|split; reflexivity].
  eexists. eexists. split; [reflexivity|].
  split; [reflexivity|]. split; [reflexivity|].
  split; [by eexists|reflexivity].
Qed.

(** C7, as the code has it: two valid requests for the same stored
    facility and the same date whose time windows overlap, submitted one
    after the other by logged-in staff members, both succeed: the store
    ends up with two distinct new rows, both [pending], for that facility
    and date with the two overlapping windows.  Nothing in the existing
    bookings can make a creation fail: the store [db] is arbitrary. *)
Theorem overlapping_requests_both_pending {coercion : SqlCoercion}
    (clk1 clk2 : clock) (u1 u2 : User.t) (form1 form2 : BookingForm.data)
    (db : DB) (fid : Z) (d : date) (s1 e1 s2 e2 : time) :
  User.is_staff u1 = true → User.is_staff u2 = true →
  logged_in u1 db → logged_in u2 db →
  auto_increment_ok db →
  BookingForm.validate clk1 form1 = true →
  BookingForm.validate clk2 form2 = true →
  sql_int (BookingForm.facility_id form1) = Some fid →
  sql_int (BookingForm.facility_id form2) = Some fid →
  is_Some (facilities db !! fid) →
  BookingForm.booking_date form1 = Some d →
  BookingForm.booking_date form2 = Some d →
  BookingForm.start_time form1 = Some s1 → BookingForm.end_time form1 = Some e1 →
  BookingForm.start_time form2 = Some s2 → BookingForm.end_time form2 = Some e2 →
  overlaps s1 e1 s2 e2 = true →
  ∃ db1 db2 row1 row2,
    create_booking clk1 u1 form1 db
    = (Redirect ("Booking request submitted.", "dashboard-success")
                "staff_dashboard", db1)
    ∧ create_booking clk2 u2 form2 db1
      = (Redirect ("Booking request submitted.", "dashboard-success")
                  "staff_dashboard", db2)
    ∧ bookings db !! next_booking_id db = None
    ∧ bookings db !! (next_booking_id db + 1) = None
    ∧ bookings db2 !! next_booking_id db = Some row1
    ∧ bookings db2 !! (next_booking_id db + 1) = Some row2
    ∧ b_status row1 = pending ∧ b_status row2 = pending
    ∧ b_facility_id row1 = fid ∧ b_facility_id row2 = fid
    ∧ b_booking_date row1 = d ∧ b_booking_date row2 = d
    ∧ b_start_time row1 = s1 ∧ b_end_time row1 = e1
    ∧ b_start_time row2 = s2 ∧ b_end_time row2 = e2.
Proof.
  intros Hst1 Hst2 Hlog1 Hlog2 Hai Hv1 Hv2 Hf1 Hf2 Hfac Hd1 Hd2 Hs1 He1 Hs2 He2 _.
  pose proof (logged_in_user u1 db Hlog1) as Hu1.
  pose proof (logged_in_user u2 db Hlog2) as Hu2.
  destruct (create_booking_valid clk1 u1 form1 db fid Hst1 Hv1 Hf1 Hu1 Hfac Hai)
    as (d1 & a1 & b1 & Hd1' & Hs1' & He1' & Hroute1).
  set (row1 := Booking.inserted_row clk1 (User.user_id u1) fid d1 a1 b1
                 (BookingForm.purpose form1)) in *.
  pose proof (after_insert_auto_increment db row1 Hai) as Hai1.
  destruct (create_booking_valid clk2 u2 form2 (after_insert db row1) fid
              Hst2 Hv2 Hf2 Hu2 Hfac Hai1)
    as (d2 & a2 & b2 & Hd2' & Hs2' & He2' & Hroute2).
  set (row2 := Booking.inserted_row clk2 (User.user_id u2) fid d2 a2 b2
                 (BookingForm.purpose form2)) in *.
  exists (after_insert db row1), (after_insert (after_insert db row1) row2), row1, row2.
  split; [exact Hroute1|]. split; [exact Hroute2|].
  split; [by apply auto_increment_fresh|].
  split.
  { destruct (bookings db !! (next_booking_id db + 1)) as [b|] eqn:Hb; [|done].
    apply Hai in Hb. simpl in Hb. lia. }
  split.
  { simpl. rewrite lookup_insert_ne by lia. apply lookup_insert_eq. }
  split; [simpl; apply lookup_insert_eq|].
  subst row1 row2. simpl.
  repeat split; congruence.
Qed.

Lemma overlapping_requests_both_pending_witness :
  overlaps (mk_time 9 0) (mk_time 10 30) (mk_time 10 0) (mk_time 11 0) = true
  ∧ ∃ db1 db2,
      create_booking (coercion := digits_only) noon_15_jan staff_alice form_morning store_7
      = (Redirect ("Booking request submitted.", "dashboard-success")
                  "staff_dashboard", db1)
      ∧ create_booking (coercion := digits_only) noon_15_jan staff_bob form_clash db1
        = (Redirect ("Booking request submitted.", "dashboard-success")
                    "staff_dashboard", db2)
      ∧ b_status <$> bookings db2 !! 7 = Some pending
      ∧ b_status <$> bookings db2 !! 8 = Some pending.
Proof.
  split; [reflexivity|].
  destruct (overlapping_requests_both_pending (coercion := digits_only)
              noon_15_jan noon_15_jan staff_alice staff_bob form_morning form_clash
              store_7 1 (mk_date 2026 1 16)
              (mk_time 9 0) (mk_time 10 30) (mk_time 10 0) (mk_time 11 0))
    as (db1 & db2 & row1 & row2 & Hc1 & Hc2 & _ & _ & Hr1 & Hr2 & Hp1 & Hp2 & _);
    try reflexivity.
  - exact store_7_auto_increment.
  - by eexists.
  - exists db1, db2. split; [exact Hc1|]. split; [exact Hc2|].
    change (bookings db2 !! 7 = Some row1) in Hr1.
    change (bookings db2 !! 8 = Some row2) in Hr2.
    rewrite Hr1, Hr2. simpl. by rewrite Hp1, Hp2.
Defined.

(** C7, as the specification words it, fails: validity of the two requests
    is not enough, the facility they name must be stored.  Alice and Bob
    submit valid forms for facility 9, which the store does not hold, for
    the same date and with overlapping windows (09:00 to 10:30 and 10:00 to
    11:00).  The server refuses both rows for their foreign key: each route
    ends in the error, no booking is inserted and neither request is
    pending. *)
Lemma overlapping_requests_need_stored_facility :
  BookingForm.validate noon_15_jan form_no_such_facility = true
  ∧ BookingForm.validate noon_15_jan
      (form_for "9" (mk_date 2026 1 16) (mk_time 10 0) (mk_time 11 0)) = true
  ∧ overlaps (mk_time 9 0) (mk_time 10 30) (mk_time 10 0) (mk_time 11 0) = true
  ∧ create_booking (coercion := digits_only) noon_15_jan staff_alice
      form_no_such_facility store_7
    = (ServerError IntegrityError, store_7)
  ∧ create_booking (coercion := digits_only) noon_15_jan staff_bob
      (form_for "9" (mk_date 2026 1 16) (mk_time 10 0) (mk_time 11 0)) store_7
    = (ServerError IntegrityError, store_7)
  ∧ bookings store_7 = ∅.
Proof.
  split; [reflexivity|]. split; [reflexivity|]. split; [reflexivity|].
  split; [reflexivity|]. split; reflexivity.
Qed.

(* ===================================================================== *)
(** * What a transition reports                                           *)
(* ===================================================================== *)

(** C8: each transition statement yields the affected-row count, and the
    route reports success whatever that count is.  For cancel (requested by
    a staff member), approve and reject (requested by an administrator): the
    statement returns a count [n] and a store; when [n] is zero the store is
    the one before; a cancel that selects no row (not pending, another
    owner, or no such booking), and an approve or reject of an identifier
    that is not stored, give [n = 0]; and the route answers with its success
    flash and redirect all the same. *)
Theorem zero_rows_reported_as_success (u : User.t) (bid : Z) (db : DB) :
  (User.is_staff u = true →
   ∃ n db',
     Booking.cancel bid (User.user_id u) db = inr (n, db')
     ∧ cancel_booking u bid db
       = (Redirect ("Booking cancelled successfully.", "dashboard-success")
                   "my_bookings", db')
     ∧ (n = 0 → db' = db)
     ∧ ((∀ b, bookings db !! bid = Some b →
              ¬ (b_status b = pending ∧ b_user_id b = User.user_id u)) → n = 0))
  ∧ (User.is_admin u = true →
     ∃ n db',
       Booking.update_status bid approved db = inr (n, db')
       ∧ approve_booking u bid db
         = (Redirect ("Booking approved.", "dashboard-success") "pending_bookings", db')
       ∧ (n = 0 → db' = db)
       ∧ (bookings db !! bid = None → n = 0))
  ∧ (User.is_admin u = true →
     ∃ n db',
       Booking.update_status bid rejected db = inr (n, db')
       ∧ reject_booking u bid db
         = (Redirect ("Booking rejected.", "dashboard-success") "pending_bookings", db')
       ∧ (n = 0 → db' = db)
       ∧ (bookings db !! bid = None → n = 0)).
Proof.
  split; [|split].
  - intros Hstaff.
    destruct (cancel_returns bid (User.user_id u) db) as (n & db' & Hc & Hz & Hm).
    exists n, db'. split; [done|]. split; [|done].
    rewrite cancel_booking_route, Hstaff. by rewrite Hc.
  - intros Hadmin.
    destruct (update_status_returns bid approved db) as (n & db' & Hc & Hz & Hm).
    exists n, db'. split; [done|]. split; [|done].
    unfold approve_booking. by rewrite Hadmin, Hc.
  - intros Hadmin.
    destruct (update_status_returns bid rejected db) as (n & db' & Hc & Hz & Hm).
    exists n, db'. split; [done|]. split; [|done].
    unfold reject_booking. by rewrite Hadmin, Hc.
Qed.

Lemma zero_rows_reported_as_success_witness :
  cancel_booking staff_alice 5 store_busy
  = (Redirect ("Booking cancelled successfully.", "dashboard-success")
              "my_bookings", store_busy)
  ∧ approve_booking admin_carol 99 store_busy
    = (Redirect ("Booking approved.", "dashboard-success") "pending_bookings",
       store_busy).
Proof.
  destruct (zero_rows_reported_as_success staff_alice 5 store_busy)
    as [Hcancel _].
  destruct (zero_rows_reported_as_success admin_carol 99 store_busy)
    as (_ & Happrove & _).
  destruct Hcancel as (n & db' & _ & Hroute & Hzero & Hmiss); [reflexivity|].
  destruct Happrove as (n2 & db2 & _ & Hroute2 & Hzero2 & Hmiss2); [reflexivity|].
  split.
  - rewrite Hroute. f_equal. apply Hzero, Hmiss.
    intros b Hb [Hs _].
    assert (Hsame : b = booking_of staff_alice 1 cancelled).
    { change (Some (booking_of staff_alice 1 cancelled) = Some b) in Hb. congruence. }
    subst b. discriminate Hs.
  - rewrite Hroute2. f_equal. apply Hzero2, Hmiss2. reflexivity.
Defined.

(* ===================================================================== *)
(** * The reach of a facility deletion                                    *)
(* ===================================================================== *)

(** C10: a permitted deletion (administrator, stored facility, no pending
    or approved booking on it) removes the facility row and, through
    ON DELETE CASCADE, every booking row that references it; each booking
    removed this way was rejected or cancelled.  Bookings of other
    facilities, the other facility rows, the users and the counter are as
    before. *)
Theorem delete_facility_cascades
    (u : User.t) (fid : Z) (db : DB) (f : facility_row) :
  User.is_admin u = true →
  facilities db !! fid = Some f →
  Facility.has_active_bookings fid db = false →
  ∃ db',
    delete_facility u fid db
    = (Redirect ("Facility deleted successfully.", "dashboard-success")
                "facilities_list", db')
    ∧ facilities db' !! fid = None
    ∧ (∀ k, k ≠ fid → facilities db' !! k = facilities db !! k)
    ∧ (∀ k b, bookings db !! k = Some b → b_facility_id b = fid →
              bookings db' !! k = None
              ∧ (b_status b = rejected ∨ b_status b = cancelled))
    ∧ (∀ k b, bookings db !! k = Some b → b_facility_id b ≠ fid →
              bookings db' !! k = Some b)
    ∧ (∀ k, bookings db !! k = None → bookings db' !! k = None)
    ∧ users db' = users db
    ∧ next_booking_id db' = next_booking_id db.
Proof.
  intros Hadmin Hf Hnone. exists (after_delete db fid).
  split.
  { unfold delete_facility, Facility.get_by_id.
    rewrite Hadmin, Hf. cbn [negb]. by rewrite Hnone, (delete_existing fid db f Hf). }
  simpl. split; [apply lookup_delete_eq|].
  split; [intros k Hk; by apply lookup_delete_ne|].
  split.
  { intros k b Hb Href. split.
    - apply map_lookup_filter_None. right. intros b' Hb' Hne. simpl in Hne. congruence.
    - apply (not_active_status fid b Href).
      by apply (proj1 (has_active_bookings_false fid db) Hnone k b). }
  split; [intros k b Hb Hne; by apply map_lookup_filter_Some|].
  split; [|done].
  intros k Hk. apply map_lookup_filter_None. by left.
Qed.

Lemma delete_facility_cascades_witness :
  ∃ db',
    delete_facility admin_carol 1 store_busy
    = (Redirect ("Facility deleted successfully.", "dashboard-success")
                "facilities_list", db')
    ∧ bookings store_busy !! 5 = Some (booking_of staff_alice 1 cancelled)
    ∧ bookings db' !! 5 = None
    ∧ bookings db' !! 6 = None
    ∧ bookings db' !! 4 = Some (booking_of staff_bob 2 approved)
    ∧ users db' = users store_busy.
Proof.
  destruct (delete_facility_cascades admin_carol 1 store_busy room_a)
    as (db' & Hroute & _ & _ & Hgone & Hkept & _ & Husers & _);
    [reflexivity|reflexivity|reflexivity|].
  exists db'. split; [exact Hroute|]. split; [reflexivity|].
  split; [apply (Hgone 5 (booking_of staff_alice 1 cancelled)); reflexivity|].
  split; [apply (Hgone 6 (booking_of staff_bob 1 rejected)); reflexivity|].
  split; [apply (Hkept 4 (booking_of staff_bob 2 approved)); [reflexivity|discriminate]|].
  exact Husers.
Defined.

(* ===================================================================== *)
(** * Counting rows                                                       *)
(* ===================================================================== *)

Section counting.
Context {R : Type}.
Implicit Types (t : gmap Z R) (w : Z → R → bool).

Lemma sql_count_empty w : sql_count w (∅ : gmap Z R) = 0.
Proof. unfold sql_count. by rewrite map_filter_empty, map_size_empty. Qed.

Lemma sql_count_insert_fresh w t k r :
  t !! k = None →
  sql_count w (<[ k := r ]> t) = sql_count w t + sql_bool (w k r).
Proof.
  intros Hk. unfold sql_count. destruct (w k r) eqn:Hw; simpl.
  - rewrite map_filter_insert_True by done.
    rewrite map_size_insert_None; [lia|].
    apply map_lookup_filter_None. by left.
  - rewrite map_filter_insert_False by (simpl; congruence).
    rewrite delete_id by done. lia.
Qed.

Lemma sql_count_nonneg w t : 0 <= sql_count w t.
Proof. unfold sql_count. lia. Qed.

Lemma sql_count_delete w t k r :
  t !! k = Some r →
  sql_count w (delete k t) = sql_count w t - sql_bool (w k r).
Proof.
  intros Hk.
  assert (Ht : t = <[ k := r ]> (delete k t)) by (by rewrite insert_delete_id).
  rewrite Ht at 2. rewrite sql_count_insert_fresh by apply lookup_delete_eq. lia.
Qed.

(** Rewriting one row moves it out of the counts it left and into the
    counts it entered. *)
Lemma sql_count_replace w t k r0 r :
  t !! k = Some r0 →
  sql_count w (<[ k := r ]> t) = sql_count w t - sql_bool (w k r0) + sql_bool (w k r).
Proof.
  intros Hk. rewrite <- insert_delete_eq.
  rewrite sql_count_insert_fresh by apply lookup_delete_eq.
  rewrite (sql_count_delete w t k r0 Hk). lia.
Qed.

Lemma sql_count_zero w t :
  (∀ k r, t !! k = Some r → w k r = false) → sql_count w t = 0.
Proof.
  intros Hno. unfold sql_count.
  assert (Hsz : size (filter (λ kr : Z * R, w kr.1 kr.2 = true) t) = 0%nat).
  { apply size_filter_zero. intros k r Hk. simpl. rewrite (Hno k r Hk). done. }
  by rewrite Hsz.
Qed.

Lemma sql_count_ext w1 w2 t :
  (∀ k r, t !! k = Some r → w1 k r = w2 k r) → sql_count w1 t = sql_count w2 t.
Proof.
  intros Hext. unfold sql_count. do 2 f_equal.
  apply map_filter_ext. intros k r Hk. simpl. by rewrite (Hext k r Hk).
Qed.

(** A SUM of comparisons counts the selected rows that satisfy them. *)
Lemma fold_indicator (p : R → bool) t :
  map_fold (λ _ r acc, sql_bool (p r) + acc) 0 t = sql_count (λ _ r, p r) t.
Proof.
  induction t as [|k r t Hk IH] using map_ind.
  - by rewrite map_fold_empty, sql_count_empty.
  - rewrite map_fold_insert_L; [|intros; lia|done].
    rewrite sql_count_insert_fresh by done. lia.
Qed.

Lemma sql_sum_indicator w (p : R → bool) t :
  sql_sum w (λ r, sql_bool (p r)) t
  = if sql_count w t =? 0 then None
    else Some (sql_count (λ k r, w k r && p r) t).
Proof.
  unfold sql_sum. cbv zeta.
  assert (Hz : (size (filter (λ kr : Z * R, w kr.1 kr.2 = true) t) =? 0)%nat
               = (sql_count w t =? 0)).
  { unfold sql_count.
    destruct (Nat.eqb_spec (size (filter (λ kr : Z * R, w kr.1 kr.2 = true) t)) 0);
      destruct (Z.eqb_spec (Z.of_nat (size (filter (λ kr : Z * R, w kr.1 kr.2 = true) t))) 0);
      try done; lia. }
  rewrite Hz. destruct (sql_count w t =? 0); [done|]. f_equal.
  rewrite fold_indicator. unfold sql_count. do 2 f_equal.
  rewrite map_filter_filter. apply map_filter_ext. intros k r Hk. simpl.
  rewrite andb_true_iff. tauto.
Qed.

Lemma sql_count_and_le w (p : R → bool) t :
  sql_count (λ k r, w k r && p r) t <= sql_count w t.
Proof.
  induction t as [|k r t Hk IH] using map_ind.
  - by rewrite !sql_count_empty.
  - rewrite !sql_count_insert_fresh by done.
    destruct (w k r), (p r); simpl; lia.
Qed.
End counting.

(* ===================================================================== *)
(** * Statistics                                                          *)
(* ===================================================================== *)

Lemma or_0_id (v : Z) : or_0 (Some v) = v.
Proof. unfold or_0. destruct (Z.eqb_spec v 0); congruence. Qed.

Lemma get_user_stats_counts uid db :
  BookingQuery.get_user_stats uid db
  = {[ "total" := user_total uid db;
       "pending" := user_in_status uid pending db;
       "approved" := user_in_status uid approved db ]}.
Proof.
  unfold BookingQuery.get_user_stats, user_total, user_in_status. cbv zeta.
  rewrite or_0_id.
  rewrite (sql_sum_indicator _ (λ b, bool_decide (b_status b = pending))).
  rewrite (sql_sum_indicator _ (λ b, bool_decide (b_status b = approved))).
  destruct (Z.eqb_spec (sql_count (BookingQuery.of_user uid) (bookings db)) 0) as [Hz|Hz].
  - pose proof (sql_count_and_le (BookingQuery.of_user uid)
                  (λ b, bool_decide (b_status b = pending)) (bookings db)) as Hp.
    pose proof (sql_count_and_le (BookingQuery.of_user uid)
                  (λ b, bool_decide (b_status b = approved)) (bookings db)) as Ha.
    pose proof (sql_count_nonneg
                  (λ k b, BookingQuery.of_user uid k b && bool_decide (b_status b = pending))
                  (bookings db)) as Hp0.
    pose proof (sql_count_nonneg
                  (λ k b, BookingQuery.of_user uid k b && bool_decide (b_status b = approved))
                  (bookings db)) as Ha0.
    cbv beta in Hp, Ha.
    assert (Hpz : sql_count
                    (λ k b, BookingQuery.of_user uid k b && bool_decide (b_status b = pending))
                    (bookings db) = 0) by lia.
    assert (Haz : sql_count
                    (λ k b, BookingQuery.of_user uid k b && bool_decide (b_status b = approved))
                    (bookings db) = 0) by lia.
    by rewrite Hpz, Haz.
  - by rewrite !or_0_id.
Qed.

(** Every booking is in exactly one status. *)
Lemma count_by_status (t : gmap Z booking_row) (w : Z → booking_row → bool) :
  sql_count w t
  = sql_count (λ k b, w k b && bool_decide (b_status b = pending)) t
    + sql_count (λ k b, w k b && bool_decide (b_status b = approved)) t
    + sql_count (λ k b, w k b && bool_decide (b_status b = rejected)) t
    + sql_count (λ k b, w k b && bool_decide (b_status b = cancelled)) t.
Proof.
  induction t as [|k b t Hk IH] using map_ind.
  - by rewrite !sql_count_empty.
  - rewrite !sql_count_insert_fresh by done. rewrite IH.
    destruct (w k b), (b_status b); simpl; lia.
Qed.

(** X1: the administrator's counts reconcile: the total is the sum of the
    pending, approved and rejected counts and of the cancelled bookings,
    for which the dashboard has no count of its own.  So the three counts
    shown never exceed the total, and they fall short of it by exactly the
    number of cancelled bookings. *)
Theorem admin_counts_reconcile (db : DB) :
  BookingQuery.get_total_count db
  = BookingQuery.get_pending_count db
    + BookingQuery.get_approved_count db
    + BookingQuery.get_rejected_count db
    + in_status cancelled db
  ∧ 0 <= in_status cancelled db
  ∧ BookingQuery.get_pending_count db
    + BookingQuery.get_approved_count db
    + BookingQuery.get_rejected_count db
    <= BookingQuery.get_total_count db.
Proof.
  assert (Hsum : BookingQuery.get_total_count db
                 = BookingQuery.get_pending_count db
                   + BookingQuery.get_approved_count db
                   + BookingQuery.get_rejected_count db
                   + in_status cancelled db).
  { unfold BookingQuery.get_total_count, BookingQuery.get_pending_count,
      BookingQuery.get_approved_count, BookingQuery.get_rejected_count, in_status.
    rewrite (count_by_status (bookings db) (λ _ _, true)). done. }
  pose proof (sql_count_nonneg (BookingQuery.status_is cancelled) (bookings db)) as Hc.
  split; [exact Hsum|]. split; [exact Hc|]. unfold in_status in *. lia.
Qed.

(** X2: the statistics of a user are a dict with the keys total, pending
    and approved.  Total is the number of the user's bookings, pending and
    approved the numbers of those in that status; the SUM columns, which
    are NULL for a user without bookings, come out as 0.  Pending and
    approved together never exceed total, and the rest is the user's
    rejected and cancelled bookings. *)
Theorem user_stats_reconcile (uid : Z) (db : DB) :
  BookingQuery.get_user_stats uid db
  = {[ "total" := user_total uid db;
       "pending" := user_in_status uid pending db;
       "approved" := user_in_status uid approved db ]}
  ∧ user_total uid db
    = user_in_status uid pending db + user_in_status uid approved db
      + user_in_status uid rejected db + user_in_status uid cancelled db
  ∧ 0 <= user_in_status uid pending db
  ∧ 0 <= user_in_status uid approved db
  ∧ user_in_status uid pending db + user_in_status uid approved db <= user_total uid db
  ∧ ((∀ k b, bookings db !! k = Some b → b_user_id b ≠ uid) →
     BookingQuery.get_user_stats uid db
     = {[ "total" := 0; "pending" := 0; "approved" := 0 ]}).
Proof.
  pose proof (count_by_status (bookings db) (BookingQuery.of_user uid)) as Hsum.
  pose proof (sql_count_nonneg
                (λ k b, BookingQuery.of_user uid k b && bool_decide (b_status b = pending))
                (bookings db)) as Hp.
  pose proof (sql_count_nonneg
                (λ k b, BookingQuery.of_user uid k b && bool_decide (b_status b = approved))
                (bookings db)) as Ha.
  pose proof (sql_count_nonneg
                (λ k b, BookingQuery.of_user uid k b && bool_decide (b_status b = rejected))
                (bookings db)) as Hr.
  pose proof (sql_count_nonneg
                (λ k b, BookingQuery.of_user uid k b && bool_decide (b_status b = cancelled))
                (bookings db)) as Hc.
  split; [apply get_user_stats_counts|].
  split; [exact Hsum|].
  split; [exact Hp|]. split; [exact Ha|].
  split; [unfold user_total, user_in_status; lia|].
  intros Hnone. rewrite get_user_stats_counts.
  assert (Hzero : user_total uid db = 0).
  { unfold user_total. apply sql_count_zero. intros k b Hb.
    unfold BookingQuery.of_user. apply bool_decide_eq_false. by apply (Hnone k b). }
  assert (Hpz : user_in_status uid pending db = 0)
    by (unfold user_total, user_in_status in *; lia).
  assert (Haz : user_in_status uid approved db = 0)
    by (unfold user_total, user_in_status in *; lia).
  by rewrite Hzero, Hpz, Haz.
Qed.

(** Counts after the status of one stored booking is rewritten. *)
Lemma status_rewrite_counts db bid b s :
  bookings db !! bid = Some b →
  let db' := set_bookings (<[ bid := with_status s b ]> (bookings db)) db in
  BookingQuery.get_total_count db' = BookingQuery.get_total_count db
  ∧ (∀ s', in_status s' db'
           = in_status s' db - sql_bool (bool_decide (b_status b = s'))
             + sql_bool (bool_decide (s = s')))
  ∧ (∀ v, user_total v db' = user_total v db)
  ∧ (∀ v s', user_in_status v s' db'
             = user_in_status v s' db
               - sql_bool (bool_decide (b_user_id b = v) && bool_decide (b_status b = s'))
               + sql_bool (bool_decide (b_user_id b = v) && bool_decide (s = s'))).
Proof.
  intros Hb db'. subst db'.
  unfold BookingQuery.get_total_count, in_status, user_total, user_in_status.
  simpl bookings.
  split; [rewrite (sql_count_replace _ _ bid b _ Hb); simpl; lia|].
  split; [intros s'; by rewrite (sql_count_replace _ _ bid b _ Hb)|].
  split; [intros v; rewrite (sql_count_replace _ _ bid b _ Hb);
          unfold BookingQuery.of_user; simpl; lia|].
  intros v s'. by rewrite (sql_count_replace _ _ bid b _ Hb).
Qed.

Lemma store_busy_auto_increment : auto_increment_ok store_busy.
Proof. apply (bool_decide_unpack _). vm_compute. exact I. Qed.

(** X3: a booking created through the route shows in the statistics at
    once: the creator's total and pending go up by one and the approved
    figure stays; the statistics of every other user are unchanged; the
    global total and pending counts go up by one and the approved and
    rejected counts stay. *)
Theorem create_booking_counts {coercion : SqlCoercion}
    (clk : clock) (u : User.t) (form : BookingForm.data) (db : DB) (fid : Z) :
  User.is_staff u = true →
  logged_in u db →
  BookingForm.validate clk form = true →
  sql_int (BookingForm.facility_id form) = Some fid →
  is_Some (facilities db !! fid) →
  auto_increment_ok db →
  ∃ db',
    create_booking clk u form db
    = (Redirect ("Booking request submitted.", "dashboard-success")
                "staff_dashboard", db')
    ∧ BookingQuery.get_user_stats (User.user_id u) db'
      = {[ "total" := user_total (User.user_id u) db + 1;
           "pending" := user_in_status (User.user_id u) pending db + 1;
           "approved" := user_in_status (User.user_id u) approved db ]}
    ∧ (∀ v, v ≠ User.user_id u →
            BookingQuery.get_user_stats v db' = BookingQuery.get_user_stats v db)
    ∧ BookingQuery.get_total_count db' = BookingQuery.get_total_count db + 1
    ∧ BookingQuery.get_pending_count db' = BookingQuery.get_pending_count db + 1
    ∧ BookingQuery.get_approved_count db' = BookingQuery.get_approved_count db
    ∧ BookingQuery.get_rejected_count db' = BookingQuery.get_rejected_count db.
Proof.
  intros Hstaff Hlog Hval Hfid Hf Hai.
  pose proof (logged_in_user u db Hlog) as Hu.
  pose proof (auto_increment_fresh db Hai) as Hfresh.
  destruct (create_booking_valid clk u form db fid Hstaff Hval Hfid Hu Hf Hai)
    as (d & st & et & _ & _ & _ & Hroute).
  eexists. split; [exact Hroute|].
  set (row := Booking.inserted_row clk (User.user_id u) fid d st et
                (BookingForm.purpose form)).
  assert (Hcount : ∀ w, sql_count w (bookings (after_insert db row))
                        = sql_count w (bookings db) + sql_bool (w (next_booking_id db) row)).
  { intros w. simpl. by apply sql_count_insert_fresh. }
  split.
  { rewrite get_user_stats_counts. unfold user_total, user_in_status.
    rewrite !Hcount. unfold BookingQuery.of_user. simpl.
    rewrite bool_decide_eq_true_2 by done. simpl.
    repeat f_equal; lia. }
  split.
  { intros v Hv. rewrite !get_user_stats_counts. unfold user_total, user_in_status.
    rewrite !Hcount. unfold BookingQuery.of_user. simpl.
    rewrite bool_decide_eq_false_2 by done. simpl.
    repeat f_equal; lia. }
  unfold BookingQuery.get_total_count, BookingQuery.get_pending_count,
    BookingQuery.get_approved_count, BookingQuery.get_rejected_count.
  rewrite !Hcount. unfold BookingQuery.status_is. simpl.
  repeat split; lia.
Qed.

Lemma create_booking_counts_witness :
  ∃ db',
    create_booking (coercion := digits_only) noon_15_jan staff_alice form_morning store_busy
    = (Redirect ("Booking request submitted.", "dashboard-success")
                "staff_dashboard", db')
    ∧ BookingQuery.get_user_stats 1 store_busy
      = {[ "total" := 1; "pending" := 0; "approved" := 0 ]}
    ∧ BookingQuery.get_user_stats 1 db'
      = {[ "total" := 2; "pending" := 1; "approved" := 0 ]}.
Proof.
  destruct (create_booking_counts (coercion := digits_only)
              noon_15_jan staff_alice form_morning store_busy 1)
    as (db' & Hroute & Hstats & _);
    [reflexivity|reflexivity|reflexivity|reflexivity|by eexists| |].
  - exact store_busy_auto_increment.
  - exists db'. split; [exact Hroute|]. split; [vm_compute; reflexivity|].
    etrans; [exact Hstats|]. vm_compute. reflexivity.
Defined.

(** X4: when the owner cancels a pending booking, the owner's pending
    figure goes down by one while total and approved stay; the statistics
    of every other user stay; globally the pending count goes down by one
    and the total, approved and rejected counts stay: a cancelled booking
    is still counted in the totals. *)
Theorem cancel_booking_counts (u : User.t) (bid : Z) (db : DB) (b : booking_row) :
  User.is_staff u = true →
  bookings db !! bid = Some b →
  b_user_id b = User.user_id u →
  b_status b = pending →
  ∃ db',
    cancel_booking u bid db
    = (Redirect ("Booking cancelled successfully.", "dashboard-success")
                "my_bookings", db')
    ∧ BookingQuery.get_user_stats (User.user_id u) db'
      = {[ "total" := user_total (User.user_id u) db;
           "pending" := user_in_status (User.user_id u) pending db - 1;
           "approved" := user_in_status (User.user_id u) approved db ]}
    ∧ (∀ v, v ≠ User.user_id u →
            BookingQuery.get_user_stats v db' = BookingQuery.get_user_stats v db)
    ∧ BookingQuery.get_total_count db' = BookingQuery.get_total_count db
    ∧ BookingQuery.get_pending_count db' = BookingQuery.get_pending_count db - 1
    ∧ BookingQuery.get_approved_count db' = BookingQuery.get_approved_count db
    ∧ BookingQuery.get_rejected_count db' = BookingQuery.get_rejected_count db.
Proof.
  intros Hstaff Hb Hu Hs.
  exists (set_bookings (<[ bid := with_status cancelled b ]> (bookings db)) db).
  split.
  { rewrite cancel_booking_route, Hstaff.
    by rewrite (cancel_hit bid (User.user_id u) db b Hb Hu Hs). }
  destruct (status_rewrite_counts db bid b cancelled Hb) as (Ht & Hst & Hut & Hus).
  split.
  { rewrite get_user_stats_counts, Hut, !Hus, Hu, Hs.
    rewrite bool_decide_eq_true_2 by done. simpl. repeat f_equal; lia. }
  split.
  { intros v Hv. rewrite !get_user_stats_counts, Hut, !Hus.
    rewrite (bool_decide_eq_false_2 (b_user_id b = v)) by congruence.
    simpl. repeat f_equal; lia. }
  split; [exact Ht|].
  unfold BookingQuery.get_pending_count, BookingQuery.get_approved_count,
    BookingQuery.get_rejected_count.
  pose proof (Hst pending) as Hp. pose proof (Hst approved) as Ha.
  pose proof (Hst rejected) as Hr. unfold in_status in *.
  rewrite Hs in *. simpl in *. repeat split; lia.
Qed.

Lemma cancel_booking_counts_witness :
  ∃ db',
    cancel_booking staff_alice 7 store_pending
    = (Redirect ("Booking cancelled successfully.", "dashboard-success")
                "my_bookings", db')
    ∧ BookingQuery.get_user_stats 1 store_pending
      = {[ "total" := 1; "pending" := 1; "approved" := 0 ]}
    ∧ BookingQuery.get_user_stats 1 db'
      = {[ "total" := 1; "pending" := 0; "approved" := 0 ]}.
Proof.
  destruct (cancel_booking_counts staff_alice 7 store_pending
              (booking_of staff_alice 1 pending))
    as (db' & Hroute & Hstats & _); try reflexivity.
  exists db'. split; [exact Hroute|]. split; [vm_compute; reflexivity|].
  etrans; [exact Hstats|]. vm_compute. reflexivity.
Defined.

(** X5: an administrator's approve or reject moves the booking from the
    count of its old status to the count of the new one, whatever the old
    status was, and leaves the total as it is.  So approving a cancelled or
    rejected booking raises the approved count again, and approving an
    approved one changes no count. *)
Theorem admin_transition_counts (u : User.t) (bid : Z) (db : DB) (b : booking_row) :
  User.is_admin u = true →
  bookings db !! bid = Some b →
  ∃ db1 db2,
    approve_booking u bid db
    = (Redirect ("Booking approved.", "dashboard-success") "pending_bookings", db1)
    ∧ reject_booking u bid db
      = (Redirect ("Booking rejected.", "dashboard-success") "pending_bookings", db2)
    ∧ BookingQuery.get_total_count db1 = BookingQuery.get_total_count db
    ∧ BookingQuery.get_total_count db2 = BookingQuery.get_total_count db
    ∧ (∀ s, in_status s db1
            = in_status s db - sql_bool (bool_decide (b_status b = s))
              + sql_bool (bool_decide (approved = s)))
    ∧ (∀ s, in_status s db2
            = in_status s db - sql_bool (bool_decide (b_status b = s))
              + sql_bool (bool_decide (rejected = s)))
    ∧ (b_status b ≠ approved →
       BookingQuery.get_approved_count db1 = BookingQuery.get_approved_count db + 1)
    ∧ (b_status b = approved → ∀ s, in_status s db1 = in_status s db).
Proof.
  intros Hadmin Hb.
  exists (set_bookings (<[ bid := with_status approved b ]> (bookings db)) db),
         (set_bookings (<[ bid := with_status rejected b ]> (bookings db)) db).
  destruct (status_rewrite_counts db bid b approved Hb) as (Ht1 & Hs1 & _ & _).
  destruct (status_rewrite_counts db bid b rejected Hb) as (Ht2 & Hs2 & _ & _).
  split; [unfold approve_booking; by rewrite Hadmin, (update_status_hit _ _ _ b Hb)|].
  split; [unfold reject_booking; by rewrite Hadmin, (update_status_hit _ _ _ b Hb)|].
  split; [exact Ht1|]. split; [exact Ht2|].
  split; [exact Hs1|]. split; [exact Hs2|].
  split.
  - intros Hne. pose proof (Hs1 approved) as Ha.
    unfold BookingQuery.get_approved_count, in_status in *.
    rewrite (bool_decide_eq_false_2 (b_status b = approved)) in Ha by done.
    rewrite bool_decide_eq_true_2 in Ha by done. unfold sql_bool in Ha. lia.
  - intros Heq s. rewrite Hs1, Heq. lia.
Qed.

Lemma admin_transition_counts_witness :
  ∃ db1,
    approve_booking admin_carol 5 store_busy
    = (Redirect ("Booking approved.", "dashboard-success") "pending_bookings", db1)
    ∧ b_status <$> bookings store_busy !! 5 = Some cancelled
    ∧ BookingQuery.get_approved_count store_busy = 1
    ∧ BookingQuery.get_approved_count db1 = 2
    ∧ BookingQuery.get_total_count db1 = 3.
Proof.
  destruct (admin_transition_counts admin_carol 5 store_busy
              (booking_of staff_alice 1 cancelled))
    as (db1 & _ & Hroute & _ & Htotal & _ & _ & _ & Happroved & _);
    [reflexivity|reflexivity|].
  exists db1. split; [exact Hroute|]. split; [reflexivity|].
  split; [vm_compute; reflexivity|].
  split.
  - rewrite Happroved by discriminate. vm_compute. reflexivity.
  - rewrite Htotal. vm_compute. reflexivity.
Defined.

Lemma sql_count_filter {R : Type} (w : Z → R → bool) (p : Z → R → bool) (t : gmap Z R) :
  sql_count w (filter (λ kr, p kr.1 kr.2 = true) t)
  = sql_count (λ k r, w k r && p k r) t.
Proof.
  unfold sql_count. do 2 f_equal. rewrite map_filter_filter.
  apply map_filter_ext. intros k r Hk. simpl. rewrite andb_true_iff. tauto.
Qed.

Lemma sql_count_split {R : Type} (w p : Z → R → bool) (t : gmap Z R) :
  sql_count w t
  = sql_count (λ k r, w k r && p k r) t + sql_count (λ k r, w k r && negb (p k r)) t.
Proof.
  induction t as [|k r t Hk IH] using map_ind.
  - by rewrite !sql_count_empty.
  - rewrite !sql_count_insert_fresh by done. rewrite IH.
    destruct (w k r), (p k r); simpl; lia.
Qed.

(** Counts of bookings after facility [fid] is deleted with its bookings. *)
Lemma after_delete_count fid db (w : Z → booking_row → bool) :
  sql_count w (bookings (after_delete db fid))
  = sql_count w (bookings db)
    - sql_count (λ k b, w k b && bool_decide (b_facility_id b = fid)) (bookings db).
Proof.
  rewrite (sql_count_split w (λ _ b, bool_decide (b_facility_id b = fid)) (bookings db)).
  unfold after_delete. simpl bookings.
  assert (Hkeep : filter (λ kr : Z * booking_row, b_facility_id kr.2 ≠ fid) (bookings db)
                  = filter (λ kr : Z * booking_row,
                              negb (bool_decide (b_facility_id kr.2 = fid)) = true)
                           (bookings db)).
  { apply map_filter_ext. intros k b Hb. simpl.
    rewrite negb_true_iff, bool_decide_eq_false. done. }
  rewrite Hkeep.
  pose proof (sql_count_filter w (λ _ b, negb (bool_decide (b_facility_id b = fid)))
                (bookings db)) as Hkept.
  cbv beta in Hkept. rewrite Hkept. lia.
Qed.

(** X6: a permitted facility deletion never changes the pending and
    approved counts, neither the global ones nor those of any user: what
    the cascade removes is rejected or cancelled.  The total goes down by
    the number of bookings that referenced the facility, and the count of
    active facilities goes down by one exactly when the facility was
    active. *)
Theorem delete_facility_counts
    (u : User.t) (fid : Z) (db : DB) (f : facility_row) :
  User.is_admin u = true →
  facilities db !! fid = Some f →
  Facility.has_active_bookings fid db = false →
  ∃ db',
    delete_facility u fid db
    = (Redirect ("Facility deleted successfully.", "dashboard-success")
                "facilities_list", db')
    ∧ BookingQuery.get_pending_count db' = BookingQuery.get_pending_count db
    ∧ BookingQuery.get_approved_count db' = BookingQuery.get_approved_count db
    ∧ (∀ v, user_in_status v pending db' = user_in_status v pending db
            ∧ user_in_status v approved db' = user_in_status v approved db)
    ∧ BookingQuery.get_total_count db'
      = BookingQuery.get_total_count db
        - sql_count (λ _ b, bool_decide (b_facility_id b = fid)) (bookings db)
    ∧ get_active_count db'
      = get_active_count db - sql_bool (bool_decide (f_status f = active)).
Proof.
  intros Hadmin Hf Hnone. exists (after_delete db fid).
  split.
  { unfold delete_facility, Facility.get_by_id.
    rewrite Hadmin, Hf. cbn [negb]. by rewrite Hnone, (delete_existing fid db f Hf). }
  pose proof (proj1 (has_active_bookings_false fid db) Hnone) as Hinactive.
  assert (Hzero : ∀ (w : Z → booking_row → bool) s,
            s = pending ∨ s = approved →
            sql_count (λ k b, (w k b && bool_decide (b_status b = s))
                              && bool_decide (b_facility_id b = fid)) (bookings db) = 0).
  { intros w s Hs. apply sql_count_zero. intros k b Hb.
    apply not_true_is_false. rewrite !andb_true_iff, !bool_decide_eq_true.
    intros [[_ Hst] Hfid]. apply (Hinactive k b Hb). split; [done|].
    destruct Hs as [->| ->]; auto. }
  split.
  { unfold BookingQuery.get_pending_count. rewrite after_delete_count.
    pose proof (Hzero (λ _ _, true) pending (or_introl eq_refl)) as Hz.
    unfold BookingQuery.status_is. simpl in Hz. rewrite Hz. lia. }
  split.
  { unfold BookingQuery.get_approved_count. rewrite after_delete_count.
    pose proof (Hzero (λ _ _, true) approved (or_intror eq_refl)) as Hz.
    unfold BookingQuery.status_is. simpl in Hz. rewrite Hz. lia. }
  split.
  { intros v. unfold user_in_status. rewrite !after_delete_count.
    rewrite (Hzero (BookingQuery.of_user v) pending (or_introl eq_refl)).
    rewrite (Hzero (BookingQuery.of_user v) approved (or_intror eq_refl)). lia. }
  split.
  { unfold BookingQuery.get_total_count. by rewrite after_delete_count. }
  unfold get_active_count, after_delete. simpl facilities.
  by rewrite (sql_count_delete _ _ fid f Hf).
Qed.

Lemma delete_facility_counts_witness :
  ∃ db',
    delete_facility admin_carol 1 store_busy
    = (Redirect ("Facility deleted successfully.", "dashboard-success")
                "facilities_list", db')
    ∧ BookingQuery.get_total_count store_busy = 3
    ∧ BookingQuery.get_total_count db' = 1
    ∧ BookingQuery.get_approved_count db' = 1
    ∧ get_active_count db' = 1.
Proof.
  destruct (delete_facility_counts admin_carol 1 store_busy room_a)
    as (db' & Hroute & _ & Happroved & _ & Htotal & Hactive);
    [reflexivity|reflexivity|reflexivity|].
  exists db'. split; [exact Hroute|]. split; [vm_compute; reflexivity|].
  split; [rewrite Htotal; vm_compute; reflexivity|].
  split; [rewrite Happroved; vm_compute; reflexivity|].
  rewrite Hactive. vm_compute. reflexivity.
Defined.

(* ===================================================================== *)
(** * The other execute_query                                             *)
(* ===================================================================== *)

(** X7: run through [database.execute_query], the insert of a booking
    returns the identifier of the new row (the cursor's [lastrowid]) where
    [Booking.create], which goes through [models.execute_query], returns
    the row count 1; both leave the same store.  An insert that the server
    refuses returns [None] with the store unchanged instead of raising, and
    so does any statement when there is no connection. *)
Theorem database_execute_query_insert {coercion : SqlCoercion}
    (clk : clock) (uid : Z) (text : string) (fid : Z)
    (d : date) (st et : time) (purpose : string) (db : DB) :
  sql_int text = Some fid →
  is_Some (users db !! uid) →
  auto_increment_ok db →
  0 < next_booking_id db →
  let query := Booking.create_statement clk uid text (Some d) (Some st) (Some et) purpose in
  (is_Some (facilities db !! fid) →
   ∃ db',
     Database.execute_query true query db = (Database.PyInt (next_booking_id db), db')
     ∧ Booking.create clk uid text (Some d) (Some st) (Some et) purpose db = inr (1, db')
     ∧ bookings db' !! next_booking_id db
       = Some (Booking.inserted_row clk uid fid d st et purpose))
  ∧ (facilities db !! fid = None →
     Database.execute_query true query db = (Database.PyNone, db)
     ∧ Booking.create clk uid text (Some d) (Some st) (Some et) purpose db
       = inl IntegrityError)
  ∧ Database.execute_query false query db = (Database.PyNone, db).
Proof.
  intros Hfid Hu Hai Hpos query. subst query.
  pose proof (auto_increment_fresh db Hai) as Hfresh.
  split; [|split; [|done]].
  - intros Hf. eexists. split; [|split].
    + unfold Database.execute_query, Booking.create_statement. cbn [negb].
      rewrite Hfid. rewrite decide_True by done. cbn [lastrowid].
      destruct (Z.eqb_spec (next_booking_id db) 0); [lia|reflexivity].
    + by apply create_inserts.
    + simpl. apply lookup_insert_eq.
  - intros Hf. split; [|by apply (create_refused clk uid text fid)].
    unfold Database.execute_query, Booking.create_statement. cbn [negb].
    rewrite Hfid. rewrite decide_False; [done|].
    intros (_ & [f Hsome] & _). congruence.
Qed.

Lemma database_execute_query_insert_witness :
  ∃ db',
    Database.execute_query true
      (Booking.create_statement (coercion := digits_only) noon_15_jan 1 "1"
         (Some (mk_date 2026 1 16)) (Some (mk_time 9 0)) (Some (mk_time 10 30))
         "Planning") store_7
    = (Database.PyInt 7, db')
    ∧ Booking.create (coercion := digits_only) noon_15_jan 1 "1"
        (Some (mk_date 2026 1 16)) (Some (mk_time 9 0)) (Some (mk_time 10 30))
        "Planning" store_7
      = inr (1, db').
Proof.
  destruct (database_execute_query_insert (coercion := digits_only)
              noon_15_jan 1 "1" 1 (mk_date 2026 1 16) (mk_time 9 0) (mk_time 10 30)
              "Planning" store_7) as [Hins _];
    [reflexivity|by eexists|exact store_7_auto_increment|reflexivity|].
  destruct Hins as (db' & Hdb & Hmodel & _); [by eexists|].
  exists db'. split; [exact Hdb|exact Hmodel].
Defined.

(* ===================================================================== *)
(** * The times a Booking object shows                                    *)
(* ===================================================================== *)

Lemma all_times_complete t : time_valid t → t ∈ all_times.
Proof.
  intros [Hh Hm]. destruct t as [h m]. cbn [hour minute] in Hh, Hm.
  unfold all_times. apply list_elem_of_bind. exists h. split; [|apply elem_of_seqZ; lia].
  apply list_elem_of_bind. exists m. split; [|apply elem_of_seqZ; lia].
  by apply list_elem_of_singleton.
Qed.

Lemma read_hhmm_all_times :
  forallb (λ t, bool_decide (read_hhmm (_format_time (TimeOfDay t)) = Some t)) all_times
  = true.
Proof. vm_compute. reflexivity. Qed.

Lemma format_length_all_times :
  forallb (λ t, (String.length (_format_time (TimeOfDay t)) =? 5)%nat) all_times = true.
Proof. vm_compute. reflexivity. Qed.

(** Reading the formatted text gives the time back. *)
Lemma read_hhmm_format t :
  time_valid t → read_hhmm (_format_time (TimeOfDay t)) = Some t.
Proof.
  intros Hv. pose proof read_hhmm_all_times as Hall.
  rewrite forallb_forall in Hall.
  specialize (Hall t). rewrite <- list_elem_of_In in Hall.
  specialize (Hall (all_times_complete t Hv)). by apply bool_decide_eq_true in Hall.
Qed.

(** X8: the two shapes a TIME value can have format alike: the connector's
    [timedelta] for a time of day (with any seconds below the minute, which
    are cut off) gives the same text as [strftime("%H:%M")] on the time. *)
Theorem format_time_timedelta (t : time) (extra : Z) :
  time_valid t →
  0 <= extra < 60 →
  _format_time (Timedelta (seconds_since_midnight t + extra))
  = _format_time (TimeOfDay t).
Proof.
  intros [Hh Hm] He. unfold _format_time, seconds_since_midnight. cbv zeta.
  assert (Hhour : (3600 * hour t + 60 * minute t + extra) / 3600 = hour t).
  { symmetry. apply (Z.div_unique _ _ _ (60 * minute t + extra)); lia. }
  assert (Hrest : (3600 * hour t + 60 * minute t + extra) mod 3600
                  = 60 * minute t + extra).
  { symmetry. apply (Z.mod_unique _ _ (hour t)); lia. }
  assert (Hmin : (60 * minute t + extra) / 60 = minute t).
  { symmetry. apply (Z.div_unique _ _ _ extra); lia. }
  by rewrite Hhour, Hrest, Hmin.
Qed.

Lemma format_time_timedelta_witness :
  _format_time (Timedelta 34259) = "09:30"
  ∧ _format_time (TimeOfDay (mk_time 9 30)) = "09:30".
Proof.
  assert (Hsame : _format_time (Timedelta (seconds_since_midnight (mk_time 9 30) + 59))
                  = _format_time (TimeOfDay (mk_time 9 30))).
  { apply format_time_timedelta; [unfold time_valid; simpl; lia|lia]. }
  split; [etrans; [exact Hsame|]|]; vm_compute; reflexivity.
Defined.

(** X9: the text shown for a time of day is five characters long and tells
    the time: two different times of day never format to the same text. *)
Theorem format_time_injective (t1 t2 : time) :
  time_valid t1 →
  time_valid t2 →
  String.length (_format_time (TimeOfDay t1)) = 5%nat
  ∧ (_format_time (TimeOfDay t1) = _format_time (TimeOfDay t2) → t1 = t2).
Proof.
  intros Hv1 Hv2. pose proof (read_hhmm_format t1 Hv1) as Hr1. split.
  - pose proof format_length_all_times as Hall.
    rewrite forallb_forall in Hall.
    specialize (Hall t1). rewrite <- list_elem_of_In in Hall.
    specialize (Hall (all_times_complete t1 Hv1)). by apply Nat.eqb_eq in Hall.
  - intros Heq. pose proof (read_hhmm_format t2 Hv2) as Hr2.
    rewrite Heq in Hr1. congruence.
Qed.

Lemma format_time_injective_witness :
  String.length (_format_time (TimeOfDay (mk_time 9 5))) = 5%nat
  ∧ _format_time (TimeOfDay (mk_time 9 5)) ≠ _format_time (TimeOfDay (mk_time 9 50)).
Proof.
  destruct (format_time_injective (mk_time 9 5) (mk_time 9 50)) as [Hlen Hinj];
    [unfold time_valid; simpl; lia|unfold time_valid; simpl; lia|].
  split; [exact Hlen|]. intros Heq. apply Hinj in Heq. discriminate Heq.
Defined.

(* ===================================================================== *)
(** * The lists of bookings                                               *)
(* ===================================================================== *)

Lemma timestamp_leb_total a b : timestamp_leb a b = true ∨ timestamp_leb b a = true.
Proof.
  destruct a as [[y1 m1 d1] [h1 n1]], b as [[y2 m2 d2] [h2 n2]].
  unfold timestamp_leb, date_ltb, time_leb. simpl. lia.
Qed.

Lemma timestamp_leb_trans a b c :
  timestamp_leb a b = true → timestamp_leb b c = true → timestamp_leb a c = true.
Proof.
  destruct a as [[y1 m1 d1] [h1 n1]], b as [[y2 m2 d2] [h2 n2]],
           c as [[y3 m3 d3] [h3 n3]].
  unfold timestamp_leb, date_ltb, time_leb. simpl. lia.
Qed.

#[global] Instance newest_first_total : Total BookingList.newest_first.
Proof. intros x y. unfold BookingList.newest_first. apply timestamp_leb_total. Qed.
#[global] Instance newest_first_trans : Transitive BookingList.newest_first.
Proof.
  intros x y z Hxy Hyz. unfold BookingList.newest_first in *.
  by apply (timestamp_leb_trans _ _ _ Hyz Hxy).
Qed.
#[global] Instance soonest_first_total : Total BookingList.soonest_first.
Proof. intros x y. unfold BookingList.soonest_first. apply timestamp_leb_total. Qed.
#[global] Instance soonest_first_trans : Transitive BookingList.soonest_first.
Proof.
  intros x y z Hxy Hyz. unfold BookingList.soonest_first in *.
  by apply (timestamp_leb_trans _ _ _ Hxy Hyz).
Qed.

(** The rows a join yields are the stored bookings whose references
    resolve. *)
Lemma elem_of_join_facilities db j :
  j ∈ omap (BookingList.join_facilities db) (map_to_list (bookings db))
  ↔ bookings db !! j_id j = Some (j_row j)
    ∧ j_user_name j = None
    ∧ ∃ f, facilities db !! b_facility_id (j_row j) = Some f
           ∧ j_facility_name j = Some (f_name f).
Proof.
  rewrite list_elem_of_omap. unfold BookingList.join_facilities. split.
  - intros ([k b] & Hin & Hj). apply elem_of_map_to_list in Hin. simpl in Hj.
    destruct (facilities db !! b_facility_id b) as [f|] eqn:Hf; [|done].
    simpl in Hj. injection Hj as <-. simpl. eauto.
  - intros (Hb & Hu & f & Hf & Hn). exists (j_id j, j_row j).
    split; [by apply elem_of_map_to_list|]. simpl. rewrite Hf. simpl.
    destruct j as [k b un fn]. simpl in *. by subst.
Qed.

Lemma elem_of_join_users_facilities db j :
  j ∈ omap (BookingList.join_users_facilities db) (map_to_list (bookings db))
  ↔ bookings db !! j_id j = Some (j_row j)
    ∧ (∃ u, users db !! b_user_id (j_row j) = Some u
            ∧ j_user_name j = Some (u_name u))
    ∧ ∃ f, facilities db !! b_facility_id (j_row j) = Some f
           ∧ j_facility_name j = Some (f_name f).
Proof.
  rewrite list_elem_of_omap. unfold BookingList.join_users_facilities. split.
  - intros ([k b] & Hin & Hj). apply elem_of_map_to_list in Hin. simpl in Hj.
    destruct (users db !! b_user_id b) as [u|] eqn:Hu; [|done].
    destruct (facilities db !! b_facility_id b) as [f|] eqn:Hf; [|done].
    simpl in Hj. injection Hj as <-. simpl. eauto 10.
  - intros (Hb & (u & Hu & Hun) & f & Hf & Hn). exists (j_id j, j_row j).
    split; [by apply elem_of_map_to_list|]. simpl. rewrite Hu, Hf. simpl.
    destruct j as [k b un fn]. simpl in *. by subst.
Qed.

(** Counting the selected rows of a table through its list of rows. *)
Lemma length_filter_map_to_list {R : Type} (w : Z → R → bool) (t : gmap Z R) :
  Z.of_nat (length (filter (λ kr : Z * R, w kr.1 kr.2 = true) (map_to_list t)))
  = sql_count w t.
Proof.
  induction t as [|k r t Hk IH] using map_ind.
  - by rewrite map_to_list_empty, sql_count_empty.
  - rewrite sql_count_insert_fresh by done. rewrite <- IH.
    rewrite (map_to_list_insert t k r Hk). rewrite filter_cons.
    case_decide as Hw; simpl in Hw.
    + rewrite Hw. simpl. lia.
    + apply not_true_is_false in Hw. rewrite Hw. simpl. lia.
Qed.

(** A join that never fails keeps the number of selected rows. *)
Lemma length_filter_omap {A B : Type} (f : A → option B)
    (P : A → Prop) (Q : B → Prop) `{∀ x, Decision (P x)} `{∀ y, Decision (Q y)}
    (l : list A) :
  (∀ x, x ∈ l → is_Some (f x)) →
  (∀ x y, f x = Some y → (Q y ↔ P x)) →
  length (filter Q (omap f l)) = length (filter P l).
Proof.
  intros Hsome Hiff. induction l as [|x l IH]; [done|].
  destruct (Hsome x) as [y Hy]; [by left|].
  assert (IH' : length (filter Q (omap f l)) = length (filter P l)).
  { apply IH. intros z Hz. apply Hsome. by right. }
  change (omap f (x :: l))
    with (match f x with Some y => y :: omap f l | None => omap f l end).
  rewrite Hy. rewrite !filter_cons.
  destruct (decide (Q y)) as [HQ|HQ], (decide (P x)) as [HP|HP].
  - cbn [length]. by rewrite IH'.
  - exfalso. apply HP. by apply (Hiff x y Hy).
  - exfalso. apply HQ. by apply (Hiff x y Hy).
  - exact IH'.
Qed.

Lemma list_filter_all {A : Type} (P : A → Prop) `{∀ x, Decision (P x)} (l : list A) :
  (∀ x, P x) → filter P l = l.
Proof.
  intros Hall. induction l as [|x l IH]; [done|].
  rewrite filter_cons, decide_True by done. by rewrite IH.
Qed.

(** [ORDER BY ... LIMIT n]: the first [n] rows of the sorted selection. *)
Lemma take_sorted {A : Type} (R : relation A)
    `{!RelDecision R, !Total R, !Transitive R} (n : nat) (l : list A) :
  (length (take n (merge_sort R l)) ≤ n)%nat
  ∧ (∀ x, x ∈ take n (merge_sort R l) → x ∈ l)
  ∧ StronglySorted R (take n (merge_sort R l))
  ∧ (∀ x, x ∈ l →
          x ∈ take n (merge_sort R l)
          ∨ (length (take n (merge_sort R l)) = n
             ∧ ∀ y, y ∈ take n (merge_sort R l) → R y x)).
Proof.
  pose proof (merge_sort_Permutation R l) as Hperm.
  pose proof (StronglySorted_merge_sort R l) as Hsorted.
  rewrite <- (take_drop n (merge_sort R l)) in Hsorted.
  split; [rewrite length_take; lia|].
  split.
  { intros x Hx. rewrite <- Hperm. by apply (subseteq_take n). }
  split; [by apply (StronglySorted_app_1_l R _ _ Hsorted)|].
  intros x Hx. rewrite <- Hperm in Hx.
  rewrite <- (take_drop n (merge_sort R l)) in Hx.
  apply elem_of_app in Hx as [Hx|Hx]; [by left|]. right. split.
  - apply length_take_le.
    destruct (decide (n ≤ length (merge_sort R l))%nat) as [|Hgt]; [done|].
    rewrite drop_ge in Hx by lia. by apply not_elem_of_nil in Hx.
  - intros y Hy. by apply (StronglySorted_app_1_elem_of R _ _ y x Hsorted).
Qed.

Lemma elem_of_get_all_rows s db j :
  j ∈ BookingList.get_all_rows (Some s) db
  ↔ j ∈ omap (BookingList.join_users_facilities db) (map_to_list (bookings db))
    ∧ b_status (j_row j) = s.
Proof.
  unfold BookingList.get_all_rows. cbv zeta.
  rewrite merge_sort_Permutation, list_elem_of_filter. tauto.
Qed.

(** X10: with the foreign keys resolved, the administrator's list of
    bookings in a status has as many rows as the count of that status, and
    the unfiltered list as many as the total count; every row listed for a
    status is a stored booking in that status.  The pending page therefore
    shows exactly as many bookings as the dashboard's pending count. *)
Theorem get_all_matches_counts (u : User.t) (db : DB) (s : booking_status) :
  foreign_keys_ok db →
  Z.of_nat (length (BookingList.get_all (Some s) db)) = in_status s db
  ∧ Z.of_nat (length (BookingList.get_all None db)) = BookingQuery.get_total_count db
  ∧ (∀ v, v ∈ BookingList.get_all (Some s) db →
          BookingView.status v = s
          ∧ ∃ b, bookings db !! BookingView.booking_id v = Some b ∧ b_status b = s)
  ∧ (User.is_admin u = true →
     ∃ shown,
       pending_bookings u db = Rendered "pending_bookings.html" None shown "bookings"
       ∧ Z.of_nat (length shown) = BookingQuery.get_pending_count db).
Proof.
  intros Hfk.
  assert (Hjoin : ∀ kb, kb ∈ map_to_list (bookings db) →
                        is_Some (BookingList.join_users_facilities db kb)).
  { intros [k b] Hin. apply elem_of_map_to_list in Hin.
    destruct (Hfk k b Hin) as [[usr Hu] [f Hf]].
    unfold BookingList.join_users_facilities. simpl. rewrite Hu, Hf. by eexists. }
  assert (Hlen : ∀ s', Z.of_nat (length (BookingList.get_all (Some s') db))
                       = in_status s' db).
  { intros s'. unfold BookingList.get_all, BookingList.get_all_rows. cbv zeta.
    rewrite length_fmap, merge_sort_Permutation.
    rewrite (length_filter_omap _
               (λ kb : Z * booking_row, BookingQuery.status_is s' kb.1 kb.2 = true)
               _ _ Hjoin).
    - apply length_filter_map_to_list.
    - intros [k b] j Hj. unfold BookingList.join_users_facilities in Hj. simpl in Hj.
      destruct (users db !! b_user_id b); [|done].
      destruct (facilities db !! b_facility_id b); [|done].
      simpl in Hj. injection Hj as <-. simpl.
      unfold BookingQuery.status_is. by rewrite bool_decide_eq_true. }
  split; [apply Hlen|].
  split.
  { unfold BookingList.get_all, BookingList.get_all_rows,
      BookingQuery.get_total_count. cbv zeta.
    rewrite length_fmap, merge_sort_Permutation.
    rewrite <- (list_filter_all (λ _ : joined, True)
                  (omap (BookingList.join_users_facilities db)
                        (map_to_list (bookings db)))) by done.
    rewrite (length_filter_omap _
               (λ kb : Z * booking_row, (λ _ _, true) kb.1 kb.2 = true) _ _ Hjoin).
    - apply (length_filter_map_to_list (λ _ _, true)).
    - intros; tauto. }
  split.
  { intros v Hv. unfold BookingList.get_all in Hv.
    apply list_elem_of_fmap in Hv as (j & -> & Hj).
    apply elem_of_get_all_rows in Hj as [Hj Hs].
    apply elem_of_join_users_facilities in Hj as (Hb & _).
    simpl. split; [done|]. by exists (j_row j). }
  intros Hadmin. eexists. split.
  - unfold pending_bookings. by rewrite Hadmin.
  - apply (Hlen pending).
Qed.

Lemma store_busy_foreign_keys : foreign_keys_ok store_busy.
Proof. apply (bool_decide_unpack _). vm_compute. exact I. Qed.

Lemma get_all_matches_counts_witness :
  Z.of_nat (length (BookingList.get_all (Some approved) store_busy)) = 1
  ∧ Z.of_nat (length (BookingList.get_all None store_busy)) = 3.
Proof.
  destruct (get_all_matches_counts admin_carol store_busy approved
              store_busy_foreign_keys) as (Hone & Hall & _).
  split.
  - rewrite Hone. vm_compute. reflexivity.
  - rewrite Hall. vm_compute. reflexivity.
Defined.

(** Every row of the upcoming list is a stored booking that is pending or
    approved. *)
Lemma upcoming_rows_active clk uid limit db j :
  j ∈ BookingList.get_upcoming_by_user_rows clk uid limit db →
  bookings db !! j_id j = Some (j_row j)
  ∧ (b_status (j_row j) = pending ∨ b_status (j_row j) = approved).
Proof.
  unfold BookingList.get_upcoming_by_user_rows. intros Hj.
  apply (subseteq_take limit) in Hj. rewrite merge_sort_Permutation in Hj.
  apply list_elem_of_filter in Hj as [(_ & _ & Hs) Hj].
  by apply elem_of_join_facilities in Hj as (Hb & _).
Qed.

(** X11: the upcoming bookings of a user are at most [limit] rows; each is
    a stored booking of that user, dated today or later, pending or
    approved; they come soonest first (by date, then start time); and a
    booking of the user that qualifies but is left out is not sooner than
    any row shown, the list being full.  The staff dashboard shows this
    list with a limit of five. *)
Theorem upcoming_bookings_listed
    (clk : clock) (u : User.t) (limit : nat) (db : DB) :
  let rows := BookingList.get_upcoming_by_user_rows clk (User.user_id u) limit db in
  (length (BookingList.get_upcoming_by_user clk (User.user_id u) limit db) ≤ limit)%nat
  ∧ (∀ j, j ∈ rows →
          bookings db !! j_id j = Some (j_row j)
          ∧ b_user_id (j_row j) = User.user_id u
          ∧ date_ltb (b_booking_date (j_row j)) (today clk) = false
          ∧ (b_status (j_row j) = pending ∨ b_status (j_row j) = approved))
  ∧ StronglySorted BookingList.soonest_first rows
  ∧ (∀ k b f,
       bookings db !! k = Some b →
       facilities db !! b_facility_id b = Some f →
       b_user_id b = User.user_id u →
       date_ltb (b_booking_date b) (today clk) = false →
       b_status b = pending ∨ b_status b = approved →
       let j := {| j_id := k; j_row := b; j_user_name := None;
                   j_facility_name := Some (f_name f) |} in
       j ∈ rows ∨ (length rows = limit ∧ ∀ y, y ∈ rows → BookingList.soonest_first y j))
  ∧ (User.is_staff u = true →
     staff_dashboard clk u db
     = Rendered "dashboard_staff.html"
         (Some (BookingQuery.get_user_stats (User.user_id u) db))
         (BookingView.of_joined
            <$> BookingList.get_upcoming_by_user_rows clk (User.user_id u) 5 db)
         "dashboard").
Proof.
  intros rows. subst rows.
  unfold BookingList.get_upcoming_by_user, BookingList.get_upcoming_by_user_rows.
  set (selected := filter (BookingList.upcoming clk (User.user_id u))
                     (omap (BookingList.join_facilities db) (map_to_list (bookings db)))).
  destruct (take_sorted BookingList.soonest_first limit selected)
    as (Hlen & Hsub & Hsorted & Hfull).
  split; [by rewrite length_fmap|].
  split.
  { intros j Hj. apply Hsub in Hj. unfold selected in Hj.
    apply list_elem_of_filter in Hj as [(Hu & Hd & Hs) Hj].
    apply elem_of_join_facilities in Hj as (Hb & _). done. }
  split; [exact Hsorted|].
  split.
  { intros k b f Hb Hf Hu Hd Hs. cbv zeta. apply Hfull. unfold selected.
    apply list_elem_of_filter. split; [done|].
    apply elem_of_join_facilities. simpl. eauto. }
  intros Hstaff. unfold staff_dashboard. by rewrite Hstaff.
Qed.

Lemma upcoming_bookings_listed_witness :
  staff_dashboard noon_15_jan staff_bob store_busy
  = Rendered "dashboard_staff.html"
      (Some {[ "total" := 2; "pending" := 0; "approved" := 1 ]})
      [ BookingView.of_joined
          {| j_id := 4; j_row := booking_of staff_bob 2 approved;
             j_user_name := None; j_facility_name := Some "Conference Room A" |} ]
      "dashboard".
Proof.
  destruct (upcoming_bookings_listed noon_15_jan staff_bob 5 store_busy)
    as (_ & _ & _ & _ & Hpage).
  rewrite Hpage by reflexivity. vm_compute. reflexivity.
Defined.





Lemma elem_of_get_all s db v :
  v ∈ BookingList.get_all (Some s) db
  ↔ ∃ j, v = BookingView.of_joined j
         ∧ j ∈ omap (BookingList.join_users_facilities db) (map_to_list (bookings db))
         ∧ b_status (j_row j) = s.
Proof.
  unfold BookingList.get_all. rewrite list_elem_of_fmap.
  split; intros (j & Hv & Hj); exists j; (split; [done|]);
    by apply elem_of_get_all_rows.
Qed.

(** The list of a status after one stored booking gets another status. *)
Lemma get_all_after_status_change db bid b s s' v :
  bookings db !! bid = Some b →
  s' ≠ s →
  v ∈ BookingList.get_all (Some s)
        (set_bookings (<[ bid := with_status s' b ]> (bookings db)) db)
  ↔ v ∈ BookingList.get_all (Some s) db ∧ BookingView.booking_id v ≠ bid.
Proof.
  intros Hb Hne. rewrite !elem_of_get_all. split.
  - intros (j & -> & Hj & Hs).
    apply elem_of_join_users_facilities in Hj as (Hrow & Hu & Hf). simpl in *.
    destruct (decide (j_id j = bid)) as [Heq|Hid].
    + rewrite Heq, lookup_insert_eq in Hrow. injection Hrow as Hrow.
      rewrite <- Hrow in Hs. simpl in Hs. congruence.
    + rewrite lookup_insert_ne in Hrow by done. split; [|done].
      exists j. split; [done|]. split; [|done].
      by apply elem_of_join_users_facilities.
  - intros [(j & -> & Hj & Hs) Hid]. simpl in Hid.
    apply elem_of_join_users_facilities in Hj as (Hrow & Hu & Hf).
    exists j. split; [done|]. split; [|done].
    apply elem_of_join_users_facilities. simpl.
    rewrite lookup_insert_ne by done. done.
Qed.

(** X13: once an administrator approves or rejects a stored booking, the
    pending page no longer lists it and lists every other booking exactly
    as before. *)
Theorem decided_booking_leaves_pending_page
    (u : User.t) (bid : Z) (db : DB) (b : booking_row) (v : BookingView.t) :
  User.is_admin u = true →
  bookings db !! bid = Some b →
  (v ∈ BookingList.get_all (Some pending) (approve_booking u bid db).2
   ↔ v ∈ BookingList.get_all (Some pending) db ∧ BookingView.booking_id v ≠ bid)
  ∧ (v ∈ BookingList.get_all (Some pending) (reject_booking u bid db).2
     ↔ v ∈ BookingList.get_all (Some pending) db ∧ BookingView.booking_id v ≠ bid).
Proof.
  intros Hadmin Hb. unfold approve_booking, reject_booking.
  rewrite Hadmin. cbn [negb].
  rewrite !(update_status_hit _ _ _ b Hb). cbn [snd].
  split; by apply get_all_after_status_change.
Qed.

Lemma decided_booking_leaves_pending_page_witness :
  length (BookingList.get_all (Some pending) store_pending) = 1%nat
  ∧ ∀ v, v ∈ BookingList.get_all (Some pending) (approve_booking admin_carol 7 store_pending).2
         → BookingView.booking_id v ≠ 7.
Proof.
  split; [vm_compute; reflexivity|].
  intros v Hv.
  destruct (decided_booking_leaves_pending_page admin_carol 7 store_pending
              (booking_of staff_alice 1 pending) v) as [Happrove _];
    [reflexivity|reflexivity|].
  by apply Happrove in Hv as [_ Hid].
Defined.

(** X14: once the owner cancels a pending booking, it is gone from the
    owner's upcoming bookings, whatever the limit, and from the
    administrator's pending page, which lists every other booking exactly
    as before. *)
Theorem cancelled_booking_leaves_lists
    (clk : clock) (u : User.t) (bid : Z) (db : DB) (b : booking_row) :
  User.is_staff u = true →
  bookings db !! bid = Some b →
  b_user_id b = User.user_id u →
  b_status b = pending →
  (∀ limit v,
     v ∈ BookingList.get_upcoming_by_user clk (User.user_id u) limit
           (cancel_booking u bid db).2 →
     BookingView.booking_id v ≠ bid)
  ∧ (∀ v, v ∈ BookingList.get_all (Some pending) (cancel_booking u bid db).2
          ↔ v ∈ BookingList.get_all (Some pending) db ∧ BookingView.booking_id v ≠ bid).
Proof.
  intros Hstaff Hb Hu Hs.
  rewrite cancel_booking_route, Hstaff.
  rewrite (cancel_hit bid (User.user_id u) db b Hb Hu Hs). cbn [snd].
  split; [|intros v; by apply get_all_after_status_change].
  intros limit v Hv Hid.
  unfold BookingList.get_upcoming_by_user in Hv.
  apply list_elem_of_fmap in Hv as (j & -> & Hj). simpl in Hid.
  destruct (upcoming_rows_active clk (User.user_id u) limit _ j Hj) as (Hrow & Hactive).
  simpl in Hrow. rewrite Hid, lookup_insert_eq in Hrow. injection Hrow as Hrow.
  rewrite <- Hrow in Hactive. simpl in Hactive. by destruct Hactive.
Qed.

Lemma cancelled_booking_leaves_lists_witness :
  length (BookingList.get_upcoming_by_user noon_15_jan 1 5 store_pending) = 1%nat
  ∧ ∀ v, v ∈ BookingList.get_upcoming_by_user noon_15_jan 1 5
               (cancel_booking staff_alice 7 store_pending).2
         → BookingView.booking_id v ≠ 7.
Proof.
  split; [vm_compute; reflexivity|].
  destruct (cancelled_booking_leaves_lists noon_15_jan staff_alice 7 store_pending
              (booking_of staff_alice 1 pending)) as [Hgone _];
    [reflexivity|reflexivity|reflexivity|reflexivity|].
  intros v Hv. by apply (Hgone 5%nat v).
Defined.

(** X15: with the foreign keys resolved, the list of a user's bookings has
    as many rows as the total of the user's statistics, and each row is a
    stored booking of that user. *)
Theorem get_by_user_matches_total (uid : Z) (db : DB) :
  foreign_keys_ok db →
  BookingQuery.get_user_stats uid db !! "total"
  = Some (Z.of_nat (length (BookingList.get_by_user uid db)))
  ∧ ∀ v, v ∈ BookingList.get_by_user uid db →
         BookingView.user_id v = uid
         ∧ ∃ b, bookings db !! BookingView.booking_id v = Some b ∧ b_user_id b = uid.
Proof.
  intros Hfk.
  assert (Hjoin : ∀ kb, kb ∈ map_to_list (bookings db) →
                        is_Some (BookingList.join_facilities db kb)).
  { intros [k b] Hin. apply elem_of_map_to_list in Hin.
    destruct (Hfk k b Hin) as [_ [f Hf]].
    unfold BookingList.join_facilities. simpl. rewrite Hf. by eexists. }
  split.
  - rewrite get_user_stats_counts. simplify_map_eq. f_equal.
    unfold BookingList.get_by_user, BookingList.get_by_user_rows, user_total.
    rewrite length_fmap, merge_sort_Permutation.
    rewrite (length_filter_omap _
               (λ kb : Z * booking_row, BookingQuery.of_user uid kb.1 kb.2 = true)
               _ _ Hjoin).
    + symmetry. apply length_filter_map_to_list.
    + intros [k b] j Hj. unfold BookingList.join_facilities in Hj. simpl in Hj.
      destruct (facilities db !! b_facility_id b); [|done].
      simpl in Hj. injection Hj as <-. simpl.
      unfold BookingQuery.of_user. by rewrite bool_decide_eq_true.
  - intros v Hv. unfold BookingList.get_by_user, BookingList.get_by_user_rows in Hv.
    apply list_elem_of_fmap in Hv as (j & -> & Hj).
    rewrite merge_sort_Permutation in Hj.
    apply list_elem_of_filter in Hj as [Hu Hj].
    apply elem_of_join_facilities in Hj as (Hb & _).
    simpl. split; [done|]. by exists (j_row j).
Qed.

Lemma get_by_user_matches_total_witness :
  length (BookingList.get_by_user 2 store_busy) = 2%nat
  ∧ BookingQuery.get_user_stats 2 store_busy !! "total" = Some 2.
Proof.
  destruct (get_by_user_matches_total 2 store_busy store_busy_foreign_keys)
    as [Htotal _].
  assert (Hlen : length (BookingList.get_by_user 2 store_busy) = 2%nat)
    by (vm_compute; reflexivity).
  split; [exact Hlen|]. rewrite Htotal, Hlen. reflexivity.
Defined.

(* ===================================================================== *)
(** * Facilities: the form, update and create                             *)
(* ===================================================================== *)

(** What a valid facility form is. *)
Lemma facility_form_validate_true (form : FacilityForm.data) :
  FacilityForm.validate form = true
  ↔ FacilityForm.csrf_token form = true
    ∧ blank (FacilityForm.name form) = false
    ∧ 3 <= len (FacilityForm.name form) <= 100
    ∧ (∃ c, FacilityForm.capacity form = Some c ∧ 1 <= c <= 1000)
    ∧ len (FacilityForm.description form) <= 500
    ∧ (FacilityForm.status form = "active" ∨ FacilityForm.status form = "inactive").
Proof.
  unfold FacilityForm.validate. rewrite !andb_true_iff.
  assert (Hnil : ∀ l, BookingForm.no_errors l = true ↔ l = [])
    by (intros [|? ?]; simpl; split; congruence).
  rewrite !Hnil.
  unfold FacilityForm.csrf_token_errors, FacilityForm.name_errors,
    FacilityForm.capacity_errors, FacilityForm.description_errors,
    FacilityForm.status_errors. cbv zeta.
  split.
  - intros ((((Hc & Hn) & Hcap) & Hd) & Hs).
    destruct (FacilityForm.csrf_token form); [|done].
    destruct (blank (FacilityForm.name form)); [done|].
    destruct (FacilityForm.capacity form) as [c|]; [|done].
    destruct (Z.eqb_spec c 0); [done|].
    destruct (Z.leb_spec 3 (len (FacilityForm.name form)));
      destruct (Z.leb_spec (len (FacilityForm.name form)) 100); try done.
    destruct (Z.leb_spec 1 c); destruct (Z.leb_spec c 1000); try done.
    destruct (Z.ltb_spec 500 (len (FacilityForm.description form))); [done|].
    case_decide as Hst; [|by destruct (blank (FacilityForm.status form))].
    repeat split; try done; try lia. exists c. split; [done|lia].
  - intros (Hc & Hn & Hlen & (c & Hcap & Hrange) & Hd & Hs).
    rewrite Hc, Hn, Hcap.
    destruct (Z.eqb_spec c 0); [lia|].
    destruct (Z.leb_spec 3 (len (FacilityForm.name form)));
      destruct (Z.leb_spec (len (FacilityForm.name form)) 100); try lia.
    destruct (Z.leb_spec 1 c); destruct (Z.leb_spec c 1000); try lia.
    destruct (Z.ltb_spec 500 (len (FacilityForm.description form))); [lia|].
    rewrite decide_True by done. done.
Qed.

(** X16: for a facility form whose texts are well-formed UTF-8 (as every
    decoded text is), the form validates exactly when the token is valid,
    the name is not blank and has 3 to 100 characters, the capacity is an
    integer from 1 to 1000, the description has at most 500 characters and
    the status is one of the two choices.  Lengths count characters, not
    bytes, and blank means made of Unicode whitespace only.  A capacity of
    zero is reported as a missing field, not as a number out of range, and
    so is a blank name; a name that is not blank but has fewer than 3 or
    more than 100 characters gets the length message. *)
Theorem facility_form_valid (form : FacilityForm.data) :
  well_formed (FacilityForm.name form) →
  well_formed (FacilityForm.description form) →
  (FacilityForm.validate form = true
   ↔ FacilityForm.csrf_token form = true
     ∧ blank (FacilityForm.name form) = false
     ∧ 3 <= len (FacilityForm.name form) <= 100
     ∧ (∃ c, FacilityForm.capacity form = Some c ∧ 1 <= c <= 1000)
     ∧ len (FacilityForm.description form) <= 500
     ∧ (FacilityForm.status form = "active" ∨ FacilityForm.status form = "inactive"))
  ∧ (FacilityForm.capacity form = Some 0 →
     FacilityForm.capacity_errors form = ["This field is required."])
  ∧ (∀ c, FacilityForm.capacity form = Some c → c < 0 ∨ 1000 < c →
          FacilityForm.capacity_errors form = ["Number must be between 1 and 1000."])
  ∧ (blank (FacilityForm.name form) = true →
     FacilityForm.name_errors form = ["This field is required."])
  ∧ (blank (FacilityForm.name form) = false →
     len (FacilityForm.name form) < 3 ∨ 100 < len (FacilityForm.name form) →
     FacilityForm.name_errors form
     = ["Field must be between 3 and 100 characters long."]).
Proof.
  intros _ _.
  split; [apply facility_form_validate_true|split; [|split; [|split]]].
  - intros Hcap. unfold FacilityForm.capacity_errors. by rewrite Hcap.
  - intros c Hcap Hout. unfold FacilityForm.capacity_errors. rewrite Hcap.
    destruct (Z.eqb_spec c 0); [lia|].
    destruct (Z.leb_spec 1 c); destruct (Z.leb_spec c 1000); simpl; try done; lia.
  - intros Hblank. unfold FacilityForm.name_errors. by rewrite Hblank.
  - intros Hblank Hout. unfold FacilityForm.name_errors. rewrite Hblank. cbv zeta.
    destruct (Z.leb_spec 3 (len (FacilityForm.name form)));
      destruct (Z.leb_spec (len (FacilityForm.name form)) 100); simpl; try done; lia.
Qed.

Lemma facility_form_valid_witness :
  String.length "日本" = 6%nat
  ∧ FacilityForm.validate (form_named "日本") = false
  ∧ FacilityForm.name_errors (form_named "日本")
    = ["Field must be between 3 and 100 characters long."]
  ∧ FacilityForm.name_errors (form_named ideographic_space)
    = ["This field is required."].
Proof.
  destruct (facility_form_valid (form_named "日本"))
    as (Hiff & _ & _ & _ & Hlength);
    [by (vm_compute; eexists)|by (vm_compute; eexists)|].
  destruct (facility_form_valid (form_named ideographic_space))
    as (_ & _ & _ & Hblank & _);
    [by (vm_compute; eexists)|by (vm_compute; eexists)|].
  split; [reflexivity|].
  split.
  { apply not_true_is_false. intros Hval.
    apply Hiff in Hval as (_ & _ & Hlen & _). vm_compute in Hlen.
    destruct Hlen as [Hlen _]. exfalso. by apply Hlen. }
  split.
  - apply Hlength; [reflexivity|]. left. reflexivity.
  - apply Hblank. reflexivity.
Defined.

(** Both statements of [Facility] that write name a column that the
    facilities table of [init_database] does not declare. *)
Lemma update_names_image :
  unknown_column facilities_columns FacilityWrite.update_columns = Some "image".
Proof. reflexivity. Qed.

Lemma insert_names_image :
  unknown_column facilities_columns FacilityWrite.insert_columns = Some "image".
Proof. reflexivity. Qed.

Lemma facility_update_raises fid name capacity description status image db :
  FacilityWrite.update fid name capacity description status image db
  = inl (ProgrammingError "image").
Proof.
  unfold FacilityWrite.update, FacilityWrite.update_statement.
  by rewrite update_names_image.
Qed.

Lemma facility_create_raises new_id name capacity description status image db :
  FacilityWrite.create new_id name capacity description status image db
  = inl (ProgrammingError "image").
Proof.
  unfold FacilityWrite.create, FacilityWrite.create_statement.
  by rewrite insert_names_image.
Qed.

Section facility_view_facts.
Context {int_of_text : IntOfText} {file_system : FileSystem}.

(** How the save of an upload ends. *)
Lemma save_upload_cases epoch image :
  (upload_name epoch image = None ∧ save_upload epoch image = inr None)
  ∨ (∃ file, upload_name epoch image = Some file ∧ save_ok file = true
             ∧ save_upload epoch image = inr (Some file))
  ∨ (∃ file, upload_name epoch image = Some file ∧ save_ok file = false
             ∧ save_upload epoch image = inl OSError).
Proof.
  unfold save_upload. destruct (upload_name epoch image) as [file|]; [|by left].
  right. destruct (save_ok file) eqn:Hsave; [left|right]; by exists file.
Qed.

(** X17: on the facilities table that [init_database] creates,
    [update_facility] cannot update.  For an administrator, a valid form
    and an identifier that [int()] reads as a stored facility, the view
    reaches [Facility.update], whose UPDATE sets a column [image] that the
    table does not declare: the server refuses the statement, the view ends
    in the uncaught [ProgrammingError] and the store is as before.  An
    upload is saved before, under the time, an underscore and its
    filename, so the file is written although nothing refers to it; when
    the save fails the view ends in that error instead. *)
Theorem update_facility_unknown_column
    (epoch : Z) (u : User.t) (form : FacilityForm.data) (image : upload)
    (db : DB) (fid : Z) :
  User.is_admin u = true →
  FacilityForm.validate form = true →
  FacilityForm.facility_id form ≠ "" →
  py_int (FacilityForm.facility_id form) = Some fid →
  is_Some (facilities db !! fid) →
  let result := update_facility epoch u form image db in
  store result = db
  ∧ (image = None ∨ image = Some "" →
     ending result = Raised (DatabaseError (ProgrammingError "image"))
     ∧ written result = None)
  ∧ (∀ filename, image = Some filename → filename ≠ "" →
       let file := pretty epoch +:+ "_" +:+ filename in
       (save_ok file = true →
        ending result = Raised (DatabaseError (ProgrammingError "image"))
        ∧ written result = Some file)
       ∧ (save_ok file = false →
          ending result = Raised OSError ∧ written result = None)).
Proof.
  intros Hadmin Hval Hid Hint [old Hold] result. subst result.
  unfold update_facility, FacilityForm.validate_on_submit, Facility.get_by_id.
  rewrite Hadmin, Hval. cbn [negb]. rewrite decide_False by done.
  rewrite Hint, Hold. cbv zeta.
  split.
  { destruct (save_upload epoch image); [done|].
    by rewrite facility_update_raises. }
  split.
  { intros Himage.
    assert (Hnone : save_upload epoch image = inr None)
      by (destruct Himage as [-> | ->]; reflexivity).
    rewrite Hnone. by rewrite facility_update_raises. }
  intros filename -> Hname.
  unfold save_upload, upload_name. rewrite decide_False by done.
  split; intros Hsave; rewrite Hsave; [|done].
  by rewrite facility_update_raises.
Qed.

(** X19: on the facilities table that [init_database] creates,
    [create_facility] cannot create.  For an administrator and a valid
    form the view reaches [Facility.create], whose INSERT names a column
    [image] that the table does not declare: the server refuses the
    statement whatever the values, the view ends in the uncaught
    [ProgrammingError] and the store is as before.  An upload is saved
    before, so its file is written although no facility was added; when
    the save fails the view ends in that error instead. *)
Theorem create_facility_unknown_column
    (epoch new_id : Z) (u : User.t) (form : FacilityForm.data) (image : upload)
    (db : DB) :
  User.is_admin u = true →
  FacilityForm.validate form = true →
  let result := create_facility epoch new_id u form image db in
  store result = db
  ∧ (image = None ∨ image = Some "" →
     ending result = Raised (DatabaseError (ProgrammingError "image"))
     ∧ written result = None)
  ∧ (∀ filename, image = Some filename → filename ≠ "" →
       let file := pretty epoch +:+ "_" +:+ filename in
       (save_ok file = true →
        ending result = Raised (DatabaseError (ProgrammingError "image"))
        ∧ written result = Some file)
       ∧ (save_ok file = false →
          ending result = Raised OSError ∧ written result = None)).
Proof.
  intros Hadmin Hval result. subst result.
  unfold create_facility, FacilityForm.validate_on_submit.
  rewrite Hadmin, Hval. cbn [negb].
  split.
  { destruct (save_upload epoch image); [done|].
    by rewrite facility_create_raises. }
  split.
  { intros Himage.
    assert (Hnone : save_upload epoch image = inr None)
      by (destruct Himage as [-> | ->]; reflexivity).
    rewrite Hnone. by rewrite facility_create_raises. }
  intros filename -> Hname. cbv zeta.
  unfold save_upload, upload_name. rewrite decide_False by done.
  split; intros Hsave; rewrite Hsave; [|done].
  by rewrite facility_create_raises.
Qed.


End facility_view_facts.

Lemma update_facility_unknown_column_witness :
  update_facility (int_of_text := decimal_int) (file_system := writable)
                  1700000000 admin_carol form_room (Some "room.png") store_rooms
  = {| ending := Raised (DatabaseError (ProgrammingError "image"));
       store := store_rooms;
       written := Some "1700000000_room.png" |}.
Proof.
  destruct (update_facility_unknown_column (int_of_text := decimal_int)
              (file_system := writable) 1700000000 admin_carol form_room
              (Some "room.png") store_rooms 1)
    as (Hstore & _ & Hsaved);
    [reflexivity|reflexivity|discriminate|reflexivity|by eexists|].
  destruct (Hsaved "room.png" eq_refl) as [Hwritten _]; [discriminate|].
  destruct (Hwritten eq_refl) as [Hending Hfile].
  destruct (update_facility 1700000000 admin_carol form_room (Some "room.png")
                            store_rooms) as [e s w].
  simpl in Hstore, Hending, Hfile. rewrite Hstore, Hending, Hfile.
  vm_compute. reflexivity.
Defined.

Lemma create_facility_unknown_column_witness :
  create_facility (file_system := writable) 1700000000 9 admin_carol form_room None
                  store_busy
  = {| ending := Raised (DatabaseError (ProgrammingError "image"));
       store := store_busy;
       written := None |}.
Proof.
  destruct (create_facility_unknown_column (file_system := writable) 1700000000 9
              admin_carol form_room None store_busy)
    as (Hstore & Hnone & _); [reflexivity|reflexivity|].
  destruct (Hnone (or_introl eq_refl)) as [Hending Hfile].
  destruct (create_facility 1700000000 9 admin_carol form_room None store_busy)
    as [e s w].
  simpl in Hstore, Hending, Hfile. by rewrite Hstore, Hending, Hfile.
Defined.

(* ===================================================================== *)
(** * What booking creation does not check                                *)
(* ===================================================================== *)

(** X20: the booking form puts no upper limit on the date and the route
    does not look at the facility's status: a valid request dated in any
    later year, for a stored facility that is inactive, is accepted like
    any other and inserts a pending booking. *)
Theorem create_booking_far_ahead_inactive {coercion : SqlCoercion}
    (clk : clock) (u : User.t) (form : BookingForm.data) (db : DB)
    (fid : Z) (f : facility_row) (d : date) (st et : time) :
  User.is_staff u = true →
  logged_in u db →
  auto_increment_ok db →
  BookingForm.csrf_token form = true →
  BookingForm.facility_id form ≠ "" →
  sql_int (BookingForm.facility_id form) = Some fid →
  facilities db !! fid = Some f →
  f_status f = inactive →
  BookingForm.booking_date form = Some d →
  year (today clk) < year d →
  BookingForm.start_time form = Some st →
  BookingForm.end_time form = Some et →
  time_ltb st et = true →
  1800 <= total_seconds et st <= 28800 →
  (String.length (BookingForm.purpose form) <= 500)%nat →
  BookingForm.booking_date_errors clk form = []
  ∧ create_booking clk u form db
    = (Redirect ("Booking request submitted.", "dashboard-success") "staff_dashboard",
       after_insert db
         (Booking.inserted_row clk (User.user_id u) fid d st et
                               (BookingForm.purpose form))).
Proof.
  intros Hstaff Hlog Hai Hc Hne Hfid Hf _ Hd Hyear Hst Het Hord Hdur Hp.
  assert (Hfuture : date_ltb d (today clk) = false).
  { unfold date_ltb. lia. }
  assert (Hval : BookingForm.validate clk form = true).
  { apply validate_true. repeat split; try done.
    - by exists d.
    - by exists st, et. }
  split.
  - unfold BookingForm.booking_date_errors, BookingForm.required_then,
      BookingForm.validate_booking_date. by rewrite Hd, Hfuture.
  - destruct (create_booking_valid clk u form db fid Hstaff Hval Hfid
                (logged_in_user u db Hlog) (ex_intro _ f Hf) Hai)
      as (d' & st' & et' & Hd' & Hst' & Het' & Hroute).
    rewrite Hroute. congruence.
Qed.

Lemma create_booking_far_ahead_inactive_witness :
  f_status <$> facilities store_closed !! 3 = Some inactive
  ∧ ∃ db',
      create_booking (coercion := digits_only) noon_15_jan staff_alice form_far_ahead
                     store_closed
      = (Redirect ("Booking request submitted.", "dashboard-success")
                  "staff_dashboard", db')
      ∧ b_booking_date <$> bookings db' !! 7 = Some (mk_date 2036 1 15)
      ∧ b_status <$> bookings db' !! 7 = Some pending.
Proof.
  split; [reflexivity|].
  destruct (create_booking_far_ahead_inactive (coercion := digits_only)
              noon_15_jan staff_alice form_far_ahead store_closed 3 room_closed
              (mk_date 2036 1 15) (mk_time 9 0) (mk_time 10 30)) as [_ Hroute];
    try reflexivity.
  - exact store_7_auto_increment.
  - discriminate.
  - vm_compute. split; discriminate.
  - vm_compute. lia.
  - eexists. split; [exact Hroute|]. split; reflexivity.
Defined.

(* ===================================================================== *)
(** * Accounts                                                            *)
(* ===================================================================== *)

(** Decoding a text that ends in spaces: the spaces are characters of
    their own, whatever comes before. *)
Lemma fmap_snoc_cons (b : Z) (x : option (list Z)) (t : list Z) :
  cons b <$> ((λ l, l ++ t) <$> x) = (λ l, l ++ t) <$> (cons b <$> x).
Proof. by destruct x. Qed.

Lemma code_points_app_space s :
  code_points (s +:+ " ") = (λ l, l ++ [32]) <$> code_points s.
Proof.
  remember (String.length s) as n eqn:Hn. revert s Hn.
  induction n as [n IH] using lt_wf_ind. intros s Hn.
  assert (Hrec : ∀ t, (String.length t < n)%nat →
                      code_points (t +:+ " ") = (λ l, l ++ [32]) <$> code_points t)
    by (intros t Ht; by apply (IH (String.length t))).
  clear IH.
  destruct s as [|c0 s1]; [reflexivity|].
  change (String c0 s1 +:+ " ") with (String c0 (s1 +:+ " ")).
  cbn [code_points]. cbv zeta.
  destruct (byte c0 <? 128).
  { rewrite Hrec by (simpl in Hn; lia). apply fmap_snoc_cons. }
  destruct (byte c0 <? 194); [reflexivity|].
  destruct (byte c0 <? 224).
  { destruct s1 as [|c1 s2]; [reflexivity|].
    change (String c1 s2 +:+ " ") with (String c1 (s2 +:+ " ")). cbv beta match.
    destruct (continuation (byte c1)); [|reflexivity].
    rewrite Hrec by (simpl in Hn; lia). apply fmap_snoc_cons. }
  destruct (byte c0 <? 240).
  { destruct s1 as [|c1 [|c2 s3]];
      [reflexivity| |].
    { change (String c1 "" +:+ " ") with (String c1 " "). cbv beta match zeta.
      change (continuation (byte " ")) with false. by rewrite andb_false_r. }
    change (String c1 (String c2 s3) +:+ " ") with (String c1 (String c2 (s3 +:+ " "))).
    cbv beta match zeta.
    match goal with |- (if ?c then _ else _) = _ => destruct c end; [|reflexivity].
    rewrite Hrec by (simpl in Hn; lia). apply fmap_snoc_cons. }
  destruct (byte c0 <? 245); [|reflexivity].
  destruct s1 as [|c1 [|c2 [|c3 s4]]]; [reflexivity|reflexivity| |].
  { change (String c1 (String c2 "") +:+ " ") with (String c1 (String c2 " ")).
    cbv beta match zeta.
    change (continuation (byte " ")) with false. by rewrite andb_false_r. }
  change (String c1 (String c2 (String c3 s4)) +:+ " ")
    with (String c1 (String c2 (String c3 (s4 +:+ " ")))).
  cbv beta match zeta.
  match goal with |- (if ?c then _ else _) = _ => destruct c end; [|reflexivity].
  rewrite Hrec by (simpl in Hn; lia). apply fmap_snoc_cons.
Qed.

Lemma string_app_assoc (a b c : string) : (a +:+ b) +:+ c = a +:+ (b +:+ c).
Proof.
  induction a as [|x a IH]; [done|].
  change (String x ((a +:+ b) +:+ c) = String x (a +:+ (b +:+ c))). by rewrite IH.
Qed.

Lemma code_points_app_spaces s k :
  code_points (s +:+ spaces k) = (λ l, l ++ replicate k 32) <$> code_points s.
Proof.
  revert s. induction k as [|k IH]; intros s.
  - assert (Hnil : s +:+ "" = s).
    { induction s as [|x s IHs]; [done|].
      change (String x (s +:+ "") = String x s). by rewrite IHs. }
    change (spaces 0) with "".
    rewrite Hnil. destruct (code_points s); simpl; [|done]. by rewrite app_nil_r.
  - change (spaces (S k)) with (" " +:+ spaces k).
    rewrite <- string_app_assoc, IH, code_points_app_space.
    destruct (code_points s) as [l|]; simpl; [|done].
    by rewrite <- app_assoc.
Qed.

Lemma rstrip_spaces_spec s : ∃ k, s = rstrip_spaces s +:+ spaces k.
Proof.
  induction s as [|c rest [k IH]]; [by exists 0%nat|].
  cbn [rstrip_spaces]. destruct (rstrip_spaces rest) as [|c' kept] eqn:Hkept.
  - destruct (Ascii.eqb_spec c " ") as [->|].
    + exists (S k). simpl. by rewrite IH at 1.
    + exists k. simpl. by rewrite IH at 1.
  - exists k. simpl. by rewrite IH at 1.
Qed.

Lemma len_rstrip_spaces s : len (rstrip_spaces s) <= len s.
Proof.
  destruct (rstrip_spaces_spec s) as [k Hs]. unfold len, characters.
  rewrite Hs at 2. rewrite code_points_app_spaces.
  destruct (code_points (rstrip_spaces s)) as [l|]; simpl; [|done].
  rewrite length_app. lia.
Qed.

(** A text that fits a column is stored as it is, and a refused text has
    more characters than the column even without the spaces at its end. *)
Lemma varchar_fits n s : len s <= n → varchar n s = Some s.
Proof. intros Hfit. unfold varchar. by destruct (Z.leb_spec (len s) n); [|lia]. Qed.

Lemma varchar_None n s :
  varchar n s = None ↔ n < len s ∧ n < len (rstrip_spaces s).
Proof.
  unfold varchar. cbv zeta.
  destruct (Z.leb_spec (len s) n); [split; [done|lia]|].
  destruct (Z.leb_spec (len (rstrip_spaces s)) n); [split; [done|lia]|].
  split; [lia|done].
Qed.

Section account_facts.
Context {hasher : PasswordHasher} {collation : Collation} {emails : EmailValidator}.

Lemma get_by_email_None email db :
  Account.get_by_email email db = None
  ↔ ∀ k r, users db !! k = Some r → same_text (u_email r) email = false.
Proof.
  unfold Account.get_by_email. rewrite fmap_None, list_find_None, Forall_forall.
  split.
  - intros Hall k r Hk. apply not_true_is_false.
    apply (Hall (k, r)). by apply elem_of_map_to_list.
  - intros Hall [k r] Hin. apply elem_of_map_to_list in Hin. simpl.
    rewrite (Hall k r Hin). done.
Qed.

Lemma get_by_email_Some email db u :
  Account.get_by_email email db = Some u →
  ∃ k r, users db !! k = Some r ∧ same_text (u_email r) email = true
         ∧ u = User.of_row k r.
Proof.
  unfold Account.get_by_email. intros Hfound.
  apply fmap_Some in Hfound as ([i [k r]] & Hfind & ->).
  apply list_find_Some in Hfind as (Hi & Hsame & _).
  exists k, r. split; [|done].
  apply elem_of_map_to_list. by apply (list_elem_of_lookup_2 _ i).
Qed.

(** With unique e-mail addresses, looking an address up finds its account. *)
Lemma get_by_email_unique email db k r :
  emails_unique db →
  users db !! k = Some r →
  same_text (u_email r) email = true →
  Account.get_by_email email db = Some (User.of_row k r).
Proof.
  intros Huniq Hk Hsame.
  destruct (Account.get_by_email email db) as [u|] eqn:Hfound.
  - apply get_by_email_Some in Hfound as (k' & r' & Hk' & Hsame' & ->).
    assert (Heq : k = k').
    { apply (Huniq k k' r r' Hk Hk').
      apply (same_text_trans _ email); [done|]. by apply same_text_sym. }
    subst k'. congruence.
  - rewrite get_by_email_None in Hfound. rewrite (Hfound k r Hk) in Hsame. done.
Qed.

Lemma insert_keeps_emails_unique db new_id row :
  emails_unique db →
  Account.get_by_email (u_email row) db = None →
  emails_unique (set_users (<[ new_id := row ]> (users db)) db).
Proof.
  intros Huniq Hnew. rewrite get_by_email_None in Hnew.
  intros k1 k2 r1 r2 H1 H2 Hsame. simpl in H1, H2.
  destruct (decide (k1 = new_id)) as [->|Hk1], (decide (k2 = new_id)) as [->|Hk2].
  - done.
  - rewrite lookup_insert_eq in H1. injection H1 as <-.
    rewrite lookup_insert_ne in H2 by done.
    apply same_text_sym in Hsame. rewrite (Hnew k2 r2 H2) in Hsame. done.
  - rewrite lookup_insert_eq in H2. injection H2 as <-.
    rewrite lookup_insert_ne in H1 by done.
    rewrite (Hnew k1 r1 H1) in Hsame. done.
  - rewrite lookup_insert_ne in H1, H2 by done. by apply (Huniq k1 k2 r1 r2).
Qed.

(** The store after [register]: the one before, or that one with one new
    account whose address was not registered. *)
Lemma register_store salt new_id form db :
  (register salt new_id form db).2 = db
  ∨ ∃ row,
      users db !! new_id = None
      ∧ Account.get_by_email (u_email row) db = None
      ∧ register salt new_id form db
        = (AuthPage (Some ("Account created. Please login.", "auth-success")),
           set_users (<[ new_id := row ]> (users db)) db).
Proof.
  unfold register.
  destruct (RegisterForm.validate_on_submit form); [|by left].
  destruct (Account.get_by_email (RegisterForm.email form) db) eqn:Hfound; [by left|].
  unfold Account.create, execute_query, Account.insert_statement. cbv zeta.
  destruct (enum_role (RegisterForm.role_text form)) as [r|]; [|by left].
  destruct (varchar 100 (RegisterForm.name form)) as [name|]; [|by left].
  destruct (varchar 100 (RegisterForm.email form)) as [email|]; [|by left].
  destruct (varchar 255 (generate_password_hash salt (RegisterForm.password form)))
    as [password_hash|]; [|by left].
  case_decide as Hok; [|by left]. destruct Hok as [Hfresh Hnone].
  right. by eexists {| u_name := name; u_email := email;
                       u_password := password_hash; u_role := r |}.
Qed.

(** X21: registration keeps the e-mail addresses unique: whatever the
    request, no two accounts share an address afterwards.  A valid request
    for an address that is already registered changes nothing and is
    answered with the notice that says so.  Registration never touches a
    facility or a booking. *)
Theorem register_keeps_emails_unique
    (salt : string) (new_id : Z) (form : RegisterForm.data) (db : DB) :
  emails_unique db →
  emails_unique (register salt new_id form db).2
  ∧ (RegisterForm.validate form = true →
     ∀ k r, users db !! k = Some r →
            same_text (u_email r) (RegisterForm.email form) = true →
            register salt new_id form db
            = (AuthPage (Some ("Email already registered", "auth-danger")), db))
  ∧ facilities (register salt new_id form db).2 = facilities db
  ∧ bookings (register salt new_id form db).2 = bookings db.
Proof.
  intros Huniq.
  split; [|split].
  - destruct (register_store salt new_id form db)
      as [Hsame|(row & _ & Hnone & Hreg)].
    + by rewrite Hsame.
    + rewrite Hreg. cbn [snd]. by apply insert_keeps_emails_unique.
  - intros Hval k r Hk Hsame. unfold register, RegisterForm.validate_on_submit.
    rewrite Hval. by rewrite (get_by_email_unique _ db k r Huniq Hk Hsame).
  - destruct (register_store salt new_id form db)
      as [Hsame|(row & _ & _ & Hreg)]; [by rewrite Hsame|by rewrite Hreg].
Qed.

Lemma register_form_valid form :
  RegisterForm.validate form = true →
  blank (RegisterForm.email form) = false
  ∧ email_ok (RegisterForm.email form) = true
  ∧ blank (RegisterForm.password form) = false
  ∧ len (RegisterForm.name form) <= 100
  ∧ 6 <= len (RegisterForm.password form)
  ∧ RegisterForm.confirm_password form = RegisterForm.password form
  ∧ (RegisterForm.role_text form = "staff" ∨ RegisterForm.role_text form = "admin").
Proof.
  unfold RegisterForm.validate. rewrite !andb_true_iff.
  assert (Hnil : ∀ l, BookingForm.no_errors l = true ↔ l = [])
    by (intros [|? ?]; simpl; split; congruence).
  rewrite !Hnil.
  unfold RegisterForm.name_errors, RegisterForm.email_errors,
    RegisterForm.password_errors, RegisterForm.confirm_password_errors,
    RegisterForm.role_errors. cbv zeta.
  intros (((((_ & Hn) & He) & Hp) & Hc) & Hr).
  destruct (blank (RegisterForm.name form)); [done|].
  destruct (blank (RegisterForm.email form)); [done|].
  destruct (email_ok (RegisterForm.email form)); [|done].
  destruct (blank (RegisterForm.password form)); [done|].
  destruct (blank (RegisterForm.confirm_password form)); [done|].
  destruct (Z.leb_spec 2 (len (RegisterForm.name form)));
    destruct (Z.leb_spec (len (RegisterForm.name form)) 100); try done.
  destruct (Z.leb_spec 6 (len (RegisterForm.password form))); [|done].
  destruct (decide (RegisterForm.confirm_password form = RegisterForm.password form))
    as [Hconfirm|]; [|done].
  destruct (decide (RegisterForm.role_text form = "staff"
                    ∨ RegisterForm.role_text form = "admin")) as [Hrole|];
    [|by destruct (blank (RegisterForm.role_text form))].
  repeat split; try done; lia.
Qed.

(** X22: an account that was just registered can log in, when its texts
    fit the columns.  Take a valid registration for an address that is not
    registered yet, with an identifier no account has.  The form does not
    bound the length of the address, and the users table keeps 100
    characters of it and 255 of the password hash.  When the address and
    the hash fit, the account is created with the submitted role,
    administrator included; logging in afterwards with the same address
    and password succeeds and leads to the dashboard of that role, while a
    password that does not check is answered like an unknown address.
    When the address or the hash is longer, spaces at the end aside, the
    server (in strict mode) refuses the row: the view ends in the uncaught
    error and no account is created. *)
Theorem register_then_login
    (salt : string) (new_id : Z) (form : RegisterForm.data) (db : DB) :
  emails_unique db →
  RegisterForm.validate form = true →
  Account.get_by_email (RegisterForm.email form) db = None →
  users db !! new_id = None →
  (len (RegisterForm.email form) <= 100 →
   len (generate_password_hash salt (RegisterForm.password form)) <= 255 →
   ∃ r db' account,
     enum_role (RegisterForm.role_text form) = Some r
     ∧ register salt new_id form db
       = (AuthPage (Some ("Account created. Please login.", "auth-success")), db')
     ∧ User.get_by_id new_id db' = Some account
     ∧ User.role_of account = r
     ∧ (∀ attempt,
          LoginForm.csrf_token attempt = true →
          LoginForm.email attempt = RegisterForm.email form →
          (LoginForm.password attempt = RegisterForm.password form →
           login attempt db'
           = LoggedIn account (if User.is_admin account then "admin_dashboard"
                               else "staff_dashboard"))
          ∧ (blank (LoginForm.password attempt) = false →
             check_password_hash (User.password account) (LoginForm.password attempt)
             = false →
             login attempt db'
             = AuthPage (Some ("Invalid email or password", "auth-danger")))))
  ∧ (100 < len (rstrip_spaces (RegisterForm.email form))
     ∨ 255 < len (rstrip_spaces
                    (generate_password_hash salt (RegisterForm.password form))) →
     register salt new_id form db = (AuthError DataError, db)).
Proof.
  intros Huniq Hval Hnone Hfresh.
  destruct (register_form_valid form Hval)
    as (Hblank & Hok & Hpw & Hname & _ & _ & Hrole).
  assert (Hr : ∃ r, enum_role (RegisterForm.role_text form) = Some r).
  { destruct Hrole as [Hs|Hs]; rewrite Hs; [by exists staff|by exists admin]. }
  destruct Hr as [r Hr].
  split.
  - intros Hemail Hhash.
    set (row := {| u_name := RegisterForm.name form;
                   u_email := RegisterForm.email form;
                   u_password := generate_password_hash salt (RegisterForm.password form);
                   u_role := r |}).
    exists r, (set_users (<[ new_id := row ]> (users db)) db), (User.of_row new_id row).
    split; [done|].
    split.
    { unfold register, RegisterForm.validate_on_submit. rewrite Hval, Hnone.
      unfold Account.create, execute_query, Account.insert_statement. cbv zeta.
      rewrite Hr, !varchar_fits by done. by rewrite decide_True. }
    split; [unfold User.get_by_id; simpl; by rewrite lookup_insert_eq|].
    split; [done|].
    assert (Hfind : Account.get_by_email (RegisterForm.email form)
                      (set_users (<[ new_id := row ]> (users db)) db)
                    = Some (User.of_row new_id row)).
    { apply get_by_email_unique.
      - by apply insert_keeps_emails_unique.
      - simpl. by rewrite lookup_insert_eq.
      - apply same_text_refl. }
    intros attempt Hcsrf Hmail. split.
    + intros Hpass. unfold login, LoginForm.validate_on_submit, LoginForm.validate.
      rewrite Hcsrf, Hmail, Hpass, Hblank, Hok, Hpw. cbn [negb andb].
      rewrite Hfind. unfold Account.verify_password. simpl User.password.
      by rewrite check_generated.
    + intros Hpw' Hwrong. unfold login, LoginForm.validate_on_submit, LoginForm.validate.
      rewrite Hcsrf, Hmail, Hpw', Hblank, Hok. cbn [negb andb].
      rewrite Hfind. unfold Account.verify_password. by rewrite Hwrong.
  - intros Hlong. unfold register, RegisterForm.validate_on_submit.
    rewrite Hval, Hnone.
    unfold Account.create, execute_query, Account.insert_statement. cbv zeta.
    rewrite Hr, (varchar_fits 100 (RegisterForm.name form)) by done.
    destruct Hlong as [Hlong|Hlong].
    + assert (Hrefused : varchar 100 (RegisterForm.email form) = None).
      { apply varchar_None. split; [|done].
        pose proof (len_rstrip_spaces (RegisterForm.email form)). lia. }
      by rewrite Hrefused.
    + assert (Hrefused :
        varchar 255 (generate_password_hash salt (RegisterForm.password form)) = None).
      { apply varchar_None. split; [|done].
        pose proof (len_rstrip_spaces
                      (generate_password_hash salt (RegisterForm.password form))). lia. }
      rewrite Hrefused. by destruct (varchar 100 (RegisterForm.email form)).
Qed.

End account_facts.

Lemma emails_unique_empty {collation : Collation} : emails_unique empty_db.
Proof. intros k1 k2 r1 r2 H1. simpl in H1. by rewrite lookup_empty in H1. Qed.

Lemma register_then_login_witness :
  (register (hasher := plain_hasher) (collation := exact_collation)
            (emails := at_sign_check) "salt" 1 (form_dave "admin") empty_db
   = (AuthPage (Some ("Account created. Please login.", "auth-success")), store_dave)
   ∧ ∃ account,
      User.role_of account = admin
      ∧ login (hasher := plain_hasher) (collation := exact_collation)
              (emails := at_sign_check)
              {| LoginForm.csrf_token := true;
                 LoginForm.email := "dave@example.com";
                 LoginForm.password := "secret1" |} store_dave
        = LoggedIn account "admin_dashboard")
  ∧ len (RegisterForm.email form_long_address) = 113
  ∧ register (hasher := plain_hasher) (collation := exact_collation)
             (emails := at_sign_check) "salt" 1 form_long_address empty_db
    = (AuthError DataError, empty_db).
Proof.
  destruct (register_then_login (hasher := plain_hasher) (collation := exact_collation)
              (emails := at_sign_check) "salt" 1 form_long_address empty_db)
    as [_ Hlong];
    [apply emails_unique_empty|reflexivity|reflexivity|reflexivity|].
  destruct (register_then_login (hasher := plain_hasher) (collation := exact_collation)
              (emails := at_sign_check) "salt" 1 (form_dave "admin") empty_db)
    as [Hfits _];
    [apply emails_unique_empty|reflexivity|reflexivity|reflexivity|].
  split; [|split; [reflexivity|apply Hlong; left; vm_compute; reflexivity]].
  destruct Hfits as (r & db' & account & Hr & Hreg & Hacc & Hrole & Hlogin);
    [vm_compute; discriminate|vm_compute; discriminate|].
  assert (Hdb : db' = store_dave).
  { assert (Hcomputed : register (hasher := plain_hasher) (collation := exact_collation)
                          (emails := at_sign_check) "salt" 1 (form_dave "admin") empty_db
                        = (AuthPage (Some ("Account created. Please login.",
                                           "auth-success")), store_dave))
      by (vm_compute; reflexivity).
    rewrite Hcomputed in Hreg. by injection Hreg as <-. }
  subst db'. split; [exact Hreg|].
  exists account. injection Hr as <-. split; [exact Hrole|].
  destruct (Hlogin {| LoginForm.csrf_token := true;
                      LoginForm.email := "dave@example.com";
                      LoginForm.password := "secret1" |} eq_refl eq_refl)
    as [Hok _].
  rewrite (Hok eq_refl). unfold User.is_admin. rewrite Hrole. reflexivity.
Defined.

Lemma register_keeps_emails_unique_witness :
  emails_unique (collation := exact_collation) store_dave
  ∧ register (hasher := plain_hasher) (collation := exact_collation)
             (emails := at_sign_check) "pepper" 2 (form_dave "staff") store_dave
    = (AuthPage (Some ("Email already registered", "auth-danger")), store_dave).
Proof.
  assert (Hfirst : (register (hasher := plain_hasher) (collation := exact_collation)
                             (emails := at_sign_check) "salt" 1 (form_dave "admin")
                             empty_db).2 = store_dave)
    by (vm_compute; reflexivity).
  destruct (register_keeps_emails_unique (hasher := plain_hasher)
              (collation := exact_collation) (emails := at_sign_check)
              "salt" 1 (form_dave "admin") empty_db
              (emails_unique_empty (collation := exact_collation)))
    as (Huniq & _).
  rewrite Hfirst in Huniq. split; [exact Huniq|].
  destruct (register_keeps_emails_unique (hasher := plain_hasher)
              (collation := exact_collation) (emails := at_sign_check)
              "pepper" 2 (form_dave "staff") store_dave Huniq)
    as (_ & Hdup & _).
  apply (Hdup eq_refl 1
           {| u_name := "Dave"; u_email := "dave@example.com";
              u_password := "secret1"; u_role := admin |}); reflexivity.
Defined.

(** X23: the statistics served by [api_stats] have the same three keys
    for both roles (total, pending, approved: the administrator's variant
    has no rejected count); pending and approved are never negative and
    together never exceed total. *)
Theorem api_stats_shape (u : User.t) (db : DB) :
  ∃ total pending_count approved_count,
    api_stats u db
    = {[ "total" := total; "pending" := pending_count; "approved" := approved_count ]}
    ∧ 0 <= pending_count
    ∧ 0 <= approved_count
    ∧ pending_count + approved_count <= total
    ∧ (User.is_admin u = true → total = BookingQuery.get_total_count db)
    ∧ (User.is_admin u = false → total = user_total (User.user_id u) db).
Proof.
  unfold api_stats. destruct (User.is_admin u).
  - eexists _, _, _. split; [reflexivity|].
    pose proof (count_by_status (bookings db) (λ _ _, true)) as Hsum.
    pose proof (sql_count_nonneg (BookingQuery.status_is pending) (bookings db)).
    pose proof (sql_count_nonneg (BookingQuery.status_is approved) (bookings db)).
    pose proof (sql_count_nonneg (BookingQuery.status_is rejected) (bookings db)).
    pose proof (sql_count_nonneg (BookingQuery.status_is cancelled) (bookings db)).
    unfold BookingQuery.get_total_count, BookingQuery.get_pending_count,
      BookingQuery.get_approved_count, BookingQuery.status_is in *.
    simpl in Hsum. repeat split; try done; lia.
  - eexists _, _, _. split; [apply get_user_stats_counts|].
    pose proof (count_by_status (bookings db)
                  (BookingQuery.of_user (User.user_id u))) as Hsum.
    pose proof (sql_count_nonneg
                  (λ k b, BookingQuery.of_user (User.user_id u) k b
                          && bool_decide (b_status b = pending)) (bookings db)).
    pose proof (sql_count_nonneg
                  (λ k b, BookingQuery.of_user (User.user_id u) k b
                          && bool_decide (b_status b = approved)) (bookings db)).
    pose proof (sql_count_nonneg
                  (λ k b, BookingQuery.of_user (User.user_id u) k b
                          && bool_decide (b_status b = rejected)) (bookings db)).
    pose proof (sql_count_nonneg
                  (λ k b, BookingQuery.of_user (User.user_id u) k b
                          && bool_decide (b_status b = cancelled)) (bookings db)).
    unfold user_total, user_in_status in *. repeat split; try done; lia.
Qed.
